(** * IMX708 sensor driver: control logic, framing model and streaming
      state machine

    A shallow embedding of [drivers/media/i2c/imx708.c].  Machine integers
    are [Z] with their wrap-around written out, the driver's [struct
    imx708] is a record that is threaded through every operation, and the
    two-wire bus, the regulators, the clock and the reset line are the
    fields of a [Platform] the development is parametric in. *)

From Stdlib Require Import ZArith List Bool Lia.
Import ListNotations.
Local Open Scope Z_scope.

(** ** Machine integers *)

Definition u32 (x : Z) : Z := x mod 2 ^ 32.

(** Conversion to [int] (two's complement, 32 bits). *)
Definition s32 (x : Z) : Z :=
  let r := x mod 2 ^ 32 in
  if r <? 2 ^ 31 then r else r - 2 ^ 32.

(** Modelled from the spec: the kernel's [abs()] macro of
    [include/linux/math.h], which is not part of the driver file.  The spec
    calls the metric [|dwidth| + |dheight|]; on an [int]-sized operand the
    macro stores it in a [signed int] and negates it when negative. *)
Definition abs (x : Z) : Z :=
  let __x := s32 x in
  if __x <? 0 then s32 (- __x) else __x.

(** Error numbers of [errno.h]; the driver returns them negated. *)
Definition EIO : Z := 5.
Definition EINVAL : Z := 22.
Definition ENOIOCTLCMD : Z := 515.

(** ** Constants of the driver *)

Definition IMX708_REG_VALUE_08BIT : Z := 1.
Definition IMX708_REG_VALUE_16BIT : Z := 2.

Definition IMX708_REG_MODE_SELECT : Z := 0x0100.
Definition IMX708_MODE_STANDBY : Z := 0x00.
Definition IMX708_MODE_STREAMING : Z := 0x01.

Definition IMX708_REG_ORIENTATION : Z := 0x101.

Definition IMX708_INITIAL_PIXEL_RATE : Z := 590000000.

Definition IMX708_REG_FRAME_LENGTH : Z := 0x0340.
Definition IMX708_FRAME_LENGTH_MAX : Z := 0xffff.

Definition IMX708_LONG_EXP_SHIFT_MAX : Z := 7.
Definition IMX708_LONG_EXP_SHIFT_REG : Z := 0x3100.

Definition IMX708_REG_EXPOSURE : Z := 0x0202.
Definition IMX708_EXPOSURE_OFFSET : Z := 48.
Definition IMX708_EXPOSURE_DEFAULT : Z := 0x640.
Definition IMX708_EXPOSURE_STEP : Z := 1.
Definition IMX708_EXPOSURE_MIN : Z := 1.
Definition IMX708_EXPOSURE_MAX : Z :=
  IMX708_FRAME_LENGTH_MAX - IMX708_EXPOSURE_OFFSET.

Definition IMX708_REG_ANALOG_GAIN : Z := 0x0204.
Definition IMX708_ANA_GAIN_MIN : Z := 112.
Definition IMX708_ANA_GAIN_MAX : Z := 960.
Definition IMX708_ANA_GAIN_STEP : Z := 1.
Definition IMX708_ANA_GAIN_DEFAULT : Z := IMX708_ANA_GAIN_MIN.

Definition IMX708_REG_DIGITAL_GAIN : Z := 0x020e.
Definition IMX708_DGTL_GAIN_MIN : Z := 0x0100.
Definition IMX708_DGTL_GAIN_MAX : Z := 0xffff.
Definition IMX708_DGTL_GAIN_DEFAULT : Z := 0x0100.
Definition IMX708_DGTL_GAIN_STEP : Z := 1.

Definition IMX708_REG_TEST_PATTERN : Z := 0x0600.
Definition IMX708_TEST_PATTERN_DISABLE : Z := 0.
Definition IMX708_TEST_PATTERN_SOLID_COLOR : Z := 1.
Definition IMX708_TEST_PATTERN_COLOR_BARS : Z := 2.
Definition IMX708_TEST_PATTERN_GREY_COLOR : Z := 3.
Definition IMX708_TEST_PATTERN_PN9 : Z := 4.

Definition IMX708_REG_TEST_PATTERN_R : Z := 0x0602.
Definition IMX708_REG_TEST_PATTERN_GR : Z := 0x0604.
Definition IMX708_REG_TEST_PATTERN_B : Z := 0x0606.
Definition IMX708_REG_TEST_PATTERN_GB : Z := 0x0608.
Definition IMX708_TEST_PATTERN_COLOUR_MIN : Z := 0.
Definition IMX708_TEST_PATTERN_COLOUR_MAX : Z := 0x0fff.
Definition IMX708_TEST_PATTERN_COLOUR_STEP : Z := 1.

Definition IMX708_REG_BASE_SPC_GAINS_L : Z := 0x7b10.
Definition IMX708_REG_BASE_SPC_GAINS_R : Z := 0x7c00.

Definition IMX708_HDR_EXPOSURE_RATIO : Z := 4.

Definition IMX708_PIXEL_ARRAY_LEFT : Z := 16.
Definition IMX708_PIXEL_ARRAY_TOP : Z := 24.

(** Modelled from the spec: the format code of RGGB10 and the HDR variant
    tags, which the catalog refers to and kernel headers outside the driver
    file declare ([media-bus-format.h], [rk-camera-module.h]).  The values
    are those of the headers; the theorems only use that they differ. *)
Definition MEDIA_BUS_FMT_SRGGB10_1X10 : Z := 0x300f.
Definition NO_HDR : Z := 0.
Definition HDR_X2 : Z := 5.
Definition HDR_X3 : Z := 6.

(** ** Register lists *)

Record imx708_reg := Reg { address : Z; reg_val : Z }.

Record imx708_reg_list := { regs : list imx708_reg }.

Definition num_of_regs (l : imx708_reg_list) : Z := Z.of_nat (length (regs l)).

Record v4l2_fract := { numerator : Z; denominator : Z }.

Record v4l2_rect :=
  { left : Z; top : Z; rect_width : Z; rect_height : Z }.

(** Mode : resolution and related config & values. *)
Record imx708_mode := {
  bus_fmt : Z;
  width : Z;
  height : Z;
  max_fps : v4l2_fract;
  line_length_pix : Z;
  crop : v4l2_rect;
  vblank_min : Z;
  vblank_default : Z;
  reg_list : imx708_reg_list;
  pixel_rate_of : Z;
  exposure_lines_min : Z;
  exposure_lines_step : Z;
  hdr_mode : Z
}.

(** Default PDAF pixel correction gains. *)
Definition pdaf_gains : list (list Z) :=
  [ [0x4c; 0x4c; 0x4c; 0x46; 0x3e; 0x38; 0x35; 0x35; 0x35]
  ; [0x35; 0x35; 0x35; 0x38; 0x3e; 0x46; 0x4c; 0x4c; 0x4c] ].

Definition pdaf_gain (row i : Z) : Z :=
  nth (Z.to_nat i) (nth (Z.to_nat row) pdaf_gains []) 0.

Definition link_450Mhz_regs : list imx708_reg :=
  [ Reg 0x030E 0x01; Reg 0x030F 0x2C ].

Definition link_447Mhz_regs : list imx708_reg :=
  [ Reg 0x030E 0x01; Reg 0x030F 0x2A ].

Definition link_453Mhz_regs : list imx708_reg :=
  [ Reg 0x030E 0x01; Reg 0x030F 0x2E ].

Definition mode_common_regs : list imx708_reg :=
  [ Reg 0x0100 0x00; Reg 0x0136 0x18; Reg 0x0137 0x00; Reg 0x33F0 0x02
  ; Reg 0x33F1 0x05; Reg 0x3062 0x00; Reg 0x3063 0x12; Reg 0x3068 0x00
  ; Reg 0x3069 0x12; Reg 0x306A 0x00; Reg 0x306B 0x30; Reg 0x3076 0x00
  ; Reg 0x3077 0x30; Reg 0x3078 0x00; Reg 0x3079 0x30; Reg 0x5E54 0x0C
  ; Reg 0x6E44 0x00; Reg 0xB0B6 0x01; Reg 0xE829 0x00; Reg 0xF001 0x08
  ; Reg 0xF003 0x08; Reg 0xF00D 0x10; Reg 0xF00F 0x10; Reg 0xF031 0x08
  ; Reg 0xF033 0x08; Reg 0xF03D 0x10; Reg 0xF03F 0x10; Reg 0x0112 0x0A
  ; Reg 0x0113 0x0A; Reg 0x0114 0x01; Reg 0x0B8E 0x01; Reg 0x0B8F 0x00
  ; Reg 0x0B94 0x01; Reg 0x0B95 0x00; Reg 0x3400 0x01; Reg 0x3478 0x01
  ; Reg 0x3479 0x1C; Reg 0x3091 0x01; Reg 0x3092 0x00; Reg 0x3419 0x00
  ; Reg 0xBCF1 0x02; Reg 0x3094 0x01; Reg 0x3095 0x01; Reg 0x3362 0x00
  ; Reg 0x3363 0x00; Reg 0x3364 0x00; Reg 0x3365 0x00; Reg 0x0138 0x01 ].

Definition mode_4608x2592_regs : list imx708_reg :=
  [ Reg 0x0342 0x3D; Reg 0x0343 0x20; Reg 0x0340 0x0A; Reg 0x0341 0x59
  ; Reg 0x0344 0x00; Reg 0x0345 0x00; Reg 0x0346 0x00; Reg 0x0347 0x00
  ; Reg 0x0348 0x11; Reg 0x0349 0xFF; Reg 0x034A 0x0A; Reg 0x034B 0x1F
  ; Reg 0x0220 0x62; Reg 0x0222 0x01; Reg 0x0900 0x00; Reg 0x0901 0x11
  ; Reg 0x0902 0x0A; Reg 0x3200 0x01; Reg 0x3201 0x01; Reg 0x32D5 0x01
  ; Reg 0x32D6 0x00; Reg 0x32DB 0x01; Reg 0x32DF 0x00; Reg 0x350C 0x00
  ; Reg 0x350D 0x00; Reg 0x0408 0x00; Reg 0x0409 0x00; Reg 0x040A 0x00
  ; Reg 0x040B 0x00; Reg 0x040C 0x12; Reg 0x040D 0x00; Reg 0x040E 0x0A
  ; Reg 0x040F 0x20; Reg 0x034C 0x12; Reg 0x034D 0x00; Reg 0x034E 0x0A
  ; Reg 0x034F 0x20; Reg 0x0301 0x05; Reg 0x0303 0x02; Reg 0x0305 0x02
  ; Reg 0x0306 0x00; Reg 0x0307 0x7C; Reg 0x030B 0x02; Reg 0x030D 0x04
  ; Reg 0x0310 0x01; Reg 0x3CA0 0x00; Reg 0x3CA1 0x64; Reg 0x3CA4 0x00
  ; Reg 0x3CA5 0x00; Reg 0x3CA6 0x00; Reg 0x3CA7 0x00; Reg 0x3CAA 0x00
  ; Reg 0x3CAB 0x00; Reg 0x3CB8 0x00; Reg 0x3CB9 0x08; Reg 0x3CBA 0x00
  ; Reg 0x3CBB 0x00; Reg 0x3CBC 0x00; Reg 0x3CBD 0x3C; Reg 0x3CBE 0x00
  ; Reg 0x3CBF 0x00; Reg 0x0202 0x0A; Reg 0x0203 0x29; Reg 0x0224 0x01
  ; Reg 0x0225 0xF4; Reg 0x3116 0x01; Reg 0x3117 0xF4; Reg 0x0204 0x00
  ; Reg 0x0205 0x00; Reg 0x0216 0x00; Reg 0x0217 0x00; Reg 0x0218 0x01
  ; Reg 0x0219 0x00; Reg 0x020E 0x01; Reg 0x020F 0x00; Reg 0x3118 0x00
  ; Reg 0x3119 0x00; Reg 0x311A 0x01; Reg 0x311B 0x00; Reg 0x341A 0x00
  ; Reg 0x341B 0x00; Reg 0x341C 0x00; Reg 0x341D 0x00; Reg 0x341E 0x01
  ; Reg 0x341F 0x20; Reg 0x3420 0x00; Reg 0x3421 0xD8; Reg 0xC428 0x00
  ; Reg 0xC429 0x04; Reg 0x3366 0x00; Reg 0x3367 0x00; Reg 0x3368 0x00
  ; Reg 0x3369 0x00 ].

Definition mode_2x2binned_regs : list imx708_reg :=
  [ Reg 0x0342 0x1E; Reg 0x0343 0x90; Reg 0x0340 0x05; Reg 0x0341 0x38
  ; Reg 0x0344 0x00; Reg 0x0345 0x00; Reg 0x0346 0x00; Reg 0x0347 0x00
  ; Reg 0x0348 0x11; Reg 0x0349 0xFF; Reg 0x034A 0x0A; Reg 0x034B 0x1F
  ; Reg 0x0220 0x62; Reg 0x0222 0x01; Reg 0x0900 0x01; Reg 0x0901 0x22
  ; Reg 0x0902 0x08; Reg 0x3200 0x41; Reg 0x3201 0x41; Reg 0x32D5 0x00
  ; Reg 0x32D6 0x00; Reg 0x32DB 0x01; Reg 0x32DF 0x00; Reg 0x350C 0x00
  ; Reg 0x350D 0x00; Reg 0x0408 0x00; Reg 0x0409 0x00; Reg 0x040A 0x00
  ; Reg 0x040B 0x00; Reg 0x040C 0x09; Reg 0x040D 0x00; Reg 0x040E 0x05
  ; Reg 0x040F 0x10; Reg 0x034C 0x09; Reg 0x034D 0x00; Reg 0x034E 0x05
  ; Reg 0x034F 0x10; Reg 0x0301 0x05; Reg 0x0303 0x02; Reg 0x0305 0x02
  ; Reg 0x0306 0x00; Reg 0x0307 0x7A; Reg 0x030B 0x02; Reg 0x030D 0x04
  ; Reg 0x0310 0x01; Reg 0x3CA0 0x00; Reg 0x3CA1 0x3C; Reg 0x3CA4 0x00
  ; Reg 0x3CA5 0x3C; Reg 0x3CA6 0x00; Reg 0x3CA7 0x00; Reg 0x3CAA 0x00
  ; Reg 0x3CAB 0x00; Reg 0x3CB8 0x00; Reg 0x3CB9 0x1C; Reg 0x3CBA 0x00
  ; Reg 0x3CBB 0x08; Reg 0x3CBC 0x00; Reg 0x3CBD 0x1E; Reg 0x3CBE 0x00
  ; Reg 0x3CBF 0x0A; Reg 0x0202 0x05; Reg 0x0203 0x08; Reg 0x0224 0x01
  ; Reg 0x0225 0xF4; Reg 0x3116 0x01; Reg 0x3117 0xF4; Reg 0x0204 0x00
  ; Reg 0x0205 0x70; Reg 0x0216 0x00; Reg 0x0217 0x70; Reg 0x0218 0x01
  ; Reg 0x0219 0x00; Reg 0x020E 0x01; Reg 0x020F 0x00; Reg 0x3118 0x00
  ; Reg 0x3119 0x70; Reg 0x311A 0x01; Reg 0x311B 0x00; Reg 0x341A 0x00
  ; Reg 0x341B 0x00; Reg 0x341C 0x00; Reg 0x341D 0x00; Reg 0x341E 0x00
  ; Reg 0x341F 0x90; Reg 0x3420 0x00; Reg 0x3421 0x6C; Reg 0x3366 0x07
  ; Reg 0x3367 0x80; Reg 0x3368 0x04; Reg 0x3369 0x38 ].

Definition mode_2x2binned_720p_regs : list imx708_reg :=
  [ Reg 0x0342 0x14; Reg 0x0343 0x60; Reg 0x0340 0x04; Reg 0x0341 0xB6
  ; Reg 0x0344 0x03; Reg 0x0345 0x00; Reg 0x0346 0x01; Reg 0x0347 0xB0
  ; Reg 0x0348 0x0E; Reg 0x0349 0xFF; Reg 0x034A 0x08; Reg 0x034B 0x6F
  ; Reg 0x0220 0x62; Reg 0x0222 0x01; Reg 0x0900 0x01; Reg 0x0901 0x22
  ; Reg 0x0902 0x08; Reg 0x3200 0x41; Reg 0x3201 0x41; Reg 0x32D5 0x00
  ; Reg 0x32D6 0x00; Reg 0x32DB 0x01; Reg 0x32DF 0x01; Reg 0x350C 0x00
  ; Reg 0x350D 0x00; Reg 0x0408 0x00; Reg 0x0409 0x00; Reg 0x040A 0x00
  ; Reg 0x040B 0x00; Reg 0x040C 0x06; Reg 0x040D 0x00; Reg 0x040E 0x03
  ; Reg 0x040F 0x60; Reg 0x034C 0x06; Reg 0x034D 0x00; Reg 0x034E 0x03
  ; Reg 0x034F 0x60; Reg 0x0301 0x05; Reg 0x0303 0x02; Reg 0x0305 0x02
  ; Reg 0x0306 0x00; Reg 0x0307 0x76; Reg 0x030B 0x02; Reg 0x030D 0x04
  ; Reg 0x0310 0x01; Reg 0x3CA0 0x00; Reg 0x3CA1 0x3C; Reg 0x3CA4 0x01
  ; Reg 0x3CA5 0x5E; Reg 0x3CA6 0x00; Reg 0x3CA7 0x00; Reg 0x3CAA 0x00
  ; Reg 0x3CAB 0x00; Reg 0x3CB8 0x00; Reg 0x3CB9 0x0C; Reg 0x3CBA 0x00
  ; Reg 0x3CBB 0x04; Reg 0x3CBC 0x00; Reg 0x3CBD 0x1E; Reg 0x3CBE 0x00
  ; Reg 0x3CBF 0x05; Reg 0x0202 0x04; Reg 0x0203 0x86; Reg 0x0224 0x01
  ; Reg 0x0225 0xF4; Reg 0x3116 0x01; Reg 0x3117 0xF4; Reg 0x0204 0x00
  ; Reg 0x0205 0x70; Reg 0x0216 0x00; Reg 0x0217 0x70; Reg 0x0218 0x01
  ; Reg 0x0219 0x00; Reg 0x020E 0x01; Reg 0x020F 0x00; Reg 0x3118 0x00
  ; Reg 0x3119 0x70; Reg 0x311A 0x01; Reg 0x311B 0x00; Reg 0x341A 0x00
  ; Reg 0x341B 0x00; Reg 0x341C 0x00; Reg 0x341D 0x00; Reg 0x341E 0x00
  ; Reg 0x341F 0x60; Reg 0x3420 0x00; Reg 0x3421 0x48; Reg 0x3366 0x00
  ; Reg 0x3367 0x00; Reg 0x3368 0x00; Reg 0x3369 0x00 ].

Definition mode_hdr_regs : list imx708_reg :=
  [ Reg 0x0342 0x14; Reg 0x0343 0x60; Reg 0x0340 0x0A; Reg 0x0341 0x5B
  ; Reg 0x0344 0x00; Reg 0x0345 0x00; Reg 0x0346 0x00; Reg 0x0347 0x00
  ; Reg 0x0348 0x11; Reg 0x0349 0xFF; Reg 0x034A 0x0A; Reg 0x034B 0x1F
  ; Reg 0x0220 0x01; Reg 0x0222 IMX708_HDR_EXPOSURE_RATIO; Reg 0x0900 0x00; Reg 0x0901 0x11
  ; Reg 0x0902 0x0A; Reg 0x3200 0x01; Reg 0x3201 0x01; Reg 0x32D5 0x00
  ; Reg 0x32D6 0x00; Reg 0x32DB 0x01; Reg 0x32DF 0x00; Reg 0x350C 0x00
  ; Reg 0x350D 0x00; Reg 0x0408 0x00; Reg 0x0409 0x00; Reg 0x040A 0x00
  ; Reg 0x040B 0x00; Reg 0x040C 0x09; Reg 0x040D 0x00; Reg 0x040E 0x05
  ; Reg 0x040F 0x10; Reg 0x034C 0x09; Reg 0x034D 0x00; Reg 0x034E 0x05
  ; Reg 0x034F 0x10; Reg 0x0301 0x05; Reg 0x0303 0x02; Reg 0x0305 0x02
  ; Reg 0x0306 0x00; Reg 0x0307 0xA2; Reg 0x030B 0x02; Reg 0x030D 0x04
  ; Reg 0x0310 0x01; Reg 0x3CA0 0x00; Reg 0x3CA1 0x00; Reg 0x3CA4 0x00
  ; Reg 0x3CA5 0x00; Reg 0x3CA6 0x00; Reg 0x3CA7 0x28; Reg 0x3CAA 0x00
  ; Reg 0x3CAB 0x00; Reg 0x3CB8 0x00; Reg 0x3CB9 0x30; Reg 0x3CBA 0x00
  ; Reg 0x3CBB 0x00; Reg 0x3CBC 0x00; Reg 0x3CBD 0x32; Reg 0x3CBE 0x00
  ; Reg 0x3CBF 0x00; Reg 0x0202 0x0A; Reg 0x0203 0x2B; Reg 0x0224 0x0A
  ; Reg 0x0225 0x2B; Reg 0x3116 0x0A; Reg 0x3117 0x2B; Reg 0x0204 0x00
  ; Reg 0x0205 0x00; Reg 0x0216 0x00; Reg 0x0217 0x00; Reg 0x0218 0x01
  ; Reg 0x0219 0x00; Reg 0x020E 0x01; Reg 0x020F 0x00; Reg 0x3118 0x00
  ; Reg 0x3119 0x00; Reg 0x311A 0x01; Reg 0x311B 0x00; Reg 0x341A 0x00
  ; Reg 0x341B 0x00; Reg 0x341C 0x00; Reg 0x341D 0x00; Reg 0x341E 0x00
  ; Reg 0x341F 0x90; Reg 0x3420 0x00; Reg 0x3421 0x6C; Reg 0x3360 0x01
  ; Reg 0x3361 0x01; Reg 0x3366 0x07; Reg 0x3367 0x80; Reg 0x3368 0x04
  ; Reg 0x3369 0x38 ].

Definition link_freq_regs : list imx708_reg_list :=
  [ {| regs := link_450Mhz_regs |}
  ; {| regs := link_447Mhz_regs |}
  ; {| regs := link_453Mhz_regs |} ].

(** Mode configs.  Keep separate lists for when HDR is enabled or not. *)
Definition mode_4608x2592 : imx708_mode := {|
  bus_fmt := MEDIA_BUS_FMT_SRGGB10_1X10;
  width := 4608;
  height := 2592;
  max_fps := {| numerator := 10000; denominator := 140000 |};
  line_length_pix := 0x3d20;
  crop := {| left := IMX708_PIXEL_ARRAY_LEFT; top := IMX708_PIXEL_ARRAY_TOP;
             rect_width := 4608; rect_height := 2592 |};
  vblank_min := 58;
  vblank_default := 58;
  reg_list := {| regs := mode_4608x2592_regs |};
  pixel_rate_of := 595200000;
  exposure_lines_min := 8;
  exposure_lines_step := 1;
  hdr_mode := NO_HDR
|}.

Definition mode_2x2binned : imx708_mode := {|
  bus_fmt := MEDIA_BUS_FMT_SRGGB10_1X10;
  width := 1920;
  height := 1080;
  max_fps := {| numerator := 10000; denominator := 660000 |};
  line_length_pix := 0x1e90;
  crop := {| left := IMX708_PIXEL_ARRAY_LEFT; top := IMX708_PIXEL_ARRAY_TOP;
             rect_width := 4608; rect_height := 2592 |};
  vblank_min := 40;
  vblank_default := 1198;
  reg_list := {| regs := mode_2x2binned_regs |};
  pixel_rate_of := 585600000;
  exposure_lines_min := 4;
  exposure_lines_step := 2;
  hdr_mode := NO_HDR
|}.

Definition mode_hdr : imx708_mode := {|
  bus_fmt := MEDIA_BUS_FMT_SRGGB10_1X10;
  width := 1920;
  height := 1080;
  max_fps := {| numerator := 10000; denominator := 310000 |};
  line_length_pix := 0x1460;
  crop := {| left := IMX708_PIXEL_ARRAY_LEFT; top := IMX708_PIXEL_ARRAY_TOP;
             rect_width := 4608; rect_height := 2592 |};
  vblank_min := 3673;
  vblank_default := 3673;
  reg_list := {| regs := mode_hdr_regs |};
  pixel_rate_of := 777600000;
  exposure_lines_min :=
    8 * IMX708_HDR_EXPOSURE_RATIO * IMX708_HDR_EXPOSURE_RATIO;
  exposure_lines_step :=
    2 * IMX708_HDR_EXPOSURE_RATIO * IMX708_HDR_EXPOSURE_RATIO;
  hdr_mode := HDR_X3
|}.

Definition mode_2x2binned_720p : imx708_mode := {|
  bus_fmt := MEDIA_BUS_FMT_SRGGB10_1X10;
  width := 1536;
  height := 864;
  max_fps := {| numerator := 10000; denominator := 1200000 |};
  line_length_pix := 0x1460;
  crop := {| left := IMX708_PIXEL_ARRAY_LEFT + 768;
             top := IMX708_PIXEL_ARRAY_TOP + 432;
             rect_width := 3072; rect_height := 1728 |};
  vblank_min := 40;
  vblank_default := 2755;
  reg_list := {| regs := mode_2x2binned_720p_regs |};
  pixel_rate_of := 566400000;
  exposure_lines_min := 4;
  exposure_lines_step := 2;
  hdr_mode := NO_HDR
|}.

Definition supported_modes : list imx708_mode :=
  [ mode_4608x2592; mode_2x2binned; mode_hdr; mode_2x2binned_720p ].

(** [supported_modes[i]]; a mode pointer of the driver is an index into the
    table. *)
Definition supported_mode (i : nat) : imx708_mode :=
  nth i supported_modes mode_4608x2592.

Definition imx708_test_pattern_val : list Z :=
  [ IMX708_TEST_PATTERN_DISABLE
  ; IMX708_TEST_PATTERN_COLOR_BARS
  ; IMX708_TEST_PATTERN_SOLID_COLOR
  ; IMX708_TEST_PATTERN_GREY_COLOR
  ; IMX708_TEST_PATTERN_PN9 ].

(** ** Controls and device state *)

(** The part of [struct v4l2_ctrl] the driver reads or changes. *)
Record v4l2_ctrl := Ctrl {
  val : Z;
  minimum : Z;
  maximum : Z;
  step : Z;
  default_value : Z;
  read_only : bool;
  grabbed : bool
}.

(** The control ids a handler of this driver can be called with: the ones
    [imx708_init_controls] registers.  [imx708_set_ctrl] knows the first
    eleven. *)
Inductive v4l2_cid :=
| V4L2_CID_VBLANK
| V4L2_CID_ANALOGUE_GAIN
| V4L2_CID_EXPOSURE
| V4L2_CID_DIGITAL_GAIN
| V4L2_CID_TEST_PATTERN
| V4L2_CID_TEST_PATTERN_RED
| V4L2_CID_TEST_PATTERN_GREENR
| V4L2_CID_TEST_PATTERN_BLUE
| V4L2_CID_TEST_PATTERN_GREENB
| V4L2_CID_HFLIP
| V4L2_CID_VFLIP
| V4L2_CID_PIXEL_RATE
| V4L2_CID_LINK_FREQ
| V4L2_CID_HBLANK
| V4L2_CID_CAMERA_ORIENTATION
| V4L2_CID_CAMERA_SENSOR_ROTATION.

(** The controls [imx708_init_controls] creates without keeping a pointer
    in [struct imx708]; they live in the handler only. *)
Record v4l2_ctrl_handler := Handler {
  link_freq : v4l2_ctrl;
  analogue_gain : v4l2_ctrl;
  digital_gain : v4l2_ctrl;
  test_pattern : v4l2_ctrl;
  test_pattern_red : v4l2_ctrl;
  test_pattern_greenr : v4l2_ctrl;
  test_pattern_blue : v4l2_ctrl;
  test_pattern_greenb : v4l2_ctrl;
  camera_orientation : v4l2_ctrl;
  camera_sensor_rotation : v4l2_ctrl
}.

(** [struct imx708].  [cur_mode] is the index of the pointed-to entry of
    [supported_modes]. *)
Record imx708 := Imx708 {
  ctrl_handler : v4l2_ctrl_handler;
  pixel_rate : v4l2_ctrl;
  exposure : v4l2_ctrl;
  vblank : v4l2_ctrl;
  hblank : v4l2_ctrl;
  hflip : v4l2_ctrl;
  vflip : v4l2_ctrl;
  streaming : bool;
  power_on : bool;
  cur_mode : nat;
  cfg_num : nat;
  common_regs_written : bool;
  long_exp_shift : Z;
  link_freq_idx : nat
}.

Definition with_pixel_rate (c : v4l2_ctrl) (s : imx708) : imx708 :=
  let '(Imx708 ch _ ex vb hb hf vf st po cm cn cw ls lf) := s in
  Imx708 ch c ex vb hb hf vf st po cm cn cw ls lf.
Definition with_exposure (c : v4l2_ctrl) (s : imx708) : imx708 :=
  let '(Imx708 ch pr _ vb hb hf vf st po cm cn cw ls lf) := s in
  Imx708 ch pr c vb hb hf vf st po cm cn cw ls lf.
Definition with_vblank (c : v4l2_ctrl) (s : imx708) : imx708 :=
  let '(Imx708 ch pr ex _ hb hf vf st po cm cn cw ls lf) := s in
  Imx708 ch pr ex c hb hf vf st po cm cn cw ls lf.
Definition with_hblank (c : v4l2_ctrl) (s : imx708) : imx708 :=
  let '(Imx708 ch pr ex vb _ hf vf st po cm cn cw ls lf) := s in
  Imx708 ch pr ex vb c hf vf st po cm cn cw ls lf.
Definition with_hflip (c : v4l2_ctrl) (s : imx708) : imx708 :=
  let '(Imx708 ch pr ex vb hb _ vf st po cm cn cw ls lf) := s in
  Imx708 ch pr ex vb hb c vf st po cm cn cw ls lf.
Definition with_vflip (c : v4l2_ctrl) (s : imx708) : imx708 :=
  let '(Imx708 ch pr ex vb hb hf _ st po cm cn cw ls lf) := s in
  Imx708 ch pr ex vb hb hf c st po cm cn cw ls lf.
Definition with_ctrl_handler (h : v4l2_ctrl_handler) (s : imx708) : imx708 :=
  let '(Imx708 _ pr ex vb hb hf vf st po cm cn cw ls lf) := s in
  Imx708 h pr ex vb hb hf vf st po cm cn cw ls lf.
Definition with_streaming (b : bool) (s : imx708) : imx708 :=
  let '(Imx708 ch pr ex vb hb hf vf _ po cm cn cw ls lf) := s in
  Imx708 ch pr ex vb hb hf vf b po cm cn cw ls lf.
Definition with_power_on (b : bool) (s : imx708) : imx708 :=
  let '(Imx708 ch pr ex vb hb hf vf st _ cm cn cw ls lf) := s in
  Imx708 ch pr ex vb hb hf vf st b cm cn cw ls lf.
Definition with_cur_mode (m : nat) (s : imx708) : imx708 :=
  let '(Imx708 ch pr ex vb hb hf vf st po _ cn cw ls lf) := s in
  Imx708 ch pr ex vb hb hf vf st po m cn cw ls lf.
Definition with_common_regs_written (b : bool) (s : imx708) : imx708 :=
  let '(Imx708 ch pr ex vb hb hf vf st po cm cn _ ls lf) := s in
  Imx708 ch pr ex vb hb hf vf st po cm cn b ls lf.
Definition with_long_exp_shift (n : Z) (s : imx708) : imx708 :=
  let '(Imx708 ch pr ex vb hb hf vf st po cm cn cw _ lf) := s in
  Imx708 ch pr ex vb hb hf vf st po cm cn cw n lf.

(** [imx708->cur_mode->...] *)
Definition mode_of (s : imx708) : imx708_mode := supported_mode (cur_mode s).

(** The control a [struct v4l2_ctrl *] with the given id points to. *)
Definition ctrl_of (s : imx708) (id : v4l2_cid) : v4l2_ctrl :=
  match id with
  | V4L2_CID_VBLANK => vblank s
  | V4L2_CID_ANALOGUE_GAIN => analogue_gain (ctrl_handler s)
  | V4L2_CID_EXPOSURE => exposure s
  | V4L2_CID_DIGITAL_GAIN => digital_gain (ctrl_handler s)
  | V4L2_CID_TEST_PATTERN => test_pattern (ctrl_handler s)
  | V4L2_CID_TEST_PATTERN_RED => test_pattern_red (ctrl_handler s)
  | V4L2_CID_TEST_PATTERN_GREENR => test_pattern_greenr (ctrl_handler s)
  | V4L2_CID_TEST_PATTERN_BLUE => test_pattern_blue (ctrl_handler s)
  | V4L2_CID_TEST_PATTERN_GREENB => test_pattern_greenb (ctrl_handler s)
  | V4L2_CID_HFLIP => hflip s
  | V4L2_CID_VFLIP => vflip s
  | V4L2_CID_PIXEL_RATE => pixel_rate s
  | V4L2_CID_HBLANK => hblank s
  | V4L2_CID_LINK_FREQ => link_freq (ctrl_handler s)
  | V4L2_CID_CAMERA_ORIENTATION => camera_orientation (ctrl_handler s)
  | V4L2_CID_CAMERA_SENSOR_ROTATION => camera_sensor_rotation (ctrl_handler s)
  end.

(** Modelled from the spec: [__v4l2_ctrl_modify_range] of the host
    framework, which the driver file only calls.  The spec has every range
    recomputation replace the control's minimum, maximum, step and default;
    the control's value is left to the framework. *)
Definition __v4l2_ctrl_modify_range (ctrl : v4l2_ctrl)
    (min max step def : Z) : v4l2_ctrl :=
  Ctrl (val ctrl) min max step def (read_only ctrl) (grabbed ctrl).

(** Modelled from the spec: [__v4l2_ctrl_grab] of the host framework;
    a grabbed control is frozen, the framework rejects changes to it. *)
Definition __v4l2_ctrl_grab (ctrl : v4l2_ctrl) (grab : bool) : v4l2_ctrl :=
  Ctrl (val ctrl) (minimum ctrl) (maximum ctrl) (step ctrl)
       (default_value ctrl) (read_only ctrl) grab.

(** ** Framing limits *)

Definition imx708_adjust_exposure_range (imx : imx708) : imx708 :=
  (* Honour the VBLANK limits when setting exposure. *)
  let exposure_max :=
    s32 (u32 (u32 (height (mode_of imx) + u32 (val (vblank imx)))
              - IMX708_EXPOSURE_OFFSET)) in
  let exposure_def := Z.min exposure_max (val (exposure imx)) in
  with_exposure
    (__v4l2_ctrl_modify_range (exposure imx) (minimum (exposure imx))
       exposure_max (step (exposure imx)) exposure_def)
    imx.

Definition imx708_set_framing_limits (imx : imx708) : imx708 :=
  let mode := mode_of imx in
  let imx :=
    with_pixel_rate
      (__v4l2_ctrl_modify_range (pixel_rate imx) (pixel_rate_of mode)
         (pixel_rate_of mode) 1 (pixel_rate_of mode)) imx in
  (* Update limits and set FPS to default *)
  let imx :=
    with_vblank
      (__v4l2_ctrl_modify_range (vblank imx) (vblank_min mode)
         (u32 (Z.shiftl 1 IMX708_LONG_EXP_SHIFT_MAX * IMX708_FRAME_LENGTH_MAX
               - height mode))
         1 (vblank_default mode)) imx in
  let hblank_ := u32 (line_length_pix mode - width mode) in
  with_hblank
    (__v4l2_ctrl_modify_range (hblank imx) hblank_ hblank_ 1 hblank_)
    imx.

(** ** Mode catalog and negotiation *)

Record v4l2_mbus_framefmt := {
  fmt_width : Z;
  fmt_height : Z;
  code : Z;
  field : Z
}.

Definition V4L2_FIELD_NONE : Z := 1.
Definition V4L2_SUBDEV_FORMAT_TRY : Z := 0.
Definition V4L2_SUBDEV_FORMAT_ACTIVE : Z := 1.

Record v4l2_subdev_format := {
  which : Z;
  format : v4l2_mbus_framefmt
}.

Definition imx708_get_reso_dist (mode : imx708_mode)
    (framefmt : v4l2_mbus_framefmt) : Z :=
  s32 (abs (u32 (width mode - fmt_width framefmt)) +
       abs (u32 (height mode - fmt_height framefmt))).

(** One turn of the loop of [imx708_find_best_fit], over a table [modes];
    the loop state is [(cur_best_fit, cur_best_fit_dist)]. *)
Definition best_fit_step (modes : list imx708_mode)
    (framefmt : v4l2_mbus_framefmt) (st : nat * Z) (i : nat) : nat * Z :=
  let '(cur_best_fit, cur_best_fit_dist) := st in
  let mode_i := nth i modes mode_4608x2592 in
  let dist := imx708_get_reso_dist mode_i framefmt in
  if ((cur_best_fit_dist =? -1) || (dist <? cur_best_fit_dist)) &&
     (bus_fmt mode_i =? code framefmt)
  then (i, dist)
  else (cur_best_fit, cur_best_fit_dist).

Definition best_fit_loop (modes : list imx708_mode) (n : nat)
    (framefmt : v4l2_mbus_framefmt) : nat * Z :=
  fold_left (best_fit_step modes framefmt) (seq 0 n) (0%nat, -1).

(** Returns [&supported_modes[cur_best_fit]] as its index. *)
Definition imx708_find_best_fit (imx : imx708)
    (fmt : v4l2_subdev_format) : nat :=
  fst (best_fit_loop supported_modes (cfg_num imx) (format fmt)).

(** The try format lives in the file handle's state, so on a TRY request
    only [fmt] changes ([CONFIG_VIDEO_V4L2_SUBDEV_API] is taken as set). *)
Definition imx708_set_pad_format (imx : imx708)
    (fmt : v4l2_subdev_format) : imx708 * v4l2_subdev_format * Z :=
  let mode := imx708_find_best_fit imx fmt in
  let fmt :=
    {| which := which fmt;
       format := {| fmt_width := width (supported_mode mode);
                    fmt_height := height (supported_mode mode);
                    code := bus_fmt (supported_mode mode);
                    field := V4L2_FIELD_NONE |} |} in
  if which fmt =? V4L2_SUBDEV_FORMAT_TRY then (imx, fmt, 0)
  else (imx708_set_framing_limits (with_cur_mode mode imx), fmt, 0).

(** ** The platform: bus, supplies, clock and reset line

    Everything outside the driver file that touches hardware.  [HW] is the
    state of the hardware, unknown to the driver; every primitive returns
    the hardware it leaves behind and its C return value. *)

Class Platform := {
  HW : Type;
  (** [i2c_master_send(client, buf, count)]: the bytes sent, or an error. *)
  i2c_master_send : HW -> list Z -> HW * Z;
  (** [i2c_transfer] of an address write followed by a read of [len]
      bytes: the number of messages done, and the bytes read. *)
  i2c_transfer : HW -> list Z -> Z -> HW * (Z * list Z);
  regulator_bulk_enable : HW -> HW * Z;
  regulator_bulk_disable : HW -> HW;
  clk_prepare_enable : HW -> HW * Z;
  clk_disable_unprepare : HW -> HW;
  gpiod_direction_output : HW -> Z -> HW
}.

(** What went over the bus, with what result. *)
Inductive bus_event :=
| I2C_SEND (buf : list Z) (ret : Z)
| I2C_XFER (addr_buf : list Z) (len : Z) (ret : Z) (data : list Z).

Section Driver.

Context {P : Platform}.

(** The device structure, the power manager's view of the device, the
    hardware and the bus trace (oldest event first). *)
Record world := World {
  dev : imx708;
  usage_count : nat;
  runtime_active : bool;
  hw : HW;
  log : list bus_event
}.

Definition with_dev (d : imx708) (w : world) : world :=
  World d (usage_count w) (runtime_active w) (hw w) (log w).
Definition with_usage_count (n : nat) (w : world) : world :=
  World (dev w) n (runtime_active w) (hw w) (log w).
Definition with_runtime_active (b : bool) (w : world) : world :=
  World (dev w) (usage_count w) b (hw w) (log w).
Definition with_hw (h : HW) (w : world) : world :=
  World (dev w) (usage_count w) (runtime_active w) h (log w).
Definition with_bus (h : HW) (e : bus_event) (w : world) : world :=
  World (dev w) (usage_count w) (runtime_active w) h (log w ++ [e]).

(** State passing: a C function returning [T] on a [struct imx708 *]. *)
Definition M (A : Type) : Type := world -> A * world.

Definition pure {A : Type} (a : A) : M A := fun w => (a, w).

Definition bind {A B : Type} (m : M A) (k : A -> M B) : M B :=
  fun w => let (a, w') := m w in k a w'.

Notation "x <- m ;; k" := (bind m (fun x => k))
  (at level 61, m at next level, right associativity).
Notation "m ;;; k" := (bind m (fun _ => k))
  (at level 61, right associativity).

Definition get_dev : M imx708 := fun w => (dev w, w).
Definition modify_dev (f : imx708 -> imx708) : M unit :=
  fun w => (tt, with_dev (f (dev w)) w).
Definition modify_hw (f : HW -> HW) : M unit :=
  fun w => (tt, with_hw (f (hw w)) w).
Definition call_hw (f : HW -> HW * Z) : M Z :=
  fun w => let (h, r) := f (hw w) in (r, with_hw h w).

(** ** Register transport *)

Definition put_unaligned_be16 (v : Z) : list Z :=
  [ Z.land (Z.shiftr v 8) 0xff; Z.land v 0xff ].

Definition put_unaligned_be32 (v : Z) : list Z :=
  [ Z.land (Z.shiftr v 24) 0xff; Z.land (Z.shiftr v 16) 0xff
  ; Z.land (Z.shiftr v 8) 0xff; Z.land v 0xff ].

Definition get_unaligned_be32 (b : list Z) : Z :=
  Z.lor (Z.shiftl (nth 0 b 0) 24)
    (Z.lor (Z.shiftl (nth 1 b 0) 16)
       (Z.lor (Z.shiftl (nth 2 b 0) 8) (nth 3 b 0))).

(** The message [imx708_write_reg] hands to [i2c_master_send]: the first
    [len + 2] bytes of [buf]. *)
Definition write_buf (reg len val : Z) : list Z :=
  firstn (Z.to_nat (len + 2))
    (put_unaligned_be16 reg ++
     put_unaligned_be32 (u32 (Z.shiftl val (8 * (4 - len))))).

(** [data_buf] of [imx708_read_reg] after the transfer: zero-filled, with
    the [len] bytes read stored at its end. *)
Definition data_buf (len : Z) (data : list Z) : list Z :=
  repeat 0 (Z.to_nat (4 - len)) ++
  firstn (Z.to_nat len)
    (map (fun b => b mod 256) data ++ repeat 0 (Z.to_nat len)).

(** Read registers up to 2 at a time: returns [(ret, *val)]. *)
Definition imx708_read_reg (reg len : Z) : M (Z * Z) :=
  fun w =>
    let addr_buf := [ Z.land (Z.shiftr reg 8) 0xff; Z.land reg 0xff ] in
    if len >? 4 then ((- EINVAL, 0), w)
    else
      let '(h, (r, data)) := i2c_transfer (hw w) addr_buf len in
      let w := with_bus h (I2C_XFER addr_buf len r data) w in
      if negb (r =? 2) then ((- EIO, 0), w)
      else ((0, get_unaligned_be32 (data_buf len data)), w).

(** Write registers up to 2 at a time. *)
Definition imx708_write_reg (reg len val : Z) : M Z :=
  fun w =>
    if len >? 4 then (- EINVAL, w)
    else
      let buf := write_buf reg len val in
      let (h, r) := i2c_master_send (hw w) buf in
      let w := with_bus h (I2C_SEND buf r) w in
      if negb (r =? len + 2) then (- EIO, w) else (0, w).

(** Write a list of registers; [len] of the C function is the length of
    the list. *)
Fixpoint imx708_write_regs (regs : list imx708_reg) (w : world) : Z * world :=
  match regs with
  | [] => (0, w)
  | r :: rest =>
      let (ret, w) := imx708_write_reg (address r) 1 (reg_val r) w in
      if negb (ret =? 0) then (ret, w) else imx708_write_regs rest w
  end.

(** ** Exposure, gain and frame length *)

Definition imx708_set_exposure (val : Z) : M Z :=
  imx <- get_dev ;;
  let val := Z.max val (exposure_lines_min (mode_of imx)) in
  let val := u32 (val - val mod exposure_lines_step (mode_of imx)) in
  (* In HDR mode this will set the longest exposure.  The sensor will
     automatically divide the medium and short ones by 4,16. *)
  imx708_write_reg IMX708_REG_EXPOSURE IMX708_REG_VALUE_16BIT
    (Z.shiftr val (long_exp_shift imx)).

Definition imx708_set_analogue_gain (val : Z) : M Z :=
  ret <- imx708_write_reg IMX708_REG_ANALOG_GAIN IMX708_REG_VALUE_16BIT val ;;
  pure ret.

(** The [while] loop of [imx708_set_frame_length] on
    [(long_exp_shift, val)].  An [unsigned int] has 32 bits, so the 32
    turns allowed here are never all taken: the loop always ends by its
    own test ([frame_length_loop_spec]). *)
Fixpoint frame_length_loop (fuel : nat) (shift val : Z) : Z * Z :=
  match fuel with
  | O => (shift, val)
  | S fuel =>
      if val >? IMX708_FRAME_LENGTH_MAX
      then frame_length_loop fuel (u32 (shift + 1)) (Z.shiftr val 1)
      else (shift, val)
  end.

Definition imx708_set_frame_length (val : Z) : M Z :=
  let (shift, val) := frame_length_loop 32 0 val in
  modify_dev (with_long_exp_shift shift) ;;;
  ret <- imx708_write_reg IMX708_REG_FRAME_LENGTH IMX708_REG_VALUE_16BIT val ;;
  if negb (ret =? 0) then pure ret
  else imx708_write_reg IMX708_LONG_EXP_SHIFT_REG IMX708_REG_VALUE_08BIT shift.

(** ** Power *)

Definition imx708_power_on : M Z :=
  ret <- call_hw regulator_bulk_enable ;;
  if negb (ret =? 0) then pure ret
  else
    ret <- call_hw clk_prepare_enable ;;
    if negb (ret =? 0)
    then modify_hw regulator_bulk_disable ;;; pure ret
    else modify_hw (fun h => gpiod_direction_output h 1) ;;; pure 0.

Definition imx708_power_off : M Z :=
  modify_hw (fun h => gpiod_direction_output h 0) ;;;
  modify_hw regulator_bulk_disable ;;;
  modify_hw clk_disable_unprepare ;;;
  (* Force reprogramming of the common registers when powered up again. *)
  modify_dev (with_common_regs_written false) ;;;
  pure 0.

(** Modelled from the spec: the power manager's usage counting
    ([pm_runtime_*] of the kernel, not part of the driver file).  Power
    usage is reference counted; the first acquisition powers the sensor up
    through [imx708_power_on], the final release powers it down through
    [imx708_power_off] (the driver's runtime callbacks). *)
Definition pm_runtime_get_sync : M Z :=
  fun w =>
    let w := with_usage_count (S (usage_count w)) w in
    if runtime_active w then (1, w)
    else
      let (r, w) := imx708_power_on w in
      if r =? 0 then (0, with_runtime_active true w) else (r, w).

(** Modelled from the spec: dropping a usage that was taken but never
    used; no power-down is triggered. *)
Definition pm_runtime_put_noidle : M unit :=
  fun w => (tt, with_usage_count (Nat.pred (usage_count w)) w).

(** Modelled from the spec: releasing a usage; the final release powers
    the sensor down. *)
Definition pm_runtime_put : M unit :=
  fun w =>
    let w := with_usage_count (Nat.pred (usage_count w)) w in
    if Nat.eqb (usage_count w) 0 && runtime_active w
    then let (_, w) := imx708_power_off w in
         (tt, with_runtime_active false w)
    else (tt, w).

(** Modelled from the spec: takes a usage, and answers 1, only if power
    is in active use already; answers 0 otherwise. *)
Definition pm_runtime_get_if_in_use : M Z :=
  fun w =>
    if runtime_active w && negb (Nat.eqb (usage_count w) 0)
    then (1, with_usage_count (S (usage_count w)) w)
    else (0, w).

(** ** Control application *)

(** The first [switch] of [imx708_set_ctrl]: the range phase. *)
Definition set_ctrl_adjust (id : v4l2_cid) : M unit :=
  match id with
  | V4L2_CID_VBLANK =>
      (* The VBLANK control may change the limits of usable exposure, so
         check and adjust if necessary. *)
      modify_dev imx708_adjust_exposure_range
  | _ => pure tt
  end.

(** The second [switch] of [imx708_set_ctrl]: the hardware-apply phase,
    returning what it leaves in [ret]. *)
Definition set_ctrl_apply (id : v4l2_cid) : M Z :=
  imx <- get_dev ;;
  let ctrl := ctrl_of imx id in
  match id with
  | V4L2_CID_ANALOGUE_GAIN =>
      imx708_set_analogue_gain (u32 (val ctrl)) ;;; pure 0
  | V4L2_CID_EXPOSURE =>
      imx708_set_exposure (u32 (val ctrl))
  | V4L2_CID_DIGITAL_GAIN =>
      imx708_write_reg IMX708_REG_DIGITAL_GAIN IMX708_REG_VALUE_16BIT
        (val ctrl)
  | V4L2_CID_TEST_PATTERN =>
      imx708_write_reg IMX708_REG_TEST_PATTERN IMX708_REG_VALUE_16BIT
        (nth (Z.to_nat (val ctrl)) imx708_test_pattern_val 0)
  | V4L2_CID_TEST_PATTERN_RED =>
      imx708_write_reg IMX708_REG_TEST_PATTERN_R IMX708_REG_VALUE_16BIT
        (val ctrl)
  | V4L2_CID_TEST_PATTERN_GREENR =>
      imx708_write_reg IMX708_REG_TEST_PATTERN_GR IMX708_REG_VALUE_16BIT
        (val ctrl)
  | V4L2_CID_TEST_PATTERN_BLUE =>
      imx708_write_reg IMX708_REG_TEST_PATTERN_B IMX708_REG_VALUE_16BIT
        (val ctrl)
  | V4L2_CID_TEST_PATTERN_GREENB =>
      imx708_write_reg IMX708_REG_TEST_PATTERN_GB IMX708_REG_VALUE_16BIT
        (val ctrl)
  | V4L2_CID_HFLIP
  | V4L2_CID_VFLIP =>
      imx708_write_reg IMX708_REG_ORIENTATION 1
        (Z.lor (val (hflip imx)) (Z.shiftl (val (vflip imx)) 1))
  | V4L2_CID_VBLANK =>
      imx708_set_frame_length (u32 (height (mode_of imx) + u32 (val ctrl)))
  | _ =>
      (* ctrl is not handled *)
      pure (- EINVAL)
  end.

(** [imx708_set_ctrl(ctrl)]; the control is given by its id, and its
    fields are read from the device structure, where the framework has
    stored the new value before the call. *)
Definition imx708_set_ctrl (id : v4l2_cid) : M Z :=
  set_ctrl_adjust id ;;;
  (* Applying V4L2 control value only happens when power is up for
     streaming *)
  in_use <- pm_runtime_get_if_in_use ;;
  if in_use =? 0 then pure 0
  else
    ret <- set_ctrl_apply id ;;
    pm_runtime_put ;;;
    pure ret.

(** The ids the second [switch] of [imx708_set_ctrl] has a [case] for. *)
Definition handled (id : v4l2_cid) : bool :=
  match id with
  | V4L2_CID_PIXEL_RATE | V4L2_CID_LINK_FREQ | V4L2_CID_HBLANK
  | V4L2_CID_CAMERA_ORIENTATION | V4L2_CID_CAMERA_SENSOR_ROTATION => false
  | _ => true
  end.

(** Modelled from the spec: [__v4l2_ctrl_handler_setup] of the host
    framework, the replay of every current control value into hardware.
    The writable controls are taken in the order [imx708_init_controls]
    created them (the flip pair is one cluster, applied once), and the
    replay stops at the first control whose application fails. *)
Definition replay_order : list v4l2_cid :=
  [ V4L2_CID_VBLANK; V4L2_CID_EXPOSURE; V4L2_CID_ANALOGUE_GAIN
  ; V4L2_CID_DIGITAL_GAIN; V4L2_CID_HFLIP; V4L2_CID_TEST_PATTERN
  ; V4L2_CID_TEST_PATTERN_RED; V4L2_CID_TEST_PATTERN_GREENR
  ; V4L2_CID_TEST_PATTERN_BLUE; V4L2_CID_TEST_PATTERN_GREENB ].

Fixpoint ctrl_replay (ids : list v4l2_cid) (w : world) : Z * world :=
  match ids with
  | [] => (0, w)
  | id :: rest =>
      let (ret, w) := imx708_set_ctrl id w in
      if negb (ret =? 0) then (ret, w) else ctrl_replay rest w
  end.

Definition __v4l2_ctrl_handler_setup : M Z := ctrl_replay replay_order.

(** ** Streaming *)

(** [for (i = 0; i < 54 && ret == 0; i++) ret = imx708_write_reg(...)],
    over the remaining values of [i]. *)
Fixpoint pdaf_gains_loop (base row : Z) (todo : list nat) (ret : Z)
    (w : world) : Z * world :=
  match todo with
  | [] => (ret, w)
  | i :: rest =>
      if ret =? 0 then
        let (ret, w) :=
          imx708_write_reg (base + Z.of_nat i) IMX708_REG_VALUE_08BIT
            (pdaf_gain row (Z.of_nat i mod 9)) w in
        pdaf_gains_loop base row rest ret w
      else (ret, w)
  end.

(** The block of [imx708_start_streaming] guarded by
    [!imx708->common_regs_written]. *)
Definition write_common_regs : M Z :=
  ret <- imx708_write_regs mode_common_regs ;;
  if negb (ret =? 0) then pure ret
  else
    rv <- imx708_read_reg IMX708_REG_BASE_SPC_GAINS_L IMX708_REG_VALUE_08BIT ;;
    let '(ret, val) := rv in
    ret <-
      (if (ret =? 0) && (val =? 0x40) then
         ret <- pdaf_gains_loop IMX708_REG_BASE_SPC_GAINS_L 0 (seq 0 54) ret ;;
         pdaf_gains_loop IMX708_REG_BASE_SPC_GAINS_R 1 (seq 0 54) ret
       else pure ret) ;;
    if negb (ret =? 0) then pure ret
    else modify_dev (with_common_regs_written true) ;;; pure 0.

(** Start streaming *)
Definition imx708_start_streaming : M Z :=
  imx <- get_dev ;;
  ret <- (if negb (common_regs_written imx) then write_common_regs
          else pure 0) ;;
  if negb (ret =? 0) then pure ret
  else
    (* Apply default values of current mode *)
    imx <- get_dev ;;
    ret <- imx708_write_regs (regs (reg_list (mode_of imx))) ;;
    if negb (ret =? 0) then pure ret
    else
      (* Update the link frequency registers *)
      imx <- get_dev ;;
      ret <- imx708_write_regs
               (regs (nth (link_freq_idx imx) link_freq_regs
                        {| regs := [] |})) ;;
      if negb (ret =? 0) then pure ret
      else
        (* Apply customized values from user *)
        ret <- __v4l2_ctrl_handler_setup ;;
        if negb (ret =? 0) then pure ret
        else
          (* set stream on register *)
          imx708_write_reg IMX708_REG_MODE_SELECT IMX708_REG_VALUE_08BIT
            IMX708_MODE_STREAMING.

(** Stop streaming *)
Definition imx708_stop_streaming : M unit :=
  (* set stream off register; a failure is only logged *)
  imx708_write_reg IMX708_REG_MODE_SELECT IMX708_REG_VALUE_08BIT
    IMX708_MODE_STANDBY ;;;
  pure tt.

(** The tail of [imx708_set_stream] both branches reach on success. *)
Definition set_stream_commit (enable ret : Z) : M Z :=
  modify_dev (with_streaming (negb (enable =? 0))) ;;;
  (* vflip/hflip and hdr mode cannot change during streaming *)
  modify_dev (fun imx =>
    with_vflip (__v4l2_ctrl_grab (vflip imx) (negb (enable =? 0))) imx) ;;;
  modify_dev (fun imx =>
    with_hflip (__v4l2_ctrl_grab (hflip imx) (negb (enable =? 0))) imx) ;;;
  pure ret.

Definition imx708_set_stream (enable : Z) : M Z :=
  imx <- get_dev ;;
  if Z.b2z (streaming imx) =? enable then pure 0
  else if negb (enable =? 0) then
    ret <- pm_runtime_get_sync ;;
    if ret <? 0 then pm_runtime_put_noidle ;;; pure ret
    else
      (* Apply default & customized values and then start streaming. *)
      ret <- imx708_start_streaming ;;
      if negb (ret =? 0) then pm_runtime_put ;;; pure ret
      else set_stream_commit enable ret
  else
    imx708_stop_streaming ;;;
    pm_runtime_put ;;;
    set_stream_commit enable 0.

Definition imx708_suspend : M Z :=
  imx <- get_dev ;;
  (if streaming imx then imx708_stop_streaming else pure tt) ;;;
  pure 0.

Definition imx708_resume : M Z :=
  imx <- get_dev ;;
  if streaming imx then
    ret <- imx708_start_streaming ;;
    if negb (ret =? 0) then
      imx708_stop_streaming ;;;
      modify_dev (with_streaming false) ;;;
      pure ret
    else pure 0
  else pure 0.

Definition imx708_s_power (on : Z) : M Z :=
  imx <- get_dev ;;
  if Bool.eqb (power_on imx) (negb (on =? 0)) then pure 0
  else if negb (on =? 0) then
    ret <- pm_runtime_get_sync ;;
    if ret <? 0 then pm_runtime_put_noidle ;;; pure ret
    else modify_dev (with_power_on true) ;;; pure ret
  else
    pm_runtime_put ;;;
    modify_dev (with_power_on false) ;;;
    pure 0.

(** ** Vendor extension channel *)

Inductive ioctl_cmd :=
| RKMODULE_GET_MODULE_INFO
| RKMODULE_SET_HDR_CFG
| RKMODULE_GET_HDR_CFG
| RKMODULE_AWB_CFG.

(** The field of [struct rkmodule_hdr_cfg] the driver reads. *)
Record rkmodule_hdr_cfg := { hdr_cfg_mode : Z }.

(** The search loop of [RKMODULE_SET_HDR_CFG]: the first [i < cfg_num] the
    loop breaks at, or [None] when it runs to [i == cfg_num]. *)
Definition hdr_cfg_loop (imx : imx708) (hdr : rkmodule_hdr_cfg) : option nat :=
  let w := width (mode_of imx) in
  let h := height (mode_of imx) in
  find (fun i =>
          (w =? width (supported_mode i)) &&
          (h =? height (supported_mode i)) &&
          (hdr_mode (supported_mode i) =? hdr_cfg_mode hdr))
       (seq 0 (cfg_num imx)).

Definition imx708_ioctl (cmd : ioctl_cmd) (arg : rkmodule_hdr_cfg)
    (imx : imx708) : Z * imx708 :=
  match cmd with
  | RKMODULE_GET_MODULE_INFO => (0, imx)
  | RKMODULE_SET_HDR_CFG =>
      match hdr_cfg_loop imx arg with
      | Some i => (0, imx708_set_framing_limits (with_cur_mode i imx))
      | None => (- EINVAL, imx)
      end
  | _ => (- ENOIOCTLCMD, imx)
  end.

(** ** Device attach *)

Definition IMX708_REG_CHIP_ID : Z := 0x0016.
Definition IMX708_CHIP_ID : Z := 0x0708.
Definition IMX708_INCLK_FREQ : Z := 24000000.

Definition link_freqs : list Z := [ 450000000; 447000000; 453000000 ].

(** What the device tree and the clock framework tell [imx708_probe]. *)
Record board_config := {
  dt_hdr_mode : option Z;
  num_data_lanes : Z;
  link_frequencies : list Z;
  inclk_rate : Z
}.

Definition zero_ctrl : v4l2_ctrl := Ctrl 0 0 0 0 0 false false.

(** [devm_kzalloc]: a zero-filled [struct imx708]. *)
Definition kzalloc_imx708 : imx708 :=
  Imx708
    (Handler zero_ctrl zero_ctrl zero_ctrl zero_ctrl zero_ctrl zero_ctrl
       zero_ctrl zero_ctrl zero_ctrl zero_ctrl)
    zero_ctrl zero_ctrl zero_ctrl zero_ctrl zero_ctrl zero_ctrl
    false false 0 0 false 0 0.

(** Modelled from the spec: [v4l2_ctrl_new_std] of the host framework; a
    new control starts at its default. *)
Definition v4l2_ctrl_new_std (min max step def : Z) : v4l2_ctrl :=
  Ctrl def min max step def false false.

Definition set_read_only (c : v4l2_ctrl) : v4l2_ctrl :=
  Ctrl (val c) (minimum c) (maximum c) (step c) (default_value c) true
       (grabbed c).

(** Initialize control handlers (the handler and the property parser are
    taken to succeed). *)
Definition imx708_init_controls (imx : imx708) : imx708 :=
  let colour :=
    v4l2_ctrl_new_std IMX708_TEST_PATTERN_COLOUR_MIN
      IMX708_TEST_PATTERN_COLOUR_MAX IMX708_TEST_PATTERN_COLOUR_STEP
      IMX708_TEST_PATTERN_COLOUR_MAX in
  let hdl :=
    Handler
      (set_read_only (v4l2_ctrl_new_std 0 0 1 0))
      (v4l2_ctrl_new_std IMX708_ANA_GAIN_MIN IMX708_ANA_GAIN_MAX
         IMX708_ANA_GAIN_STEP IMX708_ANA_GAIN_DEFAULT)
      (v4l2_ctrl_new_std IMX708_DGTL_GAIN_MIN IMX708_DGTL_GAIN_MAX
         IMX708_DGTL_GAIN_STEP IMX708_DGTL_GAIN_DEFAULT)
      (v4l2_ctrl_new_std 0 (Z.of_nat (length imx708_test_pattern_val) - 1) 1 0)
      colour colour colour colour
      (set_read_only (v4l2_ctrl_new_std 0 2 1 0))
      (set_read_only (v4l2_ctrl_new_std 0 270 90 0)) in
  let imx := with_ctrl_handler hdl imx in
  (* By default, PIXEL_RATE is read only *)
  let imx :=
    with_pixel_rate
      (set_read_only
         (v4l2_ctrl_new_std IMX708_INITIAL_PIXEL_RATE
            IMX708_INITIAL_PIXEL_RATE 1 IMX708_INITIAL_PIXEL_RATE)) imx in
  let imx := with_vblank (v4l2_ctrl_new_std 0 0xffff 1 0) imx in
  let imx := with_hblank (set_read_only (v4l2_ctrl_new_std 0 0xffff 1 0)) imx in
  let imx :=
    with_exposure
      (v4l2_ctrl_new_std IMX708_EXPOSURE_MIN IMX708_EXPOSURE_MAX
         IMX708_EXPOSURE_STEP IMX708_EXPOSURE_DEFAULT) imx in
  let imx := with_hflip (v4l2_ctrl_new_std 0 1 1 0) imx in
  let imx := with_vflip (v4l2_ctrl_new_std 0 1 1 0) imx in
  (* Setup exposure and frame/line length limits. *)
  imx708_set_framing_limits imx.

Fixpoint index_of (x : Z) (l : list Z) (i : nat) : option nat :=
  match l with
  | [] => None
  | y :: l => if y =? x then Some i else index_of x l (S i)
  end.

Definition imx708_check_hwcfg (cfg : board_config) (imx : imx708)
    : Z * imx708 :=
  (* Check the number of MIPI CSI2 data lanes *)
  if negb (num_data_lanes cfg =? 2) then (- EINVAL, imx)
  else
    (* Check the link frequency set in device tree *)
    match link_frequencies cfg with
    | [] => (- EINVAL, imx)
    | f :: _ =>
        match index_of f link_freqs 0 with
        | Some i =>
            let '(Imx708 ch pr ex vb hb hf vf st po cm cn cw ls _) := imx in
            (0, Imx708 ch pr ex vb hb hf vf st po cm cn cw ls i)
        | None => (- EINVAL, imx)
        end
    end.

(** Verify chip ID *)
Definition imx708_identify_module : M Z :=
  rv <- imx708_read_reg IMX708_REG_CHIP_ID IMX708_REG_VALUE_16BIT ;;
  let '(ret, val) := rv in
  if negb (ret =? 0) then pure ret
  else if negb (val =? IMX708_CHIP_ID) then pure (- EIO)
  else
    (* the module ID only names the sub-device *)
    imx708_read_reg 0x0000 IMX708_REG_VALUE_16BIT ;;;
    pure 0.

(** Modelled from the spec: enabling runtime power management on a device
    nobody uses yet turns the device off ([pm_runtime_set_active],
    [pm_runtime_enable], [pm_runtime_idle]). *)
Definition pm_runtime_enable_idle : M unit :=
  fun w =>
    let w := with_runtime_active true w in
    if Nat.eqb (usage_count w) 0
    then let (_, w) := imx708_power_off w in
         (tt, with_runtime_active false w)
    else (tt, w).

(** The state a device has when [imx708_probe] starts. *)
Definition attach (h : HW) : world := World kzalloc_imx708 0 false h [].

(** [imx708_probe], as far as it shapes the device structure: the module
    identity strings are taken to be present in the device tree, and the
    regulator, GPIO, media-entity and registration calls to succeed. *)

Definition imx708_probe (cfg : board_config) : M Z :=
  let hdr_mode_ := match dt_hdr_mode cfg with Some m => m | None => NO_HDR end in
  let cfg_num_ := length supported_modes in
  let cur_mode_ :=
    match find (fun i => hdr_mode_ =? hdr_mode (supported_mode i))
               (seq 0 cfg_num_) with
    | Some i => i
    | None => 0%nat
    end in
  modify_dev (fun imx =>
    let '(Imx708 ch pr ex vb hb hf vf st po _ _ cw ls lf) := imx in
    Imx708 ch pr ex vb hb hf vf st po cur_mode_ cfg_num_ cw ls lf) ;;;
  imx <- get_dev ;;
  (* Check the hardware configuration in device tree *)
  let (ret, imx) := imx708_check_hwcfg cfg imx in
  if negb (ret =? 0) then pure (- EINVAL)
  else
    modify_dev (fun _ => imx) ;;;
    if negb (inclk_rate cfg =? IMX708_INCLK_FREQ) then pure (- EINVAL)
    else
      (* The sensor must be powered for imx708_identify_module() to be
         able to read the CHIP_ID register *)
      ret <- imx708_power_on ;;
      if negb (ret =? 0) then pure ret
      else
        ret <- imx708_identify_module ;;
        if negb (ret =? 0) then imx708_power_off ;;; pure ret
        else
          (* Enable runtime PM and turn off the device *)
          pm_runtime_enable_idle ;;;
          modify_dev imx708_init_controls ;;;
          pure 0.

(** ** Requests of the host framework *)

Definition with_ctrl (id : v4l2_cid) (c : v4l2_ctrl) (s : imx708) : imx708 :=
  let '(Handler lf ag dg tp tr tgr tb tgb co cr) := ctrl_handler s in
  match id with
  | V4L2_CID_VBLANK => with_vblank c s
  | V4L2_CID_EXPOSURE => with_exposure c s
  | V4L2_CID_HFLIP => with_hflip c s
  | V4L2_CID_VFLIP => with_vflip c s
  | V4L2_CID_PIXEL_RATE => with_pixel_rate c s
  | V4L2_CID_HBLANK => with_hblank c s
  | V4L2_CID_LINK_FREQ =>
      with_ctrl_handler (Handler c ag dg tp tr tgr tb tgb co cr) s
  | V4L2_CID_ANALOGUE_GAIN =>
      with_ctrl_handler (Handler lf c dg tp tr tgr tb tgb co cr) s
  | V4L2_CID_DIGITAL_GAIN =>
      with_ctrl_handler (Handler lf ag c tp tr tgr tb tgb co cr) s
  | V4L2_CID_TEST_PATTERN =>
      with_ctrl_handler (Handler lf ag dg c tr tgr tb tgb co cr) s
  | V4L2_CID_TEST_PATTERN_RED =>
      with_ctrl_handler (Handler lf ag dg tp c tgr tb tgb co cr) s
  | V4L2_CID_TEST_PATTERN_GREENR =>
      with_ctrl_handler (Handler lf ag dg tp tr c tb tgb co cr) s
  | V4L2_CID_TEST_PATTERN_BLUE =>
      with_ctrl_handler (Handler lf ag dg tp tr tgr c tgb co cr) s
  | V4L2_CID_TEST_PATTERN_GREENB =>
      with_ctrl_handler (Handler lf ag dg tp tr tgr tb c co cr) s
  | V4L2_CID_CAMERA_ORIENTATION =>
      with_ctrl_handler (Handler lf ag dg tp tr tgr tb tgb c cr) s
  | V4L2_CID_CAMERA_SENSOR_ROTATION =>
      with_ctrl_handler (Handler lf ag dg tp tr tgr tb tgb co c) s
  end.

Definition EACCES : Z := 13.
Definition EBUSY : Z := 16.

(** Modelled from the spec: the host framework's side of a control change.
    A read-only or frozen (grabbed) control is refused; the requested value
    is clamped to the control's declared range, stored as the control's
    value, and the driver's [s_ctrl] operation is called. *)
Definition v4l2_s_ctrl (id : v4l2_cid) (v : Z) : M Z :=
  imx <- get_dev ;;
  let c := ctrl_of imx id in
  if read_only c then pure (- EACCES)
  else if grabbed c then pure (- EBUSY)
  else
    let v := Z.max (minimum c) (Z.min v (maximum c)) in
    modify_dev
      (with_ctrl id
         (Ctrl v (minimum c) (maximum c) (step c) (default_value c)
            (read_only c) (grabbed c))) ;;;
    imx708_set_ctrl id.

(** The operations the driver exposes, as the host calls them. *)
Inductive request :=
| S_CTRL (id : v4l2_cid) (v : Z)
| SET_FMT (fmt : v4l2_subdev_format)
| S_STREAM (enable : Z)
| S_POWER (on : Z)
| IOCTL (cmd : ioctl_cmd) (arg : rkmodule_hdr_cfg)
| SUSPEND
| RESUME.

Definition handle (r : request) : M Z :=
  match r with
  | S_CTRL id v => v4l2_s_ctrl id v
  | SET_FMT fmt =>
      fun w => let '(imx, _, ret) := imx708_set_pad_format (dev w) fmt in
               (ret, with_dev imx w)
  | S_STREAM enable => imx708_set_stream enable
  | S_POWER on => imx708_s_power on
  | IOCTL cmd arg =>
      fun w => let (ret, imx) := imx708_ioctl cmd arg (dev w) in
               (ret, with_dev imx w)
  | SUSPEND => imx708_suspend
  | RESUME => imx708_resume
  end.

(** ** Specification-side definitions

    What the statements below compare the driver with. *)

(** Power is in active use. *)
Definition in_use (w : world) : bool :=
  runtime_active w && negb (Nat.eqb (usage_count w) 0).

(** The bus events of [w'] that [w] did not have yet. *)
Definition new_events (w w' : world) : list bus_event :=
  skipn (length (log w)) (log w').

(** A register write the bus refused or cut short. *)
Definition send_failed (e : bus_event) : bool :=
  match e with
  | I2C_SEND buf r => negb (r =? Z.of_nat (length buf))
  | I2C_XFER _ _ _ _ => false
  end.

(** A register write that went through. *)
Definition ok_send (reg len val : Z) : bus_event :=
  I2C_SEND (write_buf reg len val) (len + 2).

Definition regs_trace (l : list imx708_reg) : list bus_event :=
  map (fun r => ok_send (address r) 1 (reg_val r)) l.

(** One 54-entry calibration table, written in full. *)
Definition pdaf_trace (base row : Z) : list bus_event :=
  map (fun i => ok_send (base + Z.of_nat i) IMX708_REG_VALUE_08BIT
                  (pdaf_gain row (Z.of_nat i mod 9)))
      (seq 0 54).

(** The bus trace of a successful common-register sequence whose sentinel
    read returned the bytes [data]: the common list, the sentinel read,
    and the two calibration tables when the sentinel matched. *)
Definition calibration_trace (data : list Z) : list bus_event :=
  regs_trace mode_common_regs ++
  [ I2C_XFER [0x7b; 0x10] IMX708_REG_VALUE_08BIT 2 data ] ++
  (if get_unaligned_be32 (data_buf IMX708_REG_VALUE_08BIT data) =? 0x40
   then pdaf_trace IMX708_REG_BASE_SPC_GAINS_L 0 ++
        pdaf_trace IMX708_REG_BASE_SPC_GAINS_R 1
   else []).

(** What an operation that only uses the bus leaves alone: the device
    structure, the power manager's view, and the bus trace so far. *)
Definition bus_only (w w' : world) : Prop :=
  dev w' = dev w /\
  usage_count w' = usage_count w /\
  runtime_active w' = runtime_active w /\
  exists evs, log w' = log w ++ evs.

(** What operations that only use the bus and apply controls leave alone:
    everything of the device structure but the exposure control and the
    long-exposure shift, the power manager's view, and the bus trace so
    far. *)
Definition frame (w w' : world) : Prop :=
  dev w' = with_exposure (exposure (dev w'))
             (with_long_exp_shift (long_exp_shift (dev w')) (dev w)) /\
  usage_count w' = usage_count w /\
  runtime_active w' = runtime_active w /\
  exists evs, log w' = log w ++ evs.

(** An ordered pipeline that aborts on first failure. *)
Fixpoint run_until_failure (steps : list (M Z)) (w : world) : Z * world :=
  match steps with
  | [] => (0, w)
  | step :: rest =>
      let (ret, w) := step w in
      if negb (ret =? 0) then (ret, w) else run_until_failure rest w
  end.

(** Steps 2 to 6 of the spec's [start_streaming()]; each reads the
    device structure when its turn comes. *)
Definition start_steps : list (M Z) :=
  [ (imx <- get_dev ;;
     if negb (common_regs_written imx) then write_common_regs else pure 0)
  ; (imx <- get_dev ;; imx708_write_regs (regs (reg_list (mode_of imx))))
  ; (imx <- get_dev ;;
     imx708_write_regs
       (regs (nth (link_freq_idx imx) link_freq_regs {| regs := [] |})))
  ; __v4l2_ctrl_handler_setup
  ; imx708_write_reg IMX708_REG_MODE_SELECT IMX708_REG_VALUE_08BIT
      IMX708_MODE_STREAMING ].

(** [aborts_at steps w k ret w']: run from [w], the steps before the
    [k]-th return 0, the [k]-th returns [ret <> 0], and [w'] is the state
    right after it; no later step has run. *)
Inductive aborts_at : list (M Z) -> world -> nat -> Z -> world -> Prop :=
| abort_here (step : M Z) rest w ret w1 :
    step w = (ret, w1) -> ret <> 0 ->
    aborts_at (step :: rest) w 0 ret w1
| abort_later (step : M Z) rest w w1 k ret w2 :
    step w = (0, w1) -> aborts_at rest w1 k ret w2 ->
    aborts_at (step :: rest) w (S k) ret w2.

(** The spec's [start_streaming()]: step 1 acquires power usage, a failed
    acquisition or a failed later step releases it again and leaves the
    rest of the pipeline undone. *)
Definition start_pipeline : M Z :=
  fun w =>
    let (ret, w) := pm_runtime_get_sync w in
    if ret <? 0 then (ret, snd (pm_runtime_put_noidle w))
    else
      let (ret, w) := run_until_failure start_steps w in
      if negb (ret =? 0) then (ret, snd (pm_runtime_put w))
      else set_stream_commit 1 0 w.

End Driver.

Arguments world : clear implicits.
Arguments M : clear implicits.

(** ** A simulated platform

    A bus on which the first [sends_left] writes succeed and the later ones
    fail, whose reads answer the chip id for the identity register and
    [sentinel] for every other one, and whose supplies come up iff
    [rails_ok].  It serves to run the driver on concrete inputs. *)

Record sim_hw := Sim {
  sends_left : nat;
  sentinel : Z;
  rails_ok : bool
}.

Definition sim : Platform := {|
  HW := sim_hw;
  i2c_master_send h buf :=
    match sends_left h with
    | O => (h, -121)
    | S n => (Sim n (sentinel h) (rails_ok h), Z.of_nat (length buf))
    end;
  i2c_transfer h addr_buf len :=
    if (nth 0 addr_buf 0 =? 0x00) && (nth 1 addr_buf 0 =? 0x16)
    then (h, (2, [0x07; 0x08]))
    else (h, (2, [sentinel h]));
  regulator_bulk_enable h := (h, if rails_ok h then 0 else -110);
  regulator_bulk_disable h := h;
  clk_prepare_enable h := (h, 0);
  clk_disable_unprepare h := h;
  gpiod_direction_output h _ := h
|}.

Definition rpi_board : board_config :=
  {| dt_hdr_mode := None; num_data_lanes := 2;
     link_frequencies := [ 450000000 ]; inclk_rate := IMX708_INCLK_FREQ |}.

(** The simulated device right after a successful attach. *)
Definition sim_attached (h : sim_hw) : world sim :=
  snd (imx708_probe rpi_board (attach (P := sim) h)).

(** The metric of the spec, [|dwidth| + |dheight|], in unbounded
    integers. *)
Definition reso_dist (mode : imx708_mode) (f : v4l2_mbus_framefmt) : Z :=
  Z.abs (width mode - fmt_width f) + Z.abs (height mode - fmt_height f).

(** Entry [i] of the table has the requested format code. *)
Definition matches (modes : list imx708_mode) (f : v4l2_mbus_framefmt)
    (i : nat) : Prop :=
  bus_fmt (nth i modes mode_4608x2592) = code f.

(** Sizes for which the 32-bit distance cannot wrap. *)
Definition small (x : Z) : Prop := 0 <= x < 2 ^ 30.

(** The loop state of [imx708_find_best_fit] once the entries below [n]
    were visited: still the initial one when none of them matched, else the
    first of the closest matching entries and its distance. *)
Definition best_fit_inv (modes : list imx708_mode) (f : v4l2_mbus_framefmt)
    (n : nat) (st : nat * Z) : Prop :=
  let (b, d) := st in
  ((forall j, (j < n)%nat -> ~ matches modes f j) /\ b = 0%nat /\ d = -1) \/
  ((b < n)%nat /\ matches modes f b /\
   d = reso_dist (nth b modes mode_4608x2592) f /\
   forall j, (j < n)%nat -> matches modes f j ->
     d <= reso_dist (nth j modes mode_4608x2592) f /\
     (reso_dist (nth j modes mode_4608x2592) f = d -> (b <= j)%nat)).

(** The exposure value the spec has written: the request clamped up to the
    mode's minimum, rounded down to a multiple of the mode's step, shifted
    right by the long-exposure shift. *)
Definition exposure_resolved (mode : imx708_mode) (shift req : Z) : Z :=
  let clamped := Z.max req (exposure_lines_min mode) in
  let rounded := clamped - clamped mod exposure_lines_step mode in
  Z.shiftr rounded shift.

(** The largest vblank [imx708_set_framing_limits] allows for a mode. *)
Definition vblank_max (mode : imx708_mode) : Z :=
  2 ^ IMX708_LONG_EXP_SHIFT_MAX * IMX708_FRAME_LENGTH_MAX - height mode.

(** A healthy bus whose sentinel matches, one whose sentinel does not, one
    that fails after 60 writes, and a dead one. *)
Definition hw_good : sim_hw := Sim 1000 0x40 true.
Definition hw_patched : sim_hw := Sim 1000 0x00 true.
Definition hw_flaky : sim_hw := Sim 60 0x00 true.
Definition hw_dead : sim_hw := Sim 0 0x40 true.

(** The simulated device structure right after attach. *)
Definition sim_dev : imx708 := dev (sim_attached hw_good).

Definition fmt_1080p (code_ : Z) : v4l2_subdev_format :=
  {| which := V4L2_SUBDEV_FORMAT_ACTIVE;
     format := {| fmt_width := 1920; fmt_height := 1080; code := code_;
                  field := V4L2_FIELD_NONE |} |}.

(** A format code of no catalog entry ([MEDIA_BUS_FMT_SBGGR8_1X8]). *)
Definition MEDIA_BUS_FMT_SBGGR8_1X8 : Z := 0x3001.

(** A request whose width is the largest [__u32]. *)
Definition fmt_widest : v4l2_subdev_format :=
  {| which := V4L2_SUBDEV_FORMAT_ACTIVE;
     format := {| fmt_width := 0xFFFFFFFF; fmt_height := 2592;
                  code := MEDIA_BUS_FMT_SRGGB10_1X10;
                  field := V4L2_FIELD_NONE |} |}.

(** A write into one of the two calibration-gain tables. *)
Definition spc_gain_write (e : bus_event) : bool :=
  match e with
  | I2C_SEND (hi :: lo :: _) _ =>
      let a := hi * 256 + lo in
      ((IMX708_REG_BASE_SPC_GAINS_L <=? a) &&
       (a <? IMX708_REG_BASE_SPC_GAINS_L + 54)) ||
      ((IMX708_REG_BASE_SPC_GAINS_R <=? a) &&
       (a <? IMX708_REG_BASE_SPC_GAINS_R + 54))
  | _ => false
  end.

(** The simulated device with power held through [s_power], and after a
    stream start. *)
Definition sim_powered (h : sim_hw) : world sim :=
  snd (imx708_s_power 1 (sim_attached h)).

Definition sim_streaming (h : sim_hw) : world sim :=
  snd (imx708_set_stream 1 (sim_attached h)).

(** The simulated device after 1920x1080 RGGB10 was negotiated, and
    streaming in that mode. *)
Definition sim_1080p (h : sim_hw) : world sim :=
  snd (handle (SET_FMT (fmt_1080p MEDIA_BUS_FMT_SRGGB10_1X10))
         (sim_attached h)).

Definition sim_1080p_streaming (h : sim_hw) : world sim :=
  snd (imx708_set_stream 1 (sim_1080p h)).

(** [w] with [v] stored as the new value of the vblank control. *)
Definition with_vblank_val {P : Platform} (v : Z) (w : world P) : world P :=
  let c := vblank (dev w) in
  with_dev
    (with_vblank
       (Ctrl v (minimum c) (maximum c) (step c) (default_value c)
          (read_only c) (grabbed c)) (dev w)) w.

(** ** Enumeration and format query

    The pad operations that only read the catalog and the device
    structure.  Each takes the structure the caller passes in and returns
    the C return value with the structure as the function leaves it. *)

Record v4l2_subdev_mbus_code_enum := {
  mce_index : nat;
  mce_code : Z
}.

Definition imx708_enum_mbus_code (imx : imx708)
    (code : v4l2_subdev_mbus_code_enum) : Z * v4l2_subdev_mbus_code_enum :=
  if (cfg_num imx <=? mce_index code)%nat then (- EINVAL, code)
  else
    (0, {| mce_index := mce_index code;
           mce_code := bus_fmt (supported_mode (mce_index code)) |}).

Record v4l2_subdev_frame_size_enum := {
  fse_index : nat;
  fse_code : Z;
  min_width : Z;
  max_width : Z;
  min_height : Z;
  max_height : Z
}.

Definition imx708_enum_frame_size (imx : imx708)
    (fse : v4l2_subdev_frame_size_enum) : Z * v4l2_subdev_frame_size_enum :=
  if (cfg_num imx <=? fse_index fse)%nat then (- EINVAL, fse)
  else if negb (fse_code fse =? bus_fmt (supported_mode (fse_index fse)))
  then (- EINVAL, fse)
  else
    let min_width_ := width (supported_mode (fse_index fse)) in
    let min_height_ := height (supported_mode (fse_index fse)) in
    (0, {| fse_index := fse_index fse; fse_code := fse_code fse;
           min_width := min_width_; max_width := min_width_;
           min_height := min_height_; max_height := min_height_ |}).

Record v4l2_subdev_frame_interval_enum := {
  fie_index : nat;
  fie_code : Z;
  fie_width : Z;
  fie_height : Z;
  fie_interval : v4l2_fract
}.

Definition imx708_enum_frame_interval (imx : imx708)
    (fie : v4l2_subdev_frame_interval_enum)
    : Z * v4l2_subdev_frame_interval_enum :=
  if (cfg_num imx <=? fie_index fie)%nat then (- EINVAL, fie)
  else
    (0, {| fie_index := fie_index fie;
           fie_code := bus_fmt (supported_mode (fie_index fie));
           fie_width := width (supported_mode (fie_index fie));
           fie_height := height (supported_mode (fie_index fie));
           fie_interval := max_fps (supported_mode (fie_index fie)) |}).

(** Returns [(ret, fi->interval)]. *)
Definition imx708_g_frame_interval (imx : imx708) : Z * v4l2_fract :=
  (0, max_fps (mode_of imx)).

(** [*v4l2_subdev_get_try_format(sd, sd_state, pad)]: the try format a
    file handle's state holds. *)
Record v4l2_subdev_state := { try_fmt : v4l2_mbus_framefmt }.

(** [imx708_open]: the try format of a fresh file handle. *)
Definition imx708_open : Z * v4l2_subdev_state :=
  (0, {| try_fmt := {| fmt_width := width (supported_mode 0);
                       fmt_height := height (supported_mode 0);
                       code := bus_fmt (supported_mode 0);
                       field := V4L2_FIELD_NONE |} |}).

(** [CONFIG_VIDEO_V4L2_SUBDEV_API] is taken as set, as for
    [imx708_set_pad_format]. *)
Definition imx708_get_pad_format (imx : imx708) (sd_state : v4l2_subdev_state)
    (fmt : v4l2_subdev_format) : v4l2_subdev_format * Z :=
  let mode := mode_of imx in
  if which fmt =? V4L2_SUBDEV_FORMAT_TRY
  then ({| which := which fmt; format := try_fmt sd_state |}, 0)
  else ({| which := which fmt;
           format := {| fmt_width := width mode; fmt_height := height mode;
                        code := bus_fmt mode; field := V4L2_FIELD_NONE |} |},
        0).

(** [imx708_set_pad_format] together with the file handle's state: a TRY
    request stores the negotiated format there
    ([*v4l2_subdev_get_try_format(...) = fmt->format]). *)
Definition set_fmt (imx : imx708) (sd_state : v4l2_subdev_state)
    (fmt : v4l2_subdev_format)
    : imx708 * v4l2_subdev_state * v4l2_subdev_format * Z :=
  let '(imx', fmt', ret) := imx708_set_pad_format imx fmt in
  (imx',
   if which fmt =? V4L2_SUBDEV_FORMAT_TRY
   then {| try_fmt := format fmt' |} else sd_state,
   fmt', ret).

(** ** Further specification-side definitions *)

(** The device structure is set up as [imx708_probe] leaves it: the mode
    pointer and the link-frequency index stay inside their tables. *)
Definition dev_ok (imx : imx708) : Prop :=
  cfg_num imx = length supported_modes /\
  (cur_mode imx < cfg_num imx)%nat /\
  (link_freq_idx imx < length link_freqs)%nat.

(** A register write the bus cut short, with the byte count it reported. *)
Definition bad_send (reg len val bad : Z) : bus_event :=
  I2C_SEND (write_buf reg len val) bad.

(** The frame-length total of a vblank value, in lines. *)
Definition frame_length_of (mode : imx708_mode) (vblank_ : Z) : Z :=
  height mode + vblank_.

(** The mode pointer, the catalog size and the link-frequency index of two
    device structures agree. *)
Definition same_tables (d d' : imx708) : Prop :=
  cur_mode d' = cur_mode d /\ cfg_num d' = cfg_num d /\
  link_freq_idx d' = link_freq_idx d.

(** The requests of a list, handled one after the other. *)
Fixpoint handle_all {P : Platform} (rs : list request) (w : world P)
    : world P :=
  match rs with
  | [] => w
  | r :: rs => handle_all rs (snd (handle r w))
  end.

(** The requests that may move the mode pointer. *)
Definition changes_mode (r : request) : bool :=
  match r with
  | SET_FMT _ | IOCTL _ _ => true
  | _ => false
  end.

(** Every power usage held is accounted for: one while streaming, one
    while [power_on] is set. *)
Definition usage_balanced {P : Platform} (w : world P) : Prop :=
  usage_count w =
  (Nat.b2n (streaming (dev w)) + Nat.b2n (power_on (dev w)))%nat.

(** The 16-bit register behind each control that [imx708_set_ctrl] writes
    through as it is. *)
Definition ctrl_reg (id : v4l2_cid) : option Z :=
  match id with
  | V4L2_CID_ANALOGUE_GAIN => Some IMX708_REG_ANALOG_GAIN
  | V4L2_CID_DIGITAL_GAIN => Some IMX708_REG_DIGITAL_GAIN
  | V4L2_CID_TEST_PATTERN_RED => Some IMX708_REG_TEST_PATTERN_R
  | V4L2_CID_TEST_PATTERN_GREENR => Some IMX708_REG_TEST_PATTERN_GR
  | V4L2_CID_TEST_PATTERN_BLUE => Some IMX708_REG_TEST_PATTERN_B
  | V4L2_CID_TEST_PATTERN_GREENB => Some IMX708_REG_TEST_PATTERN_GB
  | _ => None
  end.

(** ** Bus messages by register *)

(** The register a bus message addresses. *)
Definition event_reg (e : bus_event) : Z :=
  match e with
  | I2C_SEND (hi :: lo :: _) _ => hi * 256 + lo
  | I2C_XFER (hi :: lo :: _) _ _ _ => hi * 256 + lo
  | _ => 0
  end.

(** A write to [reg] goes into one of the two calibration-gain tables. *)
Definition gain_table_reg (reg : Z) : bool :=
  spc_gain_write
    (I2C_SEND [Z.land (Z.shiftr reg 8) 0xff; Z.land reg 0xff] 0).

(** The bus events from [w] to [w'] hold no write into a calibration-gain
    table. *)
Definition no_gain_write {P : Platform} (w w' : world P) : Prop :=
  exists evs, log w' = log w ++ evs /\ existsb spc_gain_write evs = false.

(** The registers [imx708_set_ctrl] writes for a control, in the order
    written. *)
Definition ctrl_regs (id : v4l2_cid) : list Z :=
  match id with
  | V4L2_CID_VBLANK => [IMX708_REG_FRAME_LENGTH; IMX708_LONG_EXP_SHIFT_REG]
  | V4L2_CID_EXPOSURE => [IMX708_REG_EXPOSURE]
  | V4L2_CID_ANALOGUE_GAIN => [IMX708_REG_ANALOG_GAIN]
  | V4L2_CID_DIGITAL_GAIN => [IMX708_REG_DIGITAL_GAIN]
  | V4L2_CID_HFLIP | V4L2_CID_VFLIP => [IMX708_REG_ORIENTATION]
  | V4L2_CID_TEST_PATTERN => [IMX708_REG_TEST_PATTERN]
  | V4L2_CID_TEST_PATTERN_RED => [IMX708_REG_TEST_PATTERN_R]
  | V4L2_CID_TEST_PATTERN_GREENR => [IMX708_REG_TEST_PATTERN_GR]
  | V4L2_CID_TEST_PATTERN_BLUE => [IMX708_REG_TEST_PATTERN_B]
  | V4L2_CID_TEST_PATTERN_GREENB => [IMX708_REG_TEST_PATTERN_GB]
  | _ => []
  end.

(** The state a stream start has reached when the control replay begins:
    after the common registers, the mode's and the link frequency's. *)
Definition before_replay {P : Platform} (w : world P) : world P :=
  snd (run_until_failure (firstn 3 start_steps) w).

(** ** Further simulated devices *)

(** A healthy bus that takes the 263 register writes of one stream start
    in the default mode and refuses every later one. *)
Definition hw_one_start : sim_hw := Sim 263 0x40 true.

(** The simulated device after a stream start and a resume that found the
    bus dead. *)
Definition sim_failed_resume : world sim :=
  snd (imx708_resume (sim_streaming hw_one_start)).

(** The simulated device with the longest vblank chosen while idle, then
    powered through [s_power]. *)
Definition sim_long_vblank : world sim :=
  handle_all [S_CTRL V4L2_CID_VBLANK 8385888; S_POWER 1]
    (sim_attached hw_good).

(** Evaluates the powers of two with a closed exponent. *)
Ltac eval_pow2 :=
  repeat match goal with
         | |- context [2 ^ ?n] =>
             let v := eval vm_compute in (2 ^ n) in
             progress change (2 ^ n) with v
         | H : context [2 ^ ?n] |- _ =>
             let v := eval vm_compute in (2 ^ n) in
             progress change (2 ^ n) with v in H
         end.

(** * Proofs *)

(** ** Machine integer facts *)

Lemma s32_small (x : Z) : - 2 ^ 31 <= x < 2 ^ 31 -> s32 x = x.
Proof.
  intros H. unfold s32.
  change (2 ^ 32) with 4294967296 in *. change (2 ^ 31) with 2147483648 in *.
  destruct (x mod 4294967296 <? 2147483648) eqn:E;
    [apply Z.ltb_lt in E | apply Z.ltb_ge in E];
    Z.to_euclidean_division_equations; lia.
Qed.

Lemma s32_u32 (x : Z) : s32 (u32 x) = s32 x.
Proof.
  unfold s32, u32. now rewrite Z.mod_mod by (now compute).
Qed.

Lemma u32_small (x : Z) : 0 <= x < 2 ^ 32 -> u32 x = x.
Proof. intros H. unfold u32. now apply Z.mod_small. Qed.

Lemma abs_small (x : Z) : - 2 ^ 31 < x < 2 ^ 31 -> abs (u32 x) = Z.abs x.
Proof.
  intros H. unfold abs. rewrite s32_u32, s32_small by lia.
  destruct (x <? 0) eqn:E; [apply Z.ltb_lt in E | apply Z.ltb_ge in E].
  - rewrite s32_small by lia. lia.
  - lia.
Qed.

(** ** Mode negotiation *)

Section BestFit.

Variable modes : list imx708_mode.
Variable framefmt : v4l2_mbus_framefmt.

Hypothesis fmt_small : small (fmt_width framefmt) /\ small (fmt_height framefmt).
Hypothesis modes_small :
  forall i, small (width (nth i modes mode_4608x2592)) /\ small (height (nth i modes mode_4608x2592)).

(** Within these sizes the 32-bit distance is the metric of the spec. *)
Lemma get_reso_dist_exact (i : nat) :
  imx708_get_reso_dist (nth i modes mode_4608x2592) framefmt = reso_dist (nth i modes mode_4608x2592) framefmt /\
  0 <= reso_dist (nth i modes mode_4608x2592) framefmt < 2 ^ 31.
Proof.
  destruct fmt_small as [Hw Hh], (modes_small i) as [Hmw Hmh].
  unfold small in *. unfold imx708_get_reso_dist, reso_dist.
  change (2 ^ 30) with 1073741824 in *.
  rewrite !abs_small by (change (2 ^ 31) with 2147483648; lia).
  rewrite s32_small by (change (2 ^ 31) with 2147483648; lia).
  change (2 ^ 31) with 2147483648. lia.
Qed.

Lemma best_fit_step_inv (n : nat) (st : nat * Z) :
  best_fit_inv modes framefmt n st ->
  best_fit_inv modes framefmt (S n) (best_fit_step modes framefmt st n).
Proof.
  destruct st as [b d]. unfold best_fit_inv, best_fit_step, matches.
  destruct (get_reso_dist_exact n) as [-> Hn].
  destruct (bus_fmt (nth n modes mode_4608x2592) =? code framefmt) eqn:Em;
    [apply Z.eqb_eq in Em | apply Z.eqb_neq in Em].
  - rewrite andb_true_r. intros [(Hno & -> & ->) | (Hb & Hmb & -> & Hmin)].
    + simpl. right. split; [lia | split; [exact Em | split; [reflexivity |]]].
      intros j Hj Hmj.
      destruct (Nat.eq_dec j n) as [-> | Hne]; [lia |].
      exfalso. apply (Hno j); [lia | assumption].
    + destruct (get_reso_dist_exact b) as [_ Hbd].
      replace (reso_dist (nth b modes mode_4608x2592) framefmt =? -1) with false
        by (symmetry; apply Z.eqb_neq; lia).
      simpl.
      destruct (reso_dist (nth n modes mode_4608x2592) framefmt <? reso_dist (nth b modes mode_4608x2592) framefmt)
        eqn:El; [apply Z.ltb_lt in El | apply Z.ltb_ge in El]; right.
      * split; [lia | split; [exact Em | split; [reflexivity |]]].
        intros j Hj Hmj. destruct (Nat.eq_dec j n) as [-> | Hne]; [lia |].
        destruct (Hmin j ltac:(lia) Hmj). lia.
      * split; [lia | split; [exact Hmb | split; [reflexivity |]]].
        intros j Hj Hmj. destruct (Nat.eq_dec j n) as [-> | Hne]; [lia |].
        destruct (Hmin j ltac:(lia) Hmj). lia.
  - rewrite andb_false_r. intros [(Hno & -> & ->) | (Hb & Hmb & -> & Hmin)].
    + left. split; [| split; reflexivity].
      intros j Hj Hmj. destruct (Nat.eq_dec j n) as [-> | Hne].
      * now apply Em.
      * apply (Hno j); [lia | assumption].
    + right. split; [lia | split; [exact Hmb | split; [reflexivity |]]].
      intros j Hj Hmj. destruct (Nat.eq_dec j n) as [-> | Hne].
      * exfalso. now apply Em.
      * destruct (Hmin j ltac:(lia) Hmj). lia.
Qed.

Lemma best_fit_loop_inv (n : nat) :
  best_fit_inv modes framefmt n (best_fit_loop modes n framefmt).
Proof.
  unfold best_fit_loop. induction n as [| n IH].
  - simpl. left. split; [| split; reflexivity]. intros j Hj. lia.
  - rewrite seq_S, fold_left_app. simpl. now apply best_fit_step_inv.
Qed.

End BestFit.

Lemma supported_modes_small (i : nat) :
  small (width (supported_mode i)) /\ small (height (supported_mode i)).
Proof.
  unfold supported_mode, small.
  do 4 (destruct i as [| i]; [simpl; lia |]). destruct i; simpl; lia.
Qed.

(** C1 (as amended).  For a request whose width and height are below 2^30,
    made of a device whose [cfg_num] is the size of the catalog:
    if some catalog entry has the requested format code,
    [imx708_find_best_fit] returns an entry with that code which minimises
    [|dwidth| + |dheight|] among the entries with that code, and which is
    the earliest of these in catalog order; if no catalog entry has the
    requested code, it returns catalog entry 0 and [imx708_set_pad_format]
    reports success. *)
Theorem find_best_fit_minimal (imx : imx708) (fmt : v4l2_subdev_format) :
  cfg_num imx = length supported_modes ->
  small (fmt_width (format fmt)) ->
  small (fmt_height (format fmt)) ->
  let best := imx708_find_best_fit imx fmt in
  ((exists j, (j < cfg_num imx)%nat /\
              bus_fmt (supported_mode j) = code (format fmt)) ->
   (best < cfg_num imx)%nat /\
   bus_fmt (supported_mode best) = code (format fmt) /\
   forall j, (j < cfg_num imx)%nat ->
     bus_fmt (supported_mode j) = code (format fmt) ->
     reso_dist (supported_mode best) (format fmt)
       <= reso_dist (supported_mode j) (format fmt) /\
     (reso_dist (supported_mode j) (format fmt)
        = reso_dist (supported_mode best) (format fmt) -> (best <= j)%nat)) /\
  ((forall j, (j < cfg_num imx)%nat ->
              bus_fmt (supported_mode j) <> code (format fmt)) ->
   best = 0%nat /\ snd (imx708_set_pad_format imx fmt) = 0).
Proof.
  intros Hn Hw Hh best.
  pose proof (best_fit_loop_inv supported_modes (format fmt) (conj Hw Hh)
                supported_modes_small (cfg_num imx)) as Hinv.
  unfold best, imx708_find_best_fit.
  destruct (best_fit_loop supported_modes (cfg_num imx) (format fmt))
    as [b d] eqn:Eloop.
  unfold best_fit_inv, matches in Hinv. fold supported_mode in Hinv.
  cbn [fst]. split.
  - intros (j & Hj & Hmj).
    destruct Hinv as [(Hno & _) | (Hb & Hmb & -> & Hmin)].
    + exfalso. now apply (Hno j).
    + split; [exact Hb | split; [exact Hmb |]].
      intros k Hk Hmk. destruct (Hmin k Hk Hmk) as [Hle Hfirst].
      split; [exact Hle | exact Hfirst].
  - intros Hnone. destruct Hinv as [(_ & -> & _) | (Hb & Hmb & _)].
    + split; [reflexivity |].
      unfold imx708_set_pad_format. cbn [which].
      now destruct (which fmt =? V4L2_SUBDEV_FORMAT_TRY).
    + exfalso. now apply (Hnone b).
Qed.

(** C1, the claim as written fails twice.  For a format code no catalog
    entry has, negotiation does not fail with an invalid-argument
    condition: it silently returns catalog entry 0, commits it and reports
    success.  And for a width near the top of [__u32] the 32-bit distance
    wraps: the entry returned (1536x864) is not the one closest in
    [|dwidth| + |dheight|] (4608x2592). *)
Lemma find_best_fit_defaults_and_wraps :
  (forallb (fun m => negb (bus_fmt m =? MEDIA_BUS_FMT_SBGGR8_1X8))
           supported_modes = true /\
   imx708_find_best_fit sim_dev (fmt_1080p MEDIA_BUS_FMT_SBGGR8_1X8)
     = 0%nat /\
   snd (imx708_set_pad_format sim_dev (fmt_1080p MEDIA_BUS_FMT_SBGGR8_1X8))
     = 0 /\
   snd (imx708_set_pad_format sim_dev (fmt_1080p MEDIA_BUS_FMT_SBGGR8_1X8))
     <> - EINVAL /\
   cur_mode
     (fst (fst (imx708_set_pad_format sim_dev
                  (fmt_1080p MEDIA_BUS_FMT_SBGGR8_1X8)))) = 0%nat) /\
  (imx708_find_best_fit sim_dev fmt_widest = 3%nat /\
   bus_fmt (supported_mode 0) = code (format fmt_widest) /\
   reso_dist (supported_mode 0) (format fmt_widest)
     < reso_dist (supported_mode 3) (format fmt_widest)).
Proof.
  split; repeat split; try reflexivity. vm_compute. discriminate.
Qed.

(** Scenario A of the spec: RGGB10 1920x1080 resolves to the binned
    1920x1080 entry, not to the HDR entry of the same size behind it. *)
Lemma find_best_fit_minimal_witness :
  (cfg_num sim_dev = length supported_modes /\
   small (fmt_width (format (fmt_1080p MEDIA_BUS_FMT_SRGGB10_1X10))) /\
   small (fmt_height (format (fmt_1080p MEDIA_BUS_FMT_SRGGB10_1X10)))) /\
  imx708_find_best_fit sim_dev (fmt_1080p MEDIA_BUS_FMT_SRGGB10_1X10) = 1%nat /\
  bus_fmt (supported_mode
             (imx708_find_best_fit sim_dev
                (fmt_1080p MEDIA_BUS_FMT_SRGGB10_1X10)))
    = MEDIA_BUS_FMT_SRGGB10_1X10.
Proof.
  assert (H1 : cfg_num sim_dev = length supported_modes) by reflexivity.
  assert (H2 : small (fmt_width (format (fmt_1080p MEDIA_BUS_FMT_SRGGB10_1X10))))
    by (unfold small; simpl; lia).
  assert (H3 : small (fmt_height (format (fmt_1080p MEDIA_BUS_FMT_SRGGB10_1X10))))
    by (unfold small; simpl; lia).
  split; [exact (conj H1 (conj H2 H3)) | split; [now vm_compute |]].
  destruct (find_best_fit_minimal sim_dev
              (fmt_1080p MEDIA_BUS_FMT_SRGGB10_1X10) H1 H2 H3) as [Hsome _].
  apply Hsome. exists 0%nat. split; [vm_compute; lia | reflexivity].
Defined.

(** ** The byte layout of register writes *)

Lemma write_buf_16 (reg v : Z) :
  0 <= v <= 0xFFFF ->
  write_buf reg IMX708_REG_VALUE_16BIT v =
  [ Z.land (Z.shiftr reg 8) 0xff; Z.land reg 0xff; v / 256; v mod 256 ].
Proof.
  intros Hv. unfold write_buf, put_unaligned_be16, put_unaligned_be32, u32.
  change (Z.to_nat (IMX708_REG_VALUE_16BIT + 2)) with 4%nat.
  change (8 * (4 - IMX708_REG_VALUE_16BIT)) with 16.
  cbn [firstn app].
  rewrite Z.shiftl_mul_pow2 by lia.
  rewrite !Z.shiftr_div_pow2 by lia.
  change 0xff with (Z.ones 8). rewrite !Z.land_ones by lia.
  change (2 ^ 32) with 4294967296. change (2 ^ 24) with 16777216.
  change (2 ^ 16) with 65536. change (2 ^ 8) with 256.
  assert (E1 : ((v * 65536) mod 4294967296 / 16777216) mod 256 = v / 256)
    by (Z.to_euclidean_division_equations; lia).
  assert (E2 : ((v * 65536) mod 4294967296 / 65536) mod 256 = v mod 256)
    by (Z.to_euclidean_division_equations; lia).
  now rewrite E1, E2.
Qed.

Lemma write_buf_16_low (reg v : Z) :
  0 <= v ->
  write_buf reg IMX708_REG_VALUE_16BIT v =
  [ Z.land (Z.shiftr reg 8) 0xff; Z.land reg 0xff; (v / 256) mod 256;
    v mod 256 ].
Proof.
  intros Hv. unfold write_buf, put_unaligned_be16, put_unaligned_be32, u32.
  change (Z.to_nat (IMX708_REG_VALUE_16BIT + 2)) with 4%nat.
  change (8 * (4 - IMX708_REG_VALUE_16BIT)) with 16.
  cbn [firstn app].
  rewrite Z.shiftl_mul_pow2 by lia.
  rewrite !Z.shiftr_div_pow2 by lia.
  change 0xff with (Z.ones 8). rewrite !Z.land_ones by lia.
  change (2 ^ 32) with 4294967296. change (2 ^ 24) with 16777216.
  change (2 ^ 16) with 65536. change (2 ^ 8) with 256.
  assert (E1 : ((v * 65536) mod 4294967296 / 16777216) mod 256 =
               (v / 256) mod 256)
    by (Z.to_euclidean_division_equations; lia).
  assert (E2 : ((v * 65536) mod 4294967296 / 65536) mod 256 = v mod 256)
    by (Z.to_euclidean_division_equations; lia).
  now rewrite E1, E2.
Qed.

Lemma write_buf_8 (reg v : Z) :
  0 <= v <= 0xFF ->
  write_buf reg IMX708_REG_VALUE_08BIT v =
  [ Z.land (Z.shiftr reg 8) 0xff; Z.land reg 0xff; v ].
Proof.
  intros Hv. unfold write_buf, put_unaligned_be16, put_unaligned_be32, u32.
  change (Z.to_nat (IMX708_REG_VALUE_08BIT + 2)) with 3%nat.
  change (8 * (4 - IMX708_REG_VALUE_08BIT)) with 24.
  cbn [firstn app].
  rewrite Z.shiftl_mul_pow2 by lia.
  rewrite !Z.shiftr_div_pow2 by lia.
  change 0xff with (Z.ones 8). rewrite !Z.land_ones by lia.
  change (2 ^ 32) with 4294967296. change (2 ^ 24) with 16777216.
  change (2 ^ 8) with 256.
  assert (E1 : ((v * 16777216) mod 4294967296 / 16777216) mod 256 = v)
    by (Z.to_euclidean_division_equations; lia).
  now rewrite E1.
Qed.

Lemma write_buf_length (reg len v : Z) :
  len = 1 \/ len = 2 ->
  Z.of_nat (length (write_buf reg len v)) = len + 2.
Proof. intros [-> | ->]; reflexivity. Qed.

Lemma skipn_app_exact {A : Type} (l evs : list A) :
  skipn (length l) (l ++ evs) = evs.
Proof. induction l as [| a l IH]; [reflexivity | exact IH]. Qed.

(** ** The long-exposure shift *)

Lemma frame_length_loop_spec (fuel : nat) :
  forall shift val,
    0 <= shift -> shift + Z.of_nat fuel < 2 ^ 32 ->
    0 <= val < 2 ^ (16 + Z.of_nat fuel) ->
    exists k,
      0 <= k <= Z.of_nat fuel /\
      frame_length_loop fuel shift val = (shift + k, val / 2 ^ k) /\
      0 <= val / 2 ^ k <= IMX708_FRAME_LENGTH_MAX /\
      (0 < k -> IMX708_FRAME_LENGTH_MAX < val / 2 ^ (k - 1)).
Proof.
  unfold IMX708_FRAME_LENGTH_MAX.
  induction fuel as [| fuel IH]; intros shift val Hs Hsf Hv.
  - exists 0. change (16 + Z.of_nat 0) with 16 in Hv.
    change (2 ^ 16) with 65536 in Hv. cbn [frame_length_loop].
    rewrite Z.add_0_r, Z.pow_0_r, Z.div_1_r. repeat split; lia.
  - cbn [frame_length_loop]. unfold IMX708_FRAME_LENGTH_MAX.
    destruct (val >? 0xffff) eqn:E.
    + apply Z.gtb_lt in E.
      rewrite u32_small by lia.
      rewrite Z.shiftr_div_pow2 by lia. change (2 ^ 1) with 2.
      assert (Hhalf : 0 <= val / 2 < 2 ^ (16 + Z.of_nat fuel)).
      { replace (16 + Z.of_nat (S fuel)) with (Z.succ (16 + Z.of_nat fuel))
          in Hv by lia.
        rewrite Z.pow_succ_r in Hv by lia.
        split; [apply Z.div_pos; lia | apply Z.div_lt_upper_bound; lia]. }
      destruct (IH (shift + 1) (val / 2) ltac:(lia) ltac:(lia) Hhalf)
        as (k & Hk & Heq & Hfit & Hmin).
      exists (k + 1).
      assert (Hdd : forall j, 0 <= j -> val / 2 / 2 ^ j = val / 2 ^ (j + 1)).
      { intros j Hj. rewrite Z.div_div by lia.
        now rewrite <- (Z.pow_succ_r 2 j) by lia. }
      rewrite Hdd in Heq, Hfit by lia. rewrite Heq.
      split; [lia |]. split; [f_equal; lia |]. split; [lia |].
      intros _. replace (k + 1 - 1) with k by lia.
      destruct (Z.eq_dec k 0) as [-> | Hk0].
      * rewrite Z.pow_0_r, Z.div_1_r. lia.
      * specialize (Hmin ltac:(lia)). rewrite Hdd in Hmin by lia.
        now replace (k - 1 + 1) with k in Hmin by lia.
    + rewrite Z.gtb_ltb in E. apply Z.ltb_ge in E.
      exists 0. rewrite Z.add_0_r, Z.pow_0_r, Z.div_1_r. repeat split; lia.
Qed.

Section Proofs.

Context {P : Platform}.

Implicit Types w : world P.

(** ** Register transport *)

Lemma write_reg_eq (reg len v : Z) w :
  len = 1 \/ len = 2 ->
  imx708_write_reg reg len v w =
  (if snd (i2c_master_send (hw w) (write_buf reg len v)) =? len + 2
   then 0 else - EIO,
   with_bus (fst (i2c_master_send (hw w) (write_buf reg len v)))
     (I2C_SEND (write_buf reg len v)
        (snd (i2c_master_send (hw w) (write_buf reg len v)))) w).
Proof.
  intros Hlen. unfold imx708_write_reg.
  replace (len >? 4) with false by (destruct Hlen as [-> | ->]; reflexivity).
  destruct (i2c_master_send (hw w) (write_buf reg len v)) as [h r].
  cbn [fst snd]. now destruct (r =? len + 2).
Qed.

Lemma long_exp_shift_with (n : Z) (d : imx708) :
  long_exp_shift (with_long_exp_shift n d) = n.
Proof. now destruct d. Qed.

(** The frame-length loop on any total an [unsigned int] can hold:
    [imx708_set_frame_length] leaves in [long_exp_shift] the number of
    halvings after which the total fits in 16 bits, and first writes the
    halved value to the 16-bit frame-length register, then the shift to
    the shift register. *)
Lemma set_frame_length_any w (total : Z) :
  0 <= total < 2 ^ 32 ->
  let w' := snd (imx708_set_frame_length total w) in
  let shift := long_exp_shift (dev w') in
  let written := total / 2 ^ shift in
  (exists r rest,
      new_events w w' =
        I2C_SEND [0x03; 0x40; written / 256; written mod 256] r :: rest /\
      (r = 4 -> exists r', rest = [I2C_SEND [0x31; 0x00; shift] r']) /\
      (r <> 4 -> rest = [])) /\
  0 <= written <= IMX708_FRAME_LENGTH_MAX /\
  0 <= shift <= 16 /\
  (total <= IMX708_FRAME_LENGTH_MAX -> shift = 0 /\ written = total) /\
  (IMX708_FRAME_LENGTH_MAX < total ->
   0 < shift /\ IMX708_FRAME_LENGTH_MAX < total / 2 ^ (shift - 1)) /\
  total - 2 ^ shift + 1 <= written * 2 ^ shift <= total /\
  (shift <= IMX708_LONG_EXP_SHIFT_MAX <-> total < 2 ^ 23) /\
  (total <= 2 ^ IMX708_LONG_EXP_SHIFT_MAX * IMX708_FRAME_LENGTH_MAX ->
   shift <= IMX708_LONG_EXP_SHIFT_MAX).
Proof.
  intros Htot w' shift written.
  destruct (frame_length_loop_spec 32 0 total ltac:(lia)
              ltac:(now compute)
              ltac:(change (2 ^ (16 + Z.of_nat 32)) with (2 ^ 48); lia))
    as (k & Hk & Hloop & Hfit & Hmin).
  rewrite Z.add_0_l in Hloop.
  (* the state and the trace *)
  assert (Hrun :
    shift = k /\
    exists r rest,
      new_events w w' =
        I2C_SEND (write_buf IMX708_REG_FRAME_LENGTH IMX708_REG_VALUE_16BIT
                    (total / 2 ^ k)) r :: rest /\
      (r = 4 -> exists r',
         rest = [I2C_SEND (write_buf IMX708_LONG_EXP_SHIFT_REG
                             IMX708_REG_VALUE_08BIT k) r']) /\
      (r <> 4 -> rest = [])).
  { subst shift w'. unfold imx708_set_frame_length. rewrite Hloop.
    unfold bind, modify_dev, pure.
    rewrite write_reg_eq by (right; reflexivity).
    set (w1 := with_dev (with_long_exp_shift k (dev w)) w).
    set (buf := write_buf IMX708_REG_FRAME_LENGTH IMX708_REG_VALUE_16BIT
                  (total / 2 ^ k)).
    destruct (i2c_master_send (hw w1) buf) as [h r] eqn:Esend.
    cbn [fst snd].
    change (IMX708_REG_VALUE_16BIT + 2) with 4.
    destruct (r =? 4) eqn:Er; [apply Z.eqb_eq in Er | apply Z.eqb_neq in Er].
    - cbn [negb Z.eqb]. rewrite write_reg_eq by (left; reflexivity).
      cbn [snd dev with_bus]. split; [apply long_exp_shift_with |].
      exists r. eexists. unfold new_events. cbn [log with_bus w1 with_dev].
      rewrite <- app_assoc, skipn_app_exact. cbn [app].
      split; [reflexivity |]. split; [| intros Hne; now elim Hne].
      intros _. eexists. reflexivity.
    - replace (negb (- EIO =? 0)) with true by reflexivity.
      cbn [snd dev with_bus]. split; [apply long_exp_shift_with |].
      exists r, []. unfold new_events. cbn [log with_bus w1 with_dev].
      rewrite skipn_app_exact.
      split; [reflexivity |]. split; [intros He; now elim Er | reflexivity]. }
  destruct Hrun as (Hshift & r & rest & Hev & Hok & Hfail).
  subst written. rewrite Hshift in *. clear Hshift shift.
  unfold IMX708_FRAME_LENGTH_MAX, IMX708_LONG_EXP_SHIFT_MAX in *.
  split.
  { exists r, rest. rewrite Hev.
    rewrite write_buf_16 by lia. split; [reflexivity |]. split; [| exact Hfail].
    intros Hr. destruct (Hok Hr) as [r' ->]. exists r'.
    assert (Hk16 : k <= 255).
    { lia. }
    now rewrite write_buf_8 by lia. }
  clear Hev Hok Hfail Hloop.
  assert (Hcases :
    k = 0 \/ k = 1 \/ k = 2 \/ k = 3 \/ k = 4 \/ k = 5 \/ k = 6 \/ k = 7 \/
    k = 8 \/ k = 9 \/ k = 10 \/ k = 11 \/ k = 12 \/ k = 13 \/ k = 14 \/
    k = 15 \/ k = 16 \/ 17 <= k <= 32) by lia.
  assert (Hk17 : ~ 17 <= k).
  { intros H17. specialize (Hmin ltac:(lia)).
    assert (Hle : 2 ^ 16 <= 2 ^ (k - 1)) by (apply Z.pow_le_mono_r; lia).
    assert (Hpos : 0 < 2 ^ (k - 1)) by (apply Z.pow_pos_nonneg; lia).
    assert (Hdiv : total / 2 ^ (k - 1) <= total / 2 ^ 16)
      by (apply Z.div_le_compat_l; lia).
    eval_pow2. Z.to_euclidean_division_equations. nia. }
  repeat match type of Hcases with
         | _ \/ _ => destruct Hcases as [-> | Hcases]
         end; try lia;
    eval_pow2; cbn [Z.sub Z.add Z.pos_sub Z.opp Z.succ_double Z.pred_double
                   Z.double Pos.pred_double] in *; eval_pow2;
    repeat split; intros;
    try (specialize (Hmin ltac:(lia)));
    Z.to_euclidean_division_equations; lia.
Qed.

(** ** Facts about the catalog *)

Lemma supported_mode_cases (i : nat) :
  supported_mode i = mode_4608x2592 \/ supported_mode i = mode_2x2binned \/
  supported_mode i = mode_hdr \/ supported_mode i = mode_2x2binned_720p.
Proof.
  unfold supported_mode.
  do 4 (destruct i as [| i]; [simpl; tauto |]). destruct i; simpl; tauto.
Qed.

Lemma supported_mode_bounds (i : nat) :
  let m := supported_mode i in
  48 <= height m < 2 ^ 16 /\ 0 <= vblank_min m /\
  0 <= exposure_lines_min m < 2 ^ 16 /\ 0 < exposure_lines_step m.
Proof.
  destruct (supported_mode_cases i) as [-> | [-> | [-> | ->]]];
    vm_compute; repeat split; congruence.
Qed.

(** The only caller, [imx708_set_ctrl] on [V4L2_CID_VBLANK], passes
    [height + vblank]; the vblank range [imx708_set_framing_limits]
    declares for the mode keeps that total at most [2^7 * 0xFFFF]. *)
Lemma vblank_total_in_range (i : nat) (v : Z) :
  let mode := supported_mode i in
  vblank_min mode <= v <= vblank_max mode ->
  u32 (height mode + u32 v) = height mode + v /\
  0 <= height mode + v <=
    2 ^ IMX708_LONG_EXP_SHIFT_MAX * IMX708_FRAME_LENGTH_MAX.
Proof.
  cbv zeta. unfold vblank_max.
  destruct (supported_mode_bounds i) as (Hh & Hvb & _).
  revert Hh. unfold IMX708_LONG_EXP_SHIFT_MAX, IMX708_FRAME_LENGTH_MAX.
  eval_pow2. intros Hh Hv.
  rewrite (u32_small v) by (eval_pow2; lia).
  rewrite u32_small by (eval_pow2; lia). lia.
Qed.


(** ** Exposure *)

(** C4 (as amended).  For every requested exposure an [unsigned int] can
    hold, [imx708_set_exposure] resolves the request as the spec
    describes -- clamped up to the mode's [exposure_lines_min], then
    rounded down to a multiple of the mode's [exposure_lines_step], then
    shifted right by the current long-exposure shift -- and sends one
    message to the 16-bit exposure register 0x0202.  The message carries
    the low 16 bits of the resolved value, high byte first: the register
    receives the resolved value itself exactly when that value is at most
    0xFFFF. *)
Theorem set_exposure_resolved w (req : Z) :
  0 <= req < 2 ^ 32 ->
  let mode := mode_of (dev w) in
  let clamped := Z.max req (exposure_lines_min mode) in
  let rounded := clamped - clamped mod exposure_lines_step mode in
  let written := Z.shiftr rounded (long_exp_shift (dev w)) in
  let hi := (written / 256) mod 256 in
  let lo := written mod 256 in
  imx708_set_exposure req w =
    imx708_write_reg IMX708_REG_EXPOSURE IMX708_REG_VALUE_16BIT written w /\
  written = exposure_resolved mode (long_exp_shift (dev w)) req /\
  (exists r,
      new_events w (snd (imx708_set_exposure req w)) =
        [ I2C_SEND [0x02; 0x02; hi; lo] r ] /\
      fst (imx708_set_exposure req w) = (if r =? 4 then 0 else - EIO)) /\
  0 <= written /\
  256 * hi + lo = written mod 2 ^ 16 /\
  (256 * hi + lo = written <-> written <= 0xFFFF) /\
  req <= clamped /\ exposure_lines_min mode <= clamped /\
  (clamped = req \/ clamped = exposure_lines_min mode) /\
  rounded mod exposure_lines_step mode = 0 /\
  rounded <= clamped < rounded + exposure_lines_step mode.
Proof.
  intros Hreq. cbv zeta.
  destruct (supported_mode_bounds (cur_mode (dev w)))
    as (_ & _ & Hmin & Hstep).
  fold (mode_of (dev w)) in Hmin, Hstep.
  remember (mode_of (dev w)) as mode eqn:Emode.
  remember (Z.max req (exposure_lines_min mode)) as clamped eqn:Hcl.
  remember (clamped - clamped mod exposure_lines_step mode) as rounded
    eqn:Hro.
  change (2 ^ 16) with 65536 in *. change (2 ^ 32) with 4294967296 in *.
  assert (Hmod : 0 <= clamped mod exposure_lines_step mode
                 < exposure_lines_step mode)
    by (apply Z.mod_pos_bound; lia).
  assert (Hmle : clamped mod exposure_lines_step mode <= clamped)
    by (apply Z.mod_le; lia).
  assert (Hrun : imx708_set_exposure req w =
    imx708_write_reg IMX708_REG_EXPOSURE IMX708_REG_VALUE_16BIT
      (Z.shiftr rounded (long_exp_shift (dev w))) w).
  { unfold imx708_set_exposure, bind, get_dev.
    rewrite <- Emode, <- Hcl, <- Hro.
    rewrite u32_small by (change (2 ^ 32) with 4294967296; lia).
    reflexivity. }
  assert (Hpos : 0 <= Z.shiftr rounded (long_exp_shift (dev w)))
    by (apply Z.shiftr_nonneg; lia).
  remember (Z.shiftr rounded (long_exp_shift (dev w))) as written eqn:Hwr.
  split; [exact Hrun |].
  split; [unfold exposure_resolved; now rewrite <- Hcl, <- Hro |]. split.
  { exists (snd (i2c_master_send (hw w)
              (write_buf IMX708_REG_EXPOSURE IMX708_REG_VALUE_16BIT
                 written))).
    rewrite Hrun, write_reg_eq by (right; reflexivity).
    unfold new_events. cbn [fst snd log with_bus].
    rewrite skipn_app_exact, write_buf_16_low by exact Hpos.
    split; reflexivity. }
  split; [exact Hpos |].
  split; [Z.to_euclidean_division_equations; lia |].
  split; [split; intros H; Z.to_euclidean_division_equations; lia |].
  split; [lia |]. split; [lia |]. split; [lia |]. split; [| lia].
  subst rounded. rewrite Zminus_mod, Z.mod_mod by lia.
  rewrite Z.sub_diag. apply Z.mod_0_l. lia.
Qed.

(** ** Frames *)

Lemma bus_only_refl w : bus_only w w.
Proof.
  repeat split. exists []. now rewrite app_nil_r.
Qed.

Lemma bus_only_trans w1 w2 w3 :
  bus_only w1 w2 -> bus_only w2 w3 -> bus_only w1 w3.
Proof.
  intros (Hd1 & Hu1 & Ha1 & e1 & Hl1) (Hd2 & Hu2 & Ha2 & e2 & Hl2).
  repeat split; try congruence.
  exists (e1 ++ e2). now rewrite Hl2, Hl1, app_assoc.
Qed.

Lemma frame_refl w : frame w w.
Proof.
  repeat split; [destruct (dev w); reflexivity | exists []; now rewrite app_nil_r].
Qed.

Lemma dev_frame_trans (d1 d2 d3 : imx708) :
  d2 = with_exposure (exposure d2)
         (with_long_exp_shift (long_exp_shift d2) d1) ->
  d3 = with_exposure (exposure d3)
         (with_long_exp_shift (long_exp_shift d3) d2) ->
  d3 = with_exposure (exposure d3)
         (with_long_exp_shift (long_exp_shift d3) d1).
Proof.
  destruct d1, d2, d3. cbn. intros H1 H2.
  inversion H1; inversion H2; subst; reflexivity.
Qed.

Lemma frame_trans w1 w2 w3 : frame w1 w2 -> frame w2 w3 -> frame w1 w3.
Proof.
  intros (Hd1 & Hu1 & Ha1 & e1 & Hl1) (Hd2 & Hu2 & Ha2 & e2 & Hl2).
  split; [exact (dev_frame_trans _ _ _ Hd1 Hd2) |].
  repeat split; try congruence.
  exists (e1 ++ e2). now rewrite Hl2, Hl1, app_assoc.
Qed.

Lemma bus_only_frame w w' : bus_only w w' -> frame w w'.
Proof.
  intros (Hd & Hu & Ha & Hl). repeat split; try assumption.
  rewrite Hd. destruct (dev w); reflexivity.
Qed.

Lemma write_reg_bus (reg len v : Z) w :
  bus_only w (snd (imx708_write_reg reg len v w)).
Proof.
  unfold imx708_write_reg. destruct (len >? 4); [apply bus_only_refl |].
  destruct (i2c_master_send (hw w) (write_buf reg len v)) as [h r].
  destruct (negb (r =? len + 2)); repeat split; now eexists.
Qed.

Lemma read_reg_bus (reg len : Z) w :
  bus_only w (snd (imx708_read_reg reg len w)).
Proof.
  unfold imx708_read_reg. destruct (len >? 4); [apply bus_only_refl |].
  destruct (i2c_transfer (hw w) _ len) as [h [r data]].
  destruct (negb (r =? 2)); repeat split; now eexists.
Qed.

Lemma write_regs_bus (l : list imx708_reg) w :
  bus_only w (snd (imx708_write_regs l w)).
Proof.
  revert w. induction l as [| r l IH]; intros w; [apply bus_only_refl |].
  cbn [imx708_write_regs].
  pose proof (write_reg_bus (address r) 1 (reg_val r) w) as H1.
  destruct (imx708_write_reg (address r) 1 (reg_val r) w) as [ret w1].
  cbn [snd] in H1. destruct (negb (ret =? 0)); [exact H1 |].
  eapply bus_only_trans; [exact H1 | apply IH].
Qed.

Lemma pdaf_gains_loop_bus (base row : Z) (todo : list nat) (ret : Z) w :
  bus_only w (snd (pdaf_gains_loop base row todo ret w)).
Proof.
  revert ret w. induction todo as [| i todo IH]; intros ret w;
    [apply bus_only_refl |].
  cbn [pdaf_gains_loop]. destruct (ret =? 0); [| apply bus_only_refl].
  pose proof (write_reg_bus (base + Z.of_nat i) IMX708_REG_VALUE_08BIT
                (pdaf_gain row (Z.of_nat i mod 9)) w) as H1.
  destruct (imx708_write_reg _ _ _ w) as [ret1 w1]. cbn [snd] in H1.
  eapply bus_only_trans; [exact H1 | apply IH].
Qed.

Lemma set_exposure_bus (v : Z) w :
  bus_only w (snd (imx708_set_exposure v w)).
Proof. unfold imx708_set_exposure, bind, get_dev. apply write_reg_bus. Qed.

Lemma set_analogue_gain_bus (v : Z) w :
  bus_only w (snd (imx708_set_analogue_gain v w)).
Proof.
  unfold imx708_set_analogue_gain, bind, pure.
  pose proof (write_reg_bus IMX708_REG_ANALOG_GAIN IMX708_REG_VALUE_16BIT v w).
  now destruct (imx708_write_reg _ _ _ w).
Qed.

Lemma set_frame_length_bus (v : Z) w :
  bus_only
    (with_dev (with_long_exp_shift (fst (frame_length_loop 32 0 v)) (dev w)) w)
    (snd (imx708_set_frame_length v w)).
Proof.
  unfold imx708_set_frame_length.
  destruct (frame_length_loop 32 0 v) as [s v']. cbn [fst].
  unfold bind, modify_dev, pure.
  set (w1 := with_dev (with_long_exp_shift s (dev w)) w).
  pose proof (write_reg_bus IMX708_REG_FRAME_LENGTH IMX708_REG_VALUE_16BIT
                v' w1) as H1.
  destruct (imx708_write_reg _ _ v' w1) as [ret w2]. cbn [snd] in H1.
  destruct (negb (ret =? 0)); [exact H1 |].
  eapply bus_only_trans; [exact H1 | apply write_reg_bus].
Qed.

Lemma with_long_exp_shift_same (d : imx708) :
  with_long_exp_shift (long_exp_shift d) d = d.
Proof. now destruct d. Qed.

Lemma with_dev_same w : with_dev (dev w) w = w.
Proof. now destruct w. Qed.

(** The apply phase only uses the bus, and changes at most the shift. *)
Lemma set_ctrl_apply_bus (id : v4l2_cid) w :
  exists s,
    bus_only (with_dev (with_long_exp_shift s (dev w)) w)
             (snd (set_ctrl_apply id w)).
Proof.
  destruct id;
    try solve [ exists (long_exp_shift (dev w));
                rewrite with_long_exp_shift_same, with_dev_same;
                unfold set_ctrl_apply, bind, get_dev, pure; cbn [snd];
                first [ apply write_reg_bus | apply set_exposure_bus
                      | apply bus_only_refl ] ].
  - (* vblank *)
    eexists. unfold set_ctrl_apply, bind, get_dev. apply set_frame_length_bus.
  - (* analogue gain *)
    exists (long_exp_shift (dev w)).
    rewrite with_long_exp_shift_same, with_dev_same.
    unfold set_ctrl_apply, bind, get_dev, pure.
    pose proof (set_analogue_gain_bus
                  (u32 (val (ctrl_of (dev w) V4L2_CID_ANALOGUE_GAIN))) w) as H.
    now destruct (imx708_set_analogue_gain _ w).
Qed.

(** ** Power usage *)

Lemma get_if_in_use_eq w :
  pm_runtime_get_if_in_use w =
  if in_use w then (1, with_usage_count (S (usage_count w)) w) else (0, w).
Proof. reflexivity. Qed.

Lemma put_after_get w w2 :
  in_use w = true ->
  usage_count w2 = S (usage_count w) ->
  pm_runtime_put w2 = (tt, with_usage_count (usage_count w) w2).
Proof.
  unfold in_use, pm_runtime_put. intros Hin Hu.
  apply andb_true_iff in Hin as [_ Hne]. rewrite Hu. cbn [Nat.pred].
  cbn [usage_count with_usage_count].
  now destruct (Nat.eqb (usage_count w) 0).
Qed.

(** [imx708_set_ctrl], by power state. *)
Lemma set_ctrl_eq (id : v4l2_cid) w :
  let w1 := snd (set_ctrl_adjust id w) in
  imx708_set_ctrl id w =
  if in_use w then
    (fst (set_ctrl_apply id (with_usage_count (S (usage_count w)) w1)),
     with_usage_count (usage_count w)
       (snd (set_ctrl_apply id (with_usage_count (S (usage_count w)) w1))))
  else (0, w1).
Proof.
  intros w1. unfold imx708_set_ctrl, bind.
  assert (Hw1 : set_ctrl_adjust id w = (tt, w1))
    by (subst w1; now destruct (set_ctrl_adjust id w) as [[] ?]).
  rewrite Hw1, get_if_in_use_eq.
  assert (Hin : in_use w1 = in_use w /\ usage_count w1 = usage_count w).
  { subst w1. unfold set_ctrl_adjust. now destruct id. }
  destruct Hin as [-> Hu]. destruct (in_use w) eqn:Hin; [| reflexivity].
  rewrite Hu. cbn [Z.eqb].
  set (w2 := with_usage_count (S (usage_count w)) w1).
  destruct (set_ctrl_apply_bus id w2) as (s & _ & Hu2 & _).
  destruct (set_ctrl_apply id w2) as [ret w3]. cbn [fst snd] in *.
  rewrite (put_after_get w w3 Hin) by exact Hu2. reflexivity.
Qed.

(** ** Control application *)

Lemma exposure_with_exposure (c : v4l2_ctrl) (d : imx708) :
  exposure (with_exposure c d) = c.
Proof. now destruct d. Qed.

Lemma exposure_with_long_exp_shift (s : Z) (d : imx708) :
  exposure (with_long_exp_shift s d) = exposure d.
Proof. now destruct d. Qed.

(** C2.  When [imx708_set_ctrl] is called for the vblank control and the
    control holds a value within the legal range of the active mode
    ([vblank_min .. 2^7 * 0xFFFF - height]), the exposure control's maximum
    becomes exactly [height + vblank - 48] and its default becomes the
    minimum of the exposure control's previous value and that new maximum;
    this is so whether or not power is in use and whatever the bus does. *)
Theorem vblank_change_adjusts_exposure w :
  let imx := dev w in
  let mode := mode_of imx in
  let v := val (vblank imx) in
  vblank_min mode <= v <= vblank_max mode ->
  let imx' := dev (snd (imx708_set_ctrl V4L2_CID_VBLANK w)) in
  maximum (exposure imx') = height mode + v - IMX708_EXPOSURE_OFFSET /\
  default_value (exposure imx') =
    Z.min (val (exposure imx)) (height mode + v - IMX708_EXPOSURE_OFFSET) /\
  minimum (exposure imx') = minimum (exposure imx) /\
  step (exposure imx') = step (exposure imx) /\
  val (exposure imx') = val (exposure imx).
Proof.
  cbv zeta. intros Hv.
  assert (Hexp : exposure (dev (snd (imx708_set_ctrl V4L2_CID_VBLANK w))) =
                 exposure (imx708_adjust_exposure_range (dev w))).
  { pose proof (set_ctrl_eq V4L2_CID_VBLANK w) as Heq. cbv zeta in Heq.
    rewrite Heq. clear Heq.
    change (snd (set_ctrl_adjust V4L2_CID_VBLANK w))
      with (with_dev (imx708_adjust_exposure_range (dev w)) w).
    destruct (in_use w); [| reflexivity].
    set (w2 := with_usage_count _ _).
    destruct (set_ctrl_apply_bus V4L2_CID_VBLANK w2) as (s & Hd & _).
    cbn [snd dev with_usage_count]. rewrite Hd.
    unfold w2. cbn [dev with_dev with_usage_count].
    apply exposure_with_long_exp_shift. }
  rewrite Hexp. unfold imx708_adjust_exposure_range.
  rewrite exposure_with_exposure. unfold __v4l2_ctrl_modify_range.
  cbn [maximum default_value minimum step val].
  destruct (supported_mode_bounds (cur_mode (dev w))) as (Hh & Hvmin & _).
  fold (mode_of (dev w)) in Hh, Hvmin.
  unfold vblank_max, IMX708_LONG_EXP_SHIFT_MAX, IMX708_FRAME_LENGTH_MAX,
    IMX708_EXPOSURE_OFFSET in *.
  change (2 ^ 7) with 128 in Hv. change (2 ^ 16) with 65536 in Hh.
  assert (Hmax :
    s32 (u32 (u32 (height (mode_of (dev w)) + u32 (val (vblank (dev w)))) - 48))
    = height (mode_of (dev w)) + val (vblank (dev w)) - 48).
  { rewrite (u32_small (val (vblank (dev w))))
      by (change (2 ^ 32) with 4294967296; lia).
    rewrite (u32_small (_ + _)) by (change (2 ^ 32) with 4294967296; lia).
    rewrite u32_small by (change (2 ^ 32) with 4294967296; lia).
    apply s32_small. change (2 ^ 31) with 2147483648. lia. }
  rewrite Hmax. repeat split; try reflexivity. apply Z.min_comm.
Qed.

(** C5.  Setting the stream to the state it is in is a no-op:
    [imx708_set_stream(1)] while streaming, and [imx708_set_stream(0)]
    while in standby, return 0 and leave the device structure, the power
    usage, the hardware and the bus trace as they were. *)
Theorem set_stream_idempotent w :
  (streaming (dev w) = true -> imx708_set_stream 1 w = (0, w)) /\
  (streaming (dev w) = false -> imx708_set_stream 0 w = (0, w)).
Proof.
  split; intros Hs; unfold imx708_set_stream, bind, get_dev, pure;
    now rewrite Hs.
Qed.

(** C9 (as amended).  For a control id [imx708_set_ctrl] has no case for:
    while power is in active use the call is rejected with [-EINVAL], and
    while it is not the call returns 0; either way the device structure,
    the power usage, the hardware and the bus trace are left as they
    were. *)
Theorem unknown_ctrl_no_effect w (id : v4l2_cid) :
  handled id = false ->
  imx708_set_ctrl id w = (if in_use w then - EINVAL else 0, w).
Proof.
  intros Hid. pose proof (set_ctrl_eq id w) as Heq. cbv zeta in Heq.
  rewrite Heq. clear Heq.
  destruct id; try discriminate Hid;
    unfold set_ctrl_adjust, set_ctrl_apply, bind, get_dev, pure;
    cbn [fst snd]; destruct (in_use w); destruct w; reflexivity.
Qed.

Lemma write_reg_result (reg len v : Z) w :
  len = 1 \/ len = 2 ->
  let w' := snd (imx708_write_reg reg len v w) in
  fst (imx708_write_reg reg len v w) =
    (if existsb send_failed (new_events w w') then - EIO else 0) /\
  new_events w w' =
    [ I2C_SEND (write_buf reg len v)
        (snd (i2c_master_send (hw w) (write_buf reg len v))) ].
Proof.
  intros Hlen. cbv zeta. rewrite write_reg_eq by exact Hlen.
  unfold new_events. cbn [fst snd log with_bus].
  rewrite skipn_app_exact. split; [| reflexivity].
  cbn [existsb send_failed]. rewrite write_buf_length by exact Hlen.
  rewrite orb_false_r. now destruct (_ =? len + 2).
Qed.

Lemma set_frame_length_result (v : Z) w :
  let w' := snd (imx708_set_frame_length v w) in
  new_events w w' <> [] /\
  fst (imx708_set_frame_length v w) =
    (if existsb send_failed (new_events w w') then - EIO else 0).
Proof.
  cbv zeta. unfold imx708_set_frame_length.
  destruct (frame_length_loop 32 0 v) as [s v'].
  unfold bind, modify_dev, pure.
  set (w1 := with_dev (with_long_exp_shift s (dev w)) w).
  assert (Hlog : log w1 = log w) by reflexivity.
  unfold new_events. rewrite <- Hlog. fold (new_events w1).
  destruct (write_reg_result IMX708_REG_FRAME_LENGTH IMX708_REG_VALUE_16BIT
              v' w1 ltac:(now right)) as [Hr1 He1].
  pose proof (write_reg_bus IMX708_REG_FRAME_LENGTH IMX708_REG_VALUE_16BIT
                v' w1) as (_ & _ & _ & evs1 & Hl1).
  destruct (imx708_write_reg _ _ v' w1) as [ret w2]. cbn [fst snd] in *.
  unfold new_events in He1. rewrite Hl1, skipn_app_exact in He1.
  unfold new_events in Hr1. rewrite Hl1, skipn_app_exact in Hr1.
  destruct (existsb send_failed evs1) eqn:Ef1; subst ret.
  - cbn [negb Z.eqb EIO Z.opp fst snd]. unfold new_events.
    rewrite Hl1, skipn_app_exact, Ef1. split; [now rewrite He1 | reflexivity].
  - cbn [negb Z.eqb fst snd].
    destruct (write_reg_result IMX708_LONG_EXP_SHIFT_REG
                IMX708_REG_VALUE_08BIT s w2 ltac:(now left)) as [Hr2 He2].
    pose proof (write_reg_bus IMX708_LONG_EXP_SHIFT_REG
                  IMX708_REG_VALUE_08BIT s w2) as (_ & _ & _ & evs2 & Hl2).
    destruct (imx708_write_reg _ _ s w2) as [ret2 w3]. cbn [fst snd] in *.
    unfold new_events in Hr2, He2.
    rewrite Hl2, skipn_app_exact in Hr2, He2.
    unfold new_events. rewrite Hl2, Hl1, <- app_assoc, skipn_app_exact.
    rewrite existsb_app, Ef1. cbn [orb]. split; [| exact Hr2].
    rewrite He1. discriminate.
Qed.

(** C10.  While power is in active use, applying the analogue-gain control
    attempts one write to the analogue-gain register and returns 0 whatever
    the bus answered, a failed write included.  Applying any other control
    the driver handles (exposure, digital gain, test pattern and its four
    colours, the flips, vblank) attempts its register writes and returns
    [-EIO] as soon as one of them fails, 0 otherwise. *)
Theorem analogue_gain_error_discarded w (id : v4l2_cid) :
  in_use w = true ->
  handled id = true ->
  let ret := fst (imx708_set_ctrl id w) in
  let w' := snd (imx708_set_ctrl id w) in
  match id with
  | V4L2_CID_ANALOGUE_GAIN =>
      let buf :=
        write_buf IMX708_REG_ANALOG_GAIN IMX708_REG_VALUE_16BIT
          (u32 (val (analogue_gain (ctrl_handler (dev w))))) in
      new_events w w' = [ I2C_SEND buf (snd (i2c_master_send (hw w) buf)) ] /\
      ret = 0
  | _ =>
      new_events w w' <> [] /\
      ret = (if existsb send_failed (new_events w w') then - EIO else 0)
  end.
Proof.
  intros Hin Hid. cbv zeta.
  pose proof (set_ctrl_eq id w) as Heq. cbv zeta in Heq.
  rewrite Heq, Hin. clear Heq. cbn [fst snd].
  set (w2 := with_usage_count (S (usage_count w)) (snd (set_ctrl_adjust id w))).
  assert (Hlog : log w2 = log w /\ hw w2 = hw w)
    by (subst w2; unfold set_ctrl_adjust; now destruct id).
  destruct Hlog as [Hlog Hhw].
  assert (Hnew : forall w3, new_events w (with_usage_count (usage_count w) w3)
                            = new_events w2 w3)
    by (intros w3; unfold new_events; now rewrite Hlog).
  rewrite Hnew.
  destruct id; try discriminate Hid;
    unfold set_ctrl_apply, bind, get_dev, pure;
    [ (* vblank *) apply set_frame_length_result
    | (* analogue gain *)
    | unfold imx708_set_exposure, bind, get_dev | .. ];
    try (match goal with
         | |- context [imx708_write_reg ?r ?l ?v w2] =>
             destruct (write_reg_result r l v w2
                         ltac:(first [now left | now right])) as [Hr He]
         end;
         cbv zeta in Hr, He; rewrite He at 1;
         split; [discriminate | exact Hr]).
  unfold imx708_set_analogue_gain, bind, pure.
  destruct (write_reg_result IMX708_REG_ANALOG_GAIN IMX708_REG_VALUE_16BIT
              (u32 (val (ctrl_of (dev w2) V4L2_CID_ANALOGUE_GAIN))) w2
              ltac:(now right)) as [_ He].
  cbv zeta in He. destruct (imx708_write_reg _ _ _ w2) as [r0 w3].
  cbn [fst snd] in *. rewrite He, Hhw. split; [| reflexivity].
  subst w2. reflexivity.
Qed.

(** ** Traces of successful register sequences *)

Lemma write_reg_ok (reg len v : Z) w :
  len = 1 \/ len = 2 ->
  fst (imx708_write_reg reg len v w) = 0 ->
  log (snd (imx708_write_reg reg len v w)) = log w ++ [ ok_send reg len v ].
Proof.
  intros Hlen. rewrite write_reg_eq by exact Hlen. cbn [fst snd log with_bus].
  unfold ok_send.
  destruct (_ =? len + 2) eqn:E; [| discriminate].
  apply Z.eqb_eq in E. now rewrite E.
Qed.

Lemma write_regs_ok (l : list imx708_reg) w :
  fst (imx708_write_regs l w) = 0 ->
  log (snd (imx708_write_regs l w)) = log w ++ regs_trace l.
Proof.
  revert w. induction l as [| r l IH]; intros w.
  - intros _. cbn. now rewrite app_nil_r.
  - cbn [imx708_write_regs regs_trace map].
    pose proof (write_reg_ok (address r) 1 (reg_val r) w ltac:(now left)) as H1.
    destruct (imx708_write_reg (address r) 1 (reg_val r) w) as [ret w1].
    cbn [fst snd] in H1.
    destruct (ret =? 0) eqn:E; cbn [negb].
    + apply Z.eqb_eq in E. intros H. rewrite (IH w1 H), (H1 E).
      now rewrite <- app_assoc.
    + apply Z.eqb_neq in E. cbn [fst]. intros H. now elim E.
Qed.

Lemma pdaf_gains_loop_ok (base row : Z) (todo : list nat) (ret : Z) w :
  fst (pdaf_gains_loop base row todo ret w) = 0 ->
  ret = 0 /\
  log (snd (pdaf_gains_loop base row todo ret w)) =
    log w ++ map (fun i => ok_send (base + Z.of_nat i) IMX708_REG_VALUE_08BIT
                             (pdaf_gain row (Z.of_nat i mod 9))) todo.
Proof.
  revert ret w. induction todo as [| i todo IH]; intros ret w.
  - cbn. intros ->. now rewrite app_nil_r.
  - cbn [pdaf_gains_loop map].
    destruct (ret =? 0) eqn:E; [apply Z.eqb_eq in E | cbn; intros H;
      apply Z.eqb_neq in E; now elim E].
    pose proof (write_reg_ok (base + Z.of_nat i) IMX708_REG_VALUE_08BIT
                  (pdaf_gain row (Z.of_nat i mod 9)) w ltac:(now left)) as H1.
    destruct (imx708_write_reg _ _ _ w) as [ret1 w1]. cbn [fst snd] in H1.
    intros H. destruct (IH ret1 w1 H) as [-> Hl].
    split; [exact E |]. rewrite Hl, H1 by reflexivity.
    now rewrite <- app_assoc.
Qed.

Lemma read_reg_ok (reg : Z) w :
  fst (fst (imx708_read_reg reg IMX708_REG_VALUE_08BIT w)) = 0 ->
  exists data,
    log (snd (imx708_read_reg reg IMX708_REG_VALUE_08BIT w)) =
      log w ++ [ I2C_XFER [Z.land (Z.shiftr reg 8) 0xff; Z.land reg 0xff]
                   IMX708_REG_VALUE_08BIT 2 data ] /\
    snd (fst (imx708_read_reg reg IMX708_REG_VALUE_08BIT w)) =
      get_unaligned_be32 (data_buf IMX708_REG_VALUE_08BIT data).
Proof.
  unfold imx708_read_reg.
  change (IMX708_REG_VALUE_08BIT >? 4) with false. cbv iota.
  match goal with
  | |- context [i2c_transfer ?a ?b ?c] =>
      destruct (i2c_transfer a b c) as [h [r data]]
  end.
  destruct (r =? 2) eqn:E; cbn [negb fst snd]; [| discriminate].
  apply Z.eqb_eq in E. subst r. intros _. exists data. now split.
Qed.

(** ** The common registers and the calibration patch *)

(** The guarded block leaves the device structure alone when it fails, and
    sets the flag, after exactly the calibration trace, when it succeeds. *)
Lemma write_common_regs_spec w :
  let ret := fst (write_common_regs w) in
  let w' := snd (write_common_regs w) in
  (ret <> 0 -> bus_only w w') /\
  (ret = 0 ->
   bus_only (with_dev (with_common_regs_written true (dev w)) w) w' /\
   exists data, log w' = log w ++ calibration_trace data).
Proof.
  cbv zeta. unfold write_common_regs, bind, pure.
  pose proof (write_regs_bus mode_common_regs w) as Hb1.
  pose proof (write_regs_ok mode_common_regs w) as Ht1.
  destruct (imx708_write_regs mode_common_regs w) as [ret1 w1].
  cbn [fst snd] in Hb1, Ht1.
  destruct (ret1 =? 0) eqn:E1; cbn [negb];
    [apply Z.eqb_eq in E1 | apply Z.eqb_neq in E1].
  2: { cbn [fst snd]. split; [intros _; exact Hb1 | intros H; now elim E1]. }
  specialize (Ht1 E1).
  pose proof (read_reg_bus IMX708_REG_BASE_SPC_GAINS_L IMX708_REG_VALUE_08BIT
                w1) as Hb2.
  pose proof (read_reg_ok IMX708_REG_BASE_SPC_GAINS_L w1) as Ht2.
  destruct (imx708_read_reg _ _ w1) as [[ret2 v] w2].
  cbn [fst snd] in Hb2, Ht2.
  assert (Hb12 : bus_only w w2) by (eapply bus_only_trans; eassumption).
  destruct (ret2 =? 0) eqn:E2;
    [apply Z.eqb_eq in E2 | apply Z.eqb_neq in E2].
  2: { cbn [andb].
       replace (negb (ret2 =? 0)) with true
         by (symmetry; apply negb_true_iff; now apply Z.eqb_neq).
       cbn [fst snd]. split; [intros _; exact Hb12 | intros H; now elim E2]. }
  destruct (Ht2 E2) as (data & Hl2 & Hv). subst ret2. cbn [andb].
  destruct (v =? 0x40) eqn:Ev.
  - (* the sentinel matched: both tables *)
    pose proof (pdaf_gains_loop_bus IMX708_REG_BASE_SPC_GAINS_L 0 (seq 0 54)
                  0 w2) as Hb3.
    pose proof (pdaf_gains_loop_ok IMX708_REG_BASE_SPC_GAINS_L 0 (seq 0 54)
                  0 w2) as Ht3.
    destruct (pdaf_gains_loop _ 0 _ 0 w2) as [ret3 w3].
    cbn [fst snd] in Hb3, Ht3.
    pose proof (pdaf_gains_loop_bus IMX708_REG_BASE_SPC_GAINS_R 1 (seq 0 54)
                  ret3 w3) as Hb4.
    pose proof (pdaf_gains_loop_ok IMX708_REG_BASE_SPC_GAINS_R 1 (seq 0 54)
                  ret3 w3) as Ht4.
    destruct (pdaf_gains_loop _ 1 _ ret3 w3) as [ret4 w4].
    cbn [fst snd] in Hb4, Ht4.
    assert (Hb14 : bus_only w w4)
      by (eapply bus_only_trans; [| exact Hb4];
          eapply bus_only_trans; eassumption).
    destruct (ret4 =? 0) eqn:E4; cbn [negb];
      [apply Z.eqb_eq in E4 | apply Z.eqb_neq in E4];
      unfold modify_dev; cbn [fst snd].
    + split; [intros H; now elim H |]. intros _.
      destruct Hb14 as (Hd & Hu & Ha & evs & Hl).
      split.
      * repeat split; cbn [dev with_dev usage_count runtime_active log];
          try congruence. exists evs. exact Hl.
      * exists data. cbn [log with_dev].
        destruct (Ht4 E4) as [E3 Hl4]. destruct (Ht3 E3) as [_ Hl3].
        rewrite Hl4, Hl3, Hl2, Ht1. unfold calibration_trace.
        rewrite <- Hv, Ev. unfold pdaf_trace.
        now rewrite <- !app_assoc.
    + split; [intros _; exact Hb14 | intros H; now elim E4].
  - (* no match: the patch is skipped *)
    cbn [negb Z.eqb]. unfold modify_dev. cbn [fst snd].
    split; [intros H; now elim H |]. intros _.
    destruct Hb12 as (Hd & Hu & Ha & evs & Hl).
    split.
    + repeat split; cbn [dev with_dev usage_count runtime_active log];
        try congruence. exists evs. exact Hl.
    + exists data. cbn [log with_dev]. rewrite Hl2, Ht1.
      unfold calibration_trace. rewrite <- Hv, Ev.
      now rewrite app_nil_r, <- app_assoc.
Qed.

(** ** What control application and the replay leave alone *)

Lemma frame_fields w w' :
  frame w w' ->
  streaming (dev w') = streaming (dev w) /\
  hflip (dev w') = hflip (dev w) /\
  vflip (dev w') = vflip (dev w) /\
  common_regs_written (dev w') = common_regs_written (dev w) /\
  cur_mode (dev w') = cur_mode (dev w).
Proof.
  intros (Hd & _). rewrite Hd. destruct (dev w). cbn. tauto.
Qed.

Lemma bus_only_flag (b : bool) w w' :
  bus_only (with_dev (with_common_regs_written b (dev w)) w) w' ->
  streaming (dev w') = streaming (dev w) /\
  hflip (dev w') = hflip (dev w) /\
  vflip (dev w') = vflip (dev w) /\
  common_regs_written (dev w') = b /\
  usage_count w' = usage_count w /\
  runtime_active w' = runtime_active w /\
  exists evs, log w' = log w ++ evs.
Proof.
  intros (Hd & Hu & Ha & Hl). rewrite Hd. cbn [dev with_dev].
  destruct (dev w). cbn. tauto.
Qed.

Lemma set_ctrl_frame (id : v4l2_cid) w : frame w (snd (imx708_set_ctrl id w)).
Proof.
  pose proof (set_ctrl_eq id w) as Heq. cbv zeta in Heq. rewrite Heq.
  clear Heq.
  assert (Hadj : frame w (snd (set_ctrl_adjust id w))).
  { unfold set_ctrl_adjust. destruct id; try apply frame_refl.
    unfold modify_dev, imx708_adjust_exposure_range. cbn [snd].
    repeat split; cbn [dev with_dev usage_count runtime_active log];
      [destruct (dev w); reflexivity | exists []; now rewrite app_nil_r]. }
  destruct (in_use w); [| exact Hadj]. cbn [snd].
  set (w1 := snd (set_ctrl_adjust id w)) in *.
  set (w2 := with_usage_count (S (usage_count w)) w1).
  destruct (set_ctrl_apply_bus id w2) as (s & Hd & Hu & Ha & evs & Hl).
  eapply frame_trans; [exact Hadj |].
  cbn [dev with_dev usage_count runtime_active log with_usage_count] in *.
  repeat split; cbn [dev with_dev usage_count runtime_active log
                       with_usage_count].
  - rewrite Hd. change (dev w2) with (dev w1).
    destruct (dev w1); reflexivity.
  - destruct Hadj as (_ & Hu1 & _). now rewrite Hu1.
  - exact Ha.
  - exists evs. exact Hl.
Qed.

Lemma ctrl_replay_frame (ids : list v4l2_cid) w :
  frame w (snd (ctrl_replay ids w)).
Proof.
  revert w. induction ids as [| id ids IH]; intros w; [apply frame_refl |].
  cbn [ctrl_replay]. pose proof (set_ctrl_frame id w) as H1.
  destruct (imx708_set_ctrl id w) as [ret w1]. cbn [snd] in H1.
  destruct (negb (ret =? 0)); [exact H1 |].
  eapply frame_trans; [exact H1 | apply IH].
Qed.

(** ** The start pipeline *)

Lemma start_streaming_eq w :
  imx708_start_streaming w = run_until_failure start_steps w.
Proof.
  unfold imx708_start_streaming, start_steps, bind, get_dev.
  cbn [run_until_failure].
  destruct ((if negb (common_regs_written (dev w)) then write_common_regs
             else pure 0) w) as [r1 w1].
  destruct (negb (r1 =? 0)); [reflexivity |].
  destruct (imx708_write_regs (regs (reg_list (mode_of (dev w1)))) w1)
    as [r2 w2].
  destruct (negb (r2 =? 0)); [reflexivity |].
  destruct (imx708_write_regs _ w2) as [r3 w3].
  destruct (negb (r3 =? 0)); [reflexivity |].
  destruct (__v4l2_ctrl_handler_setup w3) as [r4 w4].
  destruct (negb (r4 =? 0)); [reflexivity |].
  destruct (imx708_write_reg _ _ _ w4) as [r5 w5].
  destruct (r5 =? 0) eqn:E; [| reflexivity].
  apply Z.eqb_eq in E. now subst r5.
Qed.

Lemma run_until_failure_aborts (steps : list (M P Z)) w :
  fst (run_until_failure steps w) <> 0 ->
  exists k,
    (k < length steps)%nat /\
    aborts_at steps w k (fst (run_until_failure steps w))
      (snd (run_until_failure steps w)).
Proof.
  revert w. induction steps as [| step steps IH]; intros w.
  - cbn. intros H. now elim H.
  - cbn [run_until_failure]. destruct (step w) as [r w1] eqn:Estep.
    destruct (r =? 0) eqn:E; cbn [negb];
      [apply Z.eqb_eq in E | apply Z.eqb_neq in E].
    + subst r. intros H. destruct (IH w1 H) as (k & Hk & Hab).
      exists (S k). split; [cbn; lia |].
      eapply abort_later; eassumption.
    + cbn [fst snd]. intros _. exists 0%nat. split; [cbn; lia |].
      now apply abort_here.
Qed.

Lemma run_until_failure_frame (steps : list (M P Z)) w :
  (forall step w, In step steps -> frame w (snd (step w))) ->
  frame w (snd (run_until_failure steps w)).
Proof.
  revert w. induction steps as [| step steps IH]; intros w Hall;
    [apply frame_refl |].
  cbn [run_until_failure].
  pose proof (Hall step w (or_introl eq_refl)) as H1.
  destruct (step w) as [r w1]. cbn [snd] in H1.
  destruct (negb (r =? 0)); [exact H1 |].
  eapply frame_trans; [exact H1 |].
  apply IH. intros s w0 Hin. apply Hall. now right.
Qed.

(** The steps after the common registers are frames. *)
Lemma start_steps_tail_frame w :
  frame w (snd (run_until_failure (tl start_steps) w)).
Proof.
  apply run_until_failure_frame. intros step w0 Hin.
  unfold start_steps in Hin. cbn [tl In] in Hin.
  destruct Hin as [<- | [<- | [<- | [<- | []]]]];
    unfold bind, get_dev.
  - apply bus_only_frame, write_regs_bus.
  - apply bus_only_frame, write_regs_bus.
  - unfold __v4l2_ctrl_handler_setup. apply ctrl_replay_frame.
  - apply bus_only_frame, write_reg_bus.
Qed.

(** What a stream start leaves alone, and what a flag it has set means. *)
Lemma start_streaming_spec w :
  let w' := snd (imx708_start_streaming w) in
  streaming (dev w') = streaming (dev w) /\
  hflip (dev w') = hflip (dev w) /\
  vflip (dev w') = vflip (dev w) /\
  usage_count w' = usage_count w /\
  runtime_active w' = runtime_active w /\
  (exists evs, log w' = log w ++ evs) /\
  (common_regs_written (dev w) = false ->
   common_regs_written (dev w') = true ->
   exists data rest, log w' = log w ++ calibration_trace data ++ rest).
Proof.
  cbv zeta. rewrite start_streaming_eq.
  assert (Hrun : run_until_failure start_steps w =
    let (ret, w1) := (if negb (common_regs_written (dev w))
                      then write_common_regs else pure 0) w in
    if negb (ret =? 0) then (ret, w1)
    else run_until_failure (tl start_steps) w1) by reflexivity.
  rewrite Hrun. clear Hrun.
  destruct (common_regs_written (dev w)) eqn:Eflag; cbn [negb].
  - (* already written: the first step does nothing *)
    unfold pure at 1. cbn [Z.eqb negb].
    pose proof (start_steps_tail_frame w) as Hf.
    destruct (frame_fields _ _ Hf) as (Hs & Hh & Hv & _).
    destruct Hf as (_ & Hu & Ha & Hl).
    repeat split; try assumption. intros H. discriminate H.
  - destruct (write_common_regs_spec w) as [Hfail Hok]. cbv zeta in Hfail, Hok.
    destruct (write_common_regs w) as [r1 w1]. cbn [fst snd] in Hfail, Hok.
    destruct (r1 =? 0) eqn:E1; cbn [negb];
      [apply Z.eqb_eq in E1 | apply Z.eqb_neq in E1].
    + destruct (Hok E1) as [Hb (data & Hl1)].
      destruct (bus_only_flag _ _ _ Hb)
        as (Hs1 & Hh1 & Hv1 & _ & Hu1 & Ha1 & _).
      pose proof (start_steps_tail_frame w1) as Hf.
      destruct (frame_fields _ _ Hf) as (Hs & Hh & Hv & _).
      destruct Hf as (_ & Hu & Ha & evs & Hl).
      repeat split; try congruence.
      * exists (calibration_trace data ++ evs).
        now rewrite Hl, Hl1, app_assoc.
      * intros _ _. exists data, evs. now rewrite Hl, Hl1, app_assoc.
    + cbn [snd]. pose proof (Hfail E1) as (Hd & Hu & Ha & Hl).
      rewrite Hd. repeat split; try assumption.
      intros _ H. rewrite Eflag in H. discriminate H.
Qed.

(** ** Power usage *)

Lemma power_on_spec w :
  let w' := snd (imx708_power_on w) in
  dev w' = dev w /\ usage_count w' = usage_count w /\
  runtime_active w' = runtime_active w /\ log w' = log w.
Proof.
  cbv zeta. unfold imx708_power_on, bind, call_hw, modify_hw, pure.
  destruct (regulator_bulk_enable (hw w)) as [h1 r1].
  destruct (negb (r1 =? 0)); [now cbn |].
  cbn [hw with_hw].
  destruct (clk_prepare_enable h1) as [h2 r2].
  destruct (negb (r2 =? 0)); now cbn.
Qed.

Lemma power_off_spec w :
  let w' := snd (imx708_power_off w) in
  dev w' = with_common_regs_written false (dev w) /\
  usage_count w' = usage_count w /\
  runtime_active w' = runtime_active w /\ log w' = log w.
Proof. now cbn. Qed.

Lemma common_regs_written_with (b : bool) (d : imx708) :
  common_regs_written (with_common_regs_written b d) = b.
Proof. now destruct d. Qed.

Lemma get_sync_spec w :
  let w' := snd (pm_runtime_get_sync w) in
  dev w' = dev w /\ usage_count w' = S (usage_count w) /\ log w' = log w.
Proof.
  cbv zeta. unfold pm_runtime_get_sync.
  destruct (runtime_active _); [now cbn |].
  set (w1 := with_usage_count (S (usage_count w)) w).
  destruct (power_on_spec w1) as (Hd & Hu & _ & Hl). cbv zeta in *.
  destruct (imx708_power_on w1) as [r w2]. cbn [snd] in *.
  destruct (r =? 0); cbn [snd dev usage_count log with_runtime_active];
    now rewrite Hd, Hu, Hl.
Qed.

Lemma put_noidle_spec w :
  let w' := snd (pm_runtime_put_noidle w) in
  dev w' = dev w /\ usage_count w' = Nat.pred (usage_count w) /\
  log w' = log w.
Proof. now cbn. Qed.

Lemma put_spec w :
  let w' := snd (pm_runtime_put w) in
  (dev w' = dev w \/ dev w' = with_common_regs_written false (dev w)) /\
  usage_count w' = Nat.pred (usage_count w) /\ log w' = log w.
Proof.
  cbv zeta. unfold pm_runtime_put.
  destruct (_ && _); cbn; tauto.
Qed.

Lemma put_fields w :
  let w' := snd (pm_runtime_put w) in
  streaming (dev w') = streaming (dev w) /\
  hflip (dev w') = hflip (dev w) /\
  vflip (dev w') = vflip (dev w) /\
  (common_regs_written (dev w') = true ->
   common_regs_written (dev w) = true).
Proof.
  cbv zeta. destruct (put_spec w) as ([-> | ->] & _); destruct (dev w); cbn;
    repeat split; try tauto. intros H. discriminate H.
Qed.

(** ** Stream start and stop *)

Lemma set_stream_commit_spec (enable ret : Z) w :
  let w' := snd (set_stream_commit enable ret w) in
  fst (set_stream_commit enable ret w) = ret /\
  common_regs_written (dev w') = common_regs_written (dev w) /\
  usage_count w' = usage_count w /\ log w' = log w /\
  runtime_active w' = runtime_active w.
Proof.
  cbv zeta. unfold set_stream_commit, bind, modify_dev, pure.
  cbn [fst snd dev with_dev usage_count log].
  destruct (dev w). cbn. tauto.
Qed.

(** The driver's stream start is the spec's pipeline. *)
Lemma set_stream_start_eq w :
  streaming (dev w) = false ->
  imx708_set_stream 1 w = start_pipeline w.
Proof.
  intros Hs. unfold imx708_set_stream, start_pipeline, bind, get_dev, pure.
  rewrite Hs. cbn [Z.b2z Z.eqb negb].
  destruct (pm_runtime_get_sync w) as [r0 w1].
  destruct (r0 <? 0).
  - now destruct (pm_runtime_put_noidle w1) as [[] ?].
  - rewrite start_streaming_eq.
    destruct (run_until_failure (start_steps) w1) as [r w2].
    destruct (r =? 0) eqn:E; cbn [negb].
    + apply Z.eqb_eq in E. now subst r.
    + now destruct (pm_runtime_put w2) as [[] ?].
Qed.

(** A stream start requested in standby that fails: what it leaves, and
    where it stopped. *)
Lemma start_failure_spec w :
  streaming (dev w) = false ->
  fst (imx708_set_stream 1 w) <> 0 ->
  let ret := fst (imx708_set_stream 1 w) in
  let w' := snd (imx708_set_stream 1 w) in
  let acq := pm_runtime_get_sync w in
  streaming (dev w') = false /\
  usage_count w' = usage_count w /\
  hflip (dev w') = hflip (dev w) /\
  vflip (dev w') = vflip (dev w) /\
  imx708_set_stream 1 w = start_pipeline w /\
  ((fst acq < 0 /\ ret = fst acq /\ log w' = log w) \/
   (0 <= fst acq /\
    exists k wk,
      (k < length (start_steps))%nat /\
      aborts_at (start_steps) (snd acq) k ret wk /\
      w' = snd (pm_runtime_put wk) /\
      log w' = log wk)).
Proof.
  intros Hs Hfail. cbv zeta.
  split; [| split; [| split; [| split; [| split]]]];
    try (now apply set_stream_start_eq);
    revert Hfail; rewrite (set_stream_start_eq w Hs); unfold start_pipeline;
    destruct (get_sync_spec w) as (Hd0 & Hu0 & Hl0); cbv zeta in *;
    destruct (pm_runtime_get_sync w) as [r0 w1]; cbn [fst snd] in *;
    (destruct (r0 <? 0) eqn:E0;
     [ apply Z.ltb_lt in E0; cbn [fst snd]; intros _;
       destruct (put_noidle_spec w1) as (Hd1 & Hu1 & Hl1); cbv zeta in *
     | apply Z.ltb_ge in E0;
       pose proof (start_streaming_spec w1) as Hst; cbv zeta in Hst;
       rewrite start_streaming_eq in Hst;
       pose proof (run_until_failure_aborts (start_steps) w1) as Hab;
       destruct (run_until_failure (start_steps) w1) as [r w2];
       cbn [fst snd] in *;
       destruct Hst as (Hs2 & Hh2 & Hv2 & Hu2 & _ & _ & _);
       (destruct (r =? 0) eqn:E; cbn [negb];
        [ apply Z.eqb_eq in E; subst r;
          destruct (set_stream_commit_spec 1 0 w2) as (Hr & _);
          cbv zeta in Hr; rewrite Hr; intros Hne; now elim Hne
        | apply Z.eqb_neq in E; cbn [fst snd]; intros _;
          destruct (put_spec w2) as (_ & Hu3 & Hl3);
          destruct (put_fields w2) as (Hs3 & Hh3 & Hv3 & _);
          cbv zeta in * ]) ]).
  - rewrite Hd1. congruence.
  - congruence.
  - rewrite Hu1, Hu0. reflexivity.
  - rewrite Hu3, Hu2, Hu0. reflexivity.
  - now rewrite Hd1, Hd0.
  - congruence.
  - now rewrite Hd1, Hd0.
  - congruence.
  - left. split; [exact E0 |]. split; [reflexivity | congruence].
  - right. split; [exact E0 |].
    destruct (Hab E) as (k & Hk & Hrun). exists k, w2.
    split; [exact Hk |]. split; [exact Hrun |]. split; [reflexivity |].
    exact Hl3.
Qed.

(** C7 (as amended).  If a stream start, requested in standby, fails at
    any step of the pipeline -- power acquisition, the common registers
    and calibration, the mode register list, the link-frequency registers,
    the control replay, or the stream-enable write -- then nothing after
    the failing step is run, the streaming flag is still false, the power
    usage acquired for the attempt is released again, and the flip
    controls are left as they were: the failed start does not freeze
    them, so they are not frozen unless they were frozen before the
    attempt. *)
Theorem start_failure_leaves_standby w :
  streaming (dev w) = false ->
  fst (imx708_set_stream 1 w) <> 0 ->
  let ret := fst (imx708_set_stream 1 w) in
  let w' := snd (imx708_set_stream 1 w) in
  let acq := pm_runtime_get_sync w in
  streaming (dev w') = false /\
  usage_count w' = usage_count w /\
  hflip (dev w') = hflip (dev w) /\
  vflip (dev w') = vflip (dev w) /\
  (grabbed (hflip (dev w)) = false -> grabbed (hflip (dev w')) = false) /\
  (grabbed (vflip (dev w)) = false -> grabbed (vflip (dev w')) = false) /\
  imx708_set_stream 1 w = start_pipeline w /\
  ((fst acq < 0 /\ ret = fst acq /\ log w' = log w) \/
   (0 <= fst acq /\
    exists k wk,
      (k < length (start_steps))%nat /\
      aborts_at (start_steps) (snd acq) k ret wk /\
      w' = snd (pm_runtime_put wk) /\
      log w' = log wk)).
Proof.
  intros Hs Hfail. cbv zeta.
  destruct (start_failure_spec w Hs Hfail) as (Hst & Hu & Hh & Hv & Heq & Hab).
  split; [exact Hst |]. split; [exact Hu |]. split; [exact Hh |].
  split; [exact Hv |]. split; [now rewrite Hh |]. split; [now rewrite Hv |].
  split; [exact Heq | exact Hab].
Qed.

(** ** The calibration-applied flag *)

(** *** Writes outside the calibration tables *)

Lemma write_buf_head (reg len v : Z) :
  len = 1 \/ len = 2 ->
  exists tl,
    write_buf reg len v =
    Z.land (Z.shiftr reg 8) 0xff :: Z.land reg 0xff :: tl.
Proof.
  intros [-> | ->]; unfold write_buf, put_unaligned_be16, put_unaligned_be32;
    [change (Z.to_nat (1 + 2)) with 3%nat
    | change (Z.to_nat (2 + 2)) with 4%nat];
    cbn [firstn app]; eexists; reflexivity.
Qed.

Lemma gain_write_reg (reg len v r : Z) :
  len = 1 \/ len = 2 ->
  spc_gain_write (I2C_SEND (write_buf reg len v) r) = gain_table_reg reg.
Proof.
  intros H. destruct (write_buf_head reg len v H) as [tl ->]. reflexivity.
Qed.

Lemma no_gain_write_refl w : no_gain_write w w.
Proof. exists []. now rewrite app_nil_r. Qed.

Lemma no_gain_write_trans w1 w2 w3 :
  no_gain_write w1 w2 -> no_gain_write w2 w3 -> no_gain_write w1 w3.
Proof.
  intros (e1 & H1 & Q1) (e2 & H2 & Q2). exists (e1 ++ e2).
  split; [now rewrite H2, H1, app_assoc |].
  now rewrite existsb_app, Q1, Q2.
Qed.

Lemma no_gain_write_same w w' : log w' = log w -> no_gain_write w w'.
Proof. intros H. exists []. now rewrite H, app_nil_r. Qed.

Lemma write_reg_quiet (reg len v : Z) w :
  len = 1 \/ len = 2 -> gain_table_reg reg = false ->
  no_gain_write w (snd (imx708_write_reg reg len v w)).
Proof.
  intros Hlen Hreg. rewrite write_reg_eq by exact Hlen. cbn [snd].
  eexists. cbn [log with_bus]. split; [reflexivity |].
  cbn [existsb]. now rewrite gain_write_reg, Hreg by exact Hlen.
Qed.

Lemma write_regs_quiet (l : list imx708_reg) w :
  forallb (fun r => negb (gain_table_reg (address r))) l = true ->
  no_gain_write w (snd (imx708_write_regs l w)).
Proof.
  revert w. induction l as [| r l IH]; intros w Hl;
    [apply no_gain_write_refl |].
  cbn [forallb] in Hl. apply andb_true_iff in Hl. destruct Hl as [Hr Hl].
  apply negb_true_iff in Hr. cbn [imx708_write_regs].
  pose proof (write_reg_quiet (address r) 1 (reg_val r) w
                (or_introl eq_refl) Hr) as H1.
  destruct (imx708_write_reg (address r) 1 (reg_val r) w) as [ret w1].
  cbn [snd] in H1.
  destruct (negb (ret =? 0)); [exact H1 |].
  eapply no_gain_write_trans; [exact H1 | now apply IH].
Qed.

(** No register list of the catalog reaches into the calibration
    tables. *)
Lemma mode_regs_quiet (i : nat) :
  forallb (fun r => negb (gain_table_reg (address r)))
    (regs (reg_list (supported_mode i))) = true.
Proof.
  destruct (supported_mode_cases i) as [-> | [-> | [-> | ->]]];
    now vm_compute.
Qed.

Lemma link_regs_quiet (i : nat) :
  forallb (fun r => negb (gain_table_reg (address r)))
    (regs (nth i link_freq_regs {| regs := [] |})) = true.
Proof.
  do 3 (destruct i as [| i]; [now vm_compute |]). destruct i; now vm_compute.
Qed.

Lemma set_frame_length_quiet (v : Z) w :
  no_gain_write w (snd (imx708_set_frame_length v w)).
Proof.
  unfold imx708_set_frame_length.
  destruct (frame_length_loop 32 0 v) as [shift val_].
  unfold bind, modify_dev, pure.
  set (w1 := with_dev (with_long_exp_shift shift (dev w)) w).
  assert (H0 : no_gain_write w w1) by (now apply no_gain_write_same).
  pose proof (write_reg_quiet IMX708_REG_FRAME_LENGTH IMX708_REG_VALUE_16BIT
                val_ w1 (or_intror eq_refl) eq_refl) as H1.
  destruct (imx708_write_reg IMX708_REG_FRAME_LENGTH IMX708_REG_VALUE_16BIT
              val_ w1) as [r w2]. cbn [snd] in H1.
  destruct (negb (r =? 0)).
  - eapply no_gain_write_trans; [exact H0 | exact H1].
  - eapply no_gain_write_trans; [exact H0 |].
    eapply no_gain_write_trans; [exact H1 |].
    apply write_reg_quiet; [now left | reflexivity].
Qed.

Lemma set_ctrl_apply_quiet (id : v4l2_cid) w :
  no_gain_write w (snd (set_ctrl_apply id w)).
Proof.
  assert (Hone : forall reg len v,
            len = 1 \/ len = 2 -> gain_table_reg reg = false ->
            no_gain_write w (snd (imx708_write_reg reg len v w)))
    by (intros; now apply write_reg_quiet).
  unfold set_ctrl_apply, bind, get_dev.
  destruct id; try apply no_gain_write_refl;
    try (apply Hone; [(now left) || (now right) | reflexivity]).
  - apply set_frame_length_quiet.
  - unfold imx708_set_analogue_gain, bind, pure.
    pose proof (Hone IMX708_REG_ANALOG_GAIN IMX708_REG_VALUE_16BIT
                  (u32 (val (ctrl_of (dev w) V4L2_CID_ANALOGUE_GAIN)))
                  (or_intror eq_refl) eq_refl) as H.
    destruct (imx708_write_reg _ _ _ w) as [r w1]. exact H.
Qed.

Lemma set_ctrl_quiet (id : v4l2_cid) w :
  no_gain_write w (snd (imx708_set_ctrl id w)).
Proof.
  pose proof (set_ctrl_eq id w) as Heq. cbv zeta in Heq. rewrite Heq.
  clear Heq.
  assert (Hadj : log (snd (set_ctrl_adjust id w)) = log w)
    by (unfold set_ctrl_adjust; destruct id; reflexivity).
  destruct (in_use w); cbn [snd]; [| now apply no_gain_write_same].
  destruct (set_ctrl_apply_quiet id
              (with_usage_count (S (usage_count w))
                 (snd (set_ctrl_adjust id w)))) as (evs & Hl & Hq).
  exists evs. cbn [log with_usage_count] in *. rewrite Hl, Hadj.
  now split.
Qed.

Lemma ctrl_replay_quiet (ids : list v4l2_cid) w :
  no_gain_write w (snd (ctrl_replay ids w)).
Proof.
  revert w. induction ids as [| id ids IH]; intros w;
    [apply no_gain_write_refl |].
  cbn [ctrl_replay]. pose proof (set_ctrl_quiet id w) as H1.
  destruct (imx708_set_ctrl id w) as [ret w1]. cbn [snd] in H1.
  destruct (negb (ret =? 0)); [exact H1 |].
  eapply no_gain_write_trans; [exact H1 | apply IH].
Qed.

Lemma run_until_failure_quiet (steps : list (M P Z)) w :
  (forall step w, In step steps -> no_gain_write w (snd (step w))) ->
  no_gain_write w (snd (run_until_failure steps w)).
Proof.
  revert w. induction steps as [| step steps IH]; intros w Hall;
    [apply no_gain_write_refl |].
  cbn [run_until_failure].
  pose proof (Hall step w (or_introl eq_refl)) as H1.
  destruct (step w) as [r w1]. cbn [snd] in H1.
  destruct (negb (r =? 0)); [exact H1 |].
  eapply no_gain_write_trans; [exact H1 |].
  apply IH. intros s w0 Hin. apply Hall. now right.
Qed.

(** The steps after the common registers write nothing into the
    calibration tables, wherever they stop. *)
Lemma start_steps_tail_quiet w :
  no_gain_write w (snd (run_until_failure (tl start_steps) w)).
Proof.
  apply run_until_failure_quiet. intros step w0 Hin.
  unfold start_steps in Hin. cbn [tl In] in Hin.
  destruct Hin as [<- | [<- | [<- | [<- | []]]]];
    unfold bind, get_dev.
  - apply write_regs_quiet, mode_regs_quiet.
  - apply write_regs_quiet, link_regs_quiet.
  - unfold __v4l2_ctrl_handler_setup. apply ctrl_replay_quiet.
  - apply write_reg_quiet; [now left | reflexivity].
Qed.

(** A stream start that sets the flag has run the calibration sequence,
    and written nothing into the calibration tables after it. *)
Lemma start_streaming_gain w :
  common_regs_written (dev w) = false ->
  common_regs_written (dev (snd (imx708_start_streaming w))) = true ->
  exists data rest,
    log (snd (imx708_start_streaming w)) =
      log w ++ calibration_trace data ++ rest /\
    existsb spc_gain_write rest = false.
Proof.
  rewrite start_streaming_eq.
  assert (Hrun : run_until_failure start_steps w =
    let (ret, w1) := (if negb (common_regs_written (dev w))
                      then write_common_regs else pure 0) w in
    if negb (ret =? 0) then (ret, w1)
    else run_until_failure (tl start_steps) w1) by reflexivity.
  rewrite Hrun. clear Hrun. intros Eflag. rewrite Eflag. cbn [negb].
  destruct (write_common_regs_spec w) as [Hfail Hok]. cbv zeta in Hfail, Hok.
  destruct (write_common_regs w) as [r1 w1]. cbn [fst snd] in Hfail, Hok.
  destruct (r1 =? 0) eqn:E1; cbn [negb];
    [apply Z.eqb_eq in E1 | apply Z.eqb_neq in E1].
  - destruct (Hok E1) as [_ (data & Hl1)].
    destruct (start_steps_tail_quiet w1) as (rest & Hl & Hq).
    intros _. exists data, rest.
    split; [now rewrite Hl, Hl1, app_assoc | exact Hq].
  - cbn [snd]. destruct (Hfail E1) as (Hd & _). rewrite Hd, Eflag.
    intros H. discriminate H.
Qed.

(** What the calibration sequence puts on the bus, by the sentinel. *)
Lemma calibration_trace_gain (data : list Z) :
  (get_unaligned_be32 (data_buf IMX708_REG_VALUE_08BIT data) = 0x40 ->
   calibration_trace data =
     regs_trace mode_common_regs ++
     [ I2C_XFER [0x7b; 0x10] IMX708_REG_VALUE_08BIT 2 data ] ++
     pdaf_trace IMX708_REG_BASE_SPC_GAINS_L 0 ++
     pdaf_trace IMX708_REG_BASE_SPC_GAINS_R 1) /\
  (get_unaligned_be32 (data_buf IMX708_REG_VALUE_08BIT data) <> 0x40 ->
   calibration_trace data =
     regs_trace mode_common_regs ++
     [ I2C_XFER [0x7b; 0x10] IMX708_REG_VALUE_08BIT 2 data ]) /\
  (existsb spc_gain_write (calibration_trace data) = true <->
   get_unaligned_be32 (data_buf IMX708_REG_VALUE_08BIT data) = 0x40).
Proof.
  assert (Hc : existsb spc_gain_write (regs_trace mode_common_regs) = false)
    by now vm_compute.
  assert (Hp : existsb spc_gain_write
                 (pdaf_trace IMX708_REG_BASE_SPC_GAINS_L 0) = true)
    by now vm_compute.
  unfold calibration_trace.
  destruct (_ =? 0x40) eqn:E; [apply Z.eqb_eq in E | apply Z.eqb_neq in E].
  - split; [reflexivity |]. split; [intros H; now elim H |].
    split; [intros _; exact E |]. intros _.
    rewrite !existsb_app, Hc, Hp. cbn [existsb spc_gain_write]. 
    now rewrite orb_true_r.
  - split; [intros H; now elim E |]. split; [reflexivity |].
    rewrite !existsb_app, Hc. cbn [existsb spc_gain_write orb].
    split; [intros H; discriminate H | intros H; now elim E].
Qed.

Lemma common_regs_written_with_ctrl (id : v4l2_cid) (c : v4l2_ctrl)
    (d : imx708) :
  common_regs_written (with_ctrl id c d) = common_regs_written d.
Proof.
  unfold with_ctrl. destruct (ctrl_handler d). destruct id, d; reflexivity.
Qed.

Lemma common_regs_written_framing (m : nat) (d : imx708) :
  common_regs_written (imx708_set_framing_limits (with_cur_mode m d)) =
  common_regs_written d.
Proof. now destruct d. Qed.

(** A stream request can set the flag only by a stream start that ran the
    calibration sequence. *)
Lemma set_stream_flag (enable : Z) w :
  common_regs_written (dev w) = false ->
  common_regs_written (dev (snd (imx708_set_stream enable w))) = true ->
  enable <> 0 /\
  exists data rest,
    log (snd (imx708_set_stream enable w)) =
      log w ++ calibration_trace data ++ rest /\
    existsb spc_gain_write rest = false.
Proof.
  intros Hf. unfold imx708_set_stream, bind, get_dev, pure.
  destruct (Z.b2z (streaming (dev w)) =? enable).
  { cbn [snd]. intros H. rewrite Hf in H. discriminate H. }
  destruct (enable =? 0) eqn:Een; cbn [negb];
    [apply Z.eqb_eq in Een | apply Z.eqb_neq in Een].
  - (* stop *)
    unfold imx708_stop_streaming, bind, pure.
    pose proof (write_reg_bus IMX708_REG_MODE_SELECT IMX708_REG_VALUE_08BIT
                  IMX708_MODE_STANDBY w) as (Hd1 & _).
    destruct (imx708_write_reg _ _ _ w) as [r1 w1]. cbn [snd] in Hd1.
    destruct (put_fields w1) as (_ & _ & _ & Hp). cbv zeta in Hp.
    destruct (pm_runtime_put w1) as [[] w2]. cbn [snd] in Hp.
    destruct (set_stream_commit_spec enable 0 w2) as (_ & Hc & _).
    cbv zeta in Hc. rewrite Hc. intros H. specialize (Hp H).
    rewrite Hd1, Hf in Hp. discriminate Hp.
  - (* start *)
    destruct (get_sync_spec w) as (Hd0 & _ & Hl0). cbv zeta in *.
    destruct (pm_runtime_get_sync w) as [r0 w1]. cbn [snd] in *.
    destruct (r0 <? 0).
    + destruct (put_noidle_spec w1) as (Hd1 & _). cbv zeta in Hd1.
      destruct (pm_runtime_put_noidle w1) as [[] w2]. cbn [snd] in *.
      rewrite Hd1, Hd0, Hf. intros H. discriminate H.
    + pose proof (start_streaming_gain w1) as Hcal.
      rewrite Hd0, Hl0 in Hcal. specialize (Hcal Hf).
      destruct (imx708_start_streaming w1) as [r w2]. cbn [snd] in Hcal.
      destruct (negb (r =? 0)).
      * destruct (put_fields w2) as (_ & _ & _ & Hp).
        destruct (put_spec w2) as (_ & _ & Hl3). cbv zeta in Hp, Hl3.
        destruct (pm_runtime_put w2) as [[] w3]. cbn [snd] in *.
        intros H. split; [exact Een |]. rewrite Hl3. apply Hcal, Hp, H.
      * destruct (set_stream_commit_spec enable r w2)
          as (_ & Hc & _ & Hl3 & _).
        cbv zeta in Hc, Hl3. rewrite Hc, Hl3.
        intros H. split; [exact Een |]. apply Hcal, H.
Qed.

Lemma resume_flag w :
  common_regs_written (dev w) = false ->
  common_regs_written (dev (snd (imx708_resume w))) = true ->
  exists data rest,
    log (snd (imx708_resume w)) = log w ++ calibration_trace data ++ rest /\
    existsb spc_gain_write rest = false.
Proof.
  intros Hf. unfold imx708_resume, bind, get_dev, pure.
  destruct (streaming (dev w)).
  2: { cbn [snd]. intros H. rewrite Hf in H. discriminate H. }
  pose proof (start_streaming_gain w Hf) as Hcal.
  destruct (imx708_start_streaming w) as [r w2]. cbn [snd] in Hcal.
  destruct (negb (r =? 0)); [| cbn [snd]; exact Hcal].
  unfold imx708_stop_streaming, bind, pure, modify_dev.
  pose proof (write_reg_bus IMX708_REG_MODE_SELECT IMX708_REG_VALUE_08BIT
                IMX708_MODE_STANDBY w2) as (Hd1 & _).
  destruct (write_reg_quiet IMX708_REG_MODE_SELECT IMX708_REG_VALUE_08BIT
              IMX708_MODE_STANDBY w2 (or_introl eq_refl) eq_refl)
    as (evs & Hl1 & Hq1).
  destruct (imx708_write_reg _ _ _ w2) as [r1 w3]. cbn [snd] in *.
  cbn [dev with_dev log]. intros H.
  assert (H2 : common_regs_written (dev w2) = true)
    by (rewrite <- Hd1; destruct (dev w3); exact H).
  destruct (Hcal H2) as (data & rest & Hl & Hq). exists data, (rest ++ evs).
  split; [now rewrite Hl1, Hl, <- !app_assoc |].
  now rewrite existsb_app, Hq, Hq1.
Qed.

(** Every other request leaves a cleared flag cleared. *)
Lemma other_requests_flag (r : request) w :
  common_regs_written (dev w) = false ->
  match r with S_STREAM _ | RESUME => False | _ => True end ->
  common_regs_written (dev (snd (handle r w))) = false.
Proof.
  intros Hf Hr. destruct r as [id v | fmt | enable | on | cmd arg | |];
    try contradiction; unfold handle.
  - (* a control *)
    unfold v4l2_s_ctrl, bind, get_dev, pure, modify_dev.
    destruct (read_only _); [exact Hf |].
    destruct (grabbed _); [exact Hf |].
    match goal with
    | |- context [imx708_set_ctrl id ?w0] =>
        destruct (frame_fields _ _ (set_ctrl_frame id w0))
          as (_ & _ & _ & Hc & _)
    end.
    rewrite Hc. cbn [dev with_dev].
    now rewrite common_regs_written_with_ctrl.
  - (* a format *)
    unfold imx708_set_pad_format. cbn [which].
    destruct (which fmt =? V4L2_SUBDEV_FORMAT_TRY); cbn [snd dev with_dev];
      [exact Hf | now rewrite common_regs_written_framing].
  - (* s_power *)
    unfold imx708_s_power, bind, get_dev, pure, modify_dev.
    destruct (Bool.eqb _ _); [exact Hf |].
    destruct (negb (on =? 0)).
    + destruct (get_sync_spec w) as (Hd0 & _). cbv zeta in Hd0.
      destruct (pm_runtime_get_sync w) as [r0 w1]. cbn [snd] in Hd0.
      destruct (r0 <? 0).
      * destruct (put_noidle_spec w1) as (Hd1 & _). cbv zeta in Hd1.
        destruct (pm_runtime_put_noidle w1) as [[] w2]. cbn [snd] in *.
        now rewrite Hd1, Hd0.
      * cbn [snd dev with_dev]. rewrite Hd0. destruct (dev w). exact Hf.
    + destruct (put_spec w) as ([Hd | Hd] & _); cbv zeta in Hd;
        destruct (pm_runtime_put w) as [[] w1]; cbn [snd dev with_dev] in *;
        rewrite Hd; destruct (dev w); [exact Hf | reflexivity].
  - (* the vendor channel *)
    unfold imx708_ioctl. destruct cmd; try exact Hf.
    destruct (hdr_cfg_loop (dev w) arg); cbn [snd dev with_dev];
      [now rewrite common_regs_written_framing | exact Hf].
  - (* suspend *)
    unfold imx708_suspend, bind, get_dev, pure.
    destruct (streaming (dev w)); [| exact Hf].
    unfold imx708_stop_streaming, bind, pure.
    pose proof (write_reg_bus IMX708_REG_MODE_SELECT IMX708_REG_VALUE_08BIT
                  IMX708_MODE_STANDBY w) as (Hd1 & _).
    destruct (imx708_write_reg _ _ _ w) as [r1 w1]. cbn [snd] in *.
    now rewrite Hd1.
Qed.

Lemma probe_flag (cfg : board_config) (h : HW) :
  common_regs_written (dev (snd (imx708_probe cfg (attach h)))) = false.
Proof.
  unfold imx708_probe, bind, get_dev, pure, modify_dev.
  cbn [snd fst dev with_dev attach kzalloc_imx708].
  match goal with
  | |- context [imx708_check_hwcfg cfg ?d] =>
      assert (Hc : common_regs_written (snd (imx708_check_hwcfg cfg d))
                   = false);
      [ unfold imx708_check_hwcfg;
        destruct (negb (num_data_lanes cfg =? 2)); [reflexivity |];
        destruct (link_frequencies cfg) as [| f ?]; [reflexivity |];
        destruct (index_of f link_freqs 0); reflexivity
      | destruct (imx708_check_hwcfg cfg d) as [rc imx] ]
  end.
  cbn [snd] in Hc. destruct (negb (rc =? 0)); [reflexivity |].
  destruct (negb (inclk_rate cfg =? IMX708_INCLK_FREQ)); [exact Hc |].
  match goal with
  | |- context [imx708_power_on ?w0] =>
      destruct (power_on_spec w0) as (Hd1 & _); cbv zeta in Hd1;
      destruct (imx708_power_on w0) as [r1 w1]
  end.
  cbn [snd dev with_dev] in Hd1.
  destruct (negb (r1 =? 0)); [cbn [snd]; now rewrite Hd1 |].
  assert (Hid : dev (snd (imx708_identify_module w1)) = dev w1).
  { unfold imx708_identify_module, bind, pure.
    pose proof (read_reg_bus IMX708_REG_CHIP_ID IMX708_REG_VALUE_16BIT w1)
      as (Hda & _).
    destruct (imx708_read_reg _ _ w1) as [[ra va] wa]. cbn [snd] in Hda.
    destruct (negb (ra =? 0)); [exact Hda |].
    destruct (negb (va =? IMX708_CHIP_ID)); [exact Hda |].
    pose proof (read_reg_bus 0 IMX708_REG_VALUE_16BIT wa) as (Hdb & _).
    destruct (imx708_read_reg _ _ wa) as [[rb vb] wb]. cbn [snd] in *.
    congruence. }
  destruct (imx708_identify_module w1) as [r2 w2]. cbn [snd] in Hid.
  destruct (negb (r2 =? 0)).
  - destruct (power_off_spec w2) as (Hd3 & _). cbv zeta in Hd3.
    destruct (imx708_power_off w2) as [r3 w3]. cbn [snd] in *.
    rewrite Hd3. apply common_regs_written_with.
  - unfold pm_runtime_enable_idle.
    destruct (Nat.eqb _ 0).
    + cbn [snd fst imx708_power_off bind modify_hw modify_dev pure dev
             with_dev with_hw with_runtime_active].
      unfold imx708_init_controls.
      match goal with
      | |- common_regs_written (imx708_set_framing_limits ?d) = false =>
          destruct (dev w2); reflexivity
      end.
    + cbn [snd dev with_dev with_runtime_active]. rewrite Hid, Hd1.
      destruct imx; exact Hc.
Qed.

(** *** Power-down *)

Lemma put_powers_down w :
  runtime_active w = true ->
  runtime_active (snd (pm_runtime_put w)) = false ->
  common_regs_written (dev (snd (pm_runtime_put w))) = false.
Proof.
  unfold pm_runtime_put. intros Ha.
  destruct (_ && _).
  - intros _. cbn [snd fst imx708_power_off bind modify_hw modify_dev pure
                     dev with_dev with_hw with_runtime_active
                     with_usage_count].
    apply common_regs_written_with.
  - cbn [snd runtime_active with_usage_count]. rewrite Ha. discriminate.
Qed.

Lemma get_sync_active w :
  runtime_active w = true ->
  runtime_active (snd (pm_runtime_get_sync w)) = true.
Proof.
  unfold pm_runtime_get_sync. intros Ha.
  cbn [runtime_active with_usage_count]. now rewrite Ha.
Qed.

Lemma put_noidle_active w :
  runtime_active (snd (pm_runtime_put_noidle w)) = runtime_active w.
Proof. reflexivity. Qed.

(** A request during which the device goes from powered to powered down
    leaves the flag cleared. *)
Lemma handle_power_down (r : request) w :
  runtime_active w = true ->
  runtime_active (snd (handle r w)) = false ->
  common_regs_written (dev (snd (handle r w))) = false.
Proof.
  intros Ha. destruct r as [id v | fmt | enable | on | cmd arg | |];
    unfold handle.
  - (* a control: the power state is not touched *)
    unfold v4l2_s_ctrl, bind, get_dev, pure, modify_dev.
    destruct (read_only _); [cbn [snd]; congruence |].
    destruct (grabbed _); [cbn [snd]; congruence |].
    match goal with
    | |- context [imx708_set_ctrl id ?w0] =>
        destruct (set_ctrl_frame id w0) as (_ & _ & Hact & _)
    end.
    rewrite Hact. cbn [runtime_active with_dev]. congruence.
  - destruct (imx708_set_pad_format (dev w) fmt) as [[imx f] ret].
    cbn [snd runtime_active with_dev]. congruence.
  - (* set-stream *)
    unfold imx708_set_stream, bind, get_dev, pure.
    destruct (Z.b2z (streaming (dev w)) =? enable);
      [cbn [snd]; congruence |].
    destruct (negb (enable =? 0)).
    + pose proof (get_sync_active w Ha) as Ha1.
      destruct (pm_runtime_get_sync w) as [r0 w1]. cbn [snd] in Ha1.
      destruct (r0 <? 0).
      * pose proof (put_noidle_active w1) as Ha2.
        destruct (pm_runtime_put_noidle w1) as [[] w2]. cbn [snd] in *.
        congruence.
      * destruct (start_streaming_spec w1) as (_ & _ & _ & _ & Ha2 & _).
        cbv zeta in Ha2.
        destruct (imx708_start_streaming w1) as [r1 w2]. cbn [snd] in Ha2.
        destruct (negb (r1 =? 0)).
        -- pose proof (put_powers_down w2 ltac:(congruence)) as Hp.
           destruct (pm_runtime_put w2) as [[] w3]. cbn [snd] in *.
           exact Hp.
        -- destruct (set_stream_commit_spec enable r1 w2)
             as (_ & _ & _ & _ & Ha3).
           cbv zeta in Ha3. rewrite Ha3. congruence.
    + unfold imx708_stop_streaming, bind, pure.
      pose proof (write_reg_bus IMX708_REG_MODE_SELECT IMX708_REG_VALUE_08BIT
                    IMX708_MODE_STANDBY w) as (_ & _ & Ha1 & _).
      destruct (imx708_write_reg _ _ _ w) as [r1 w1]. cbn [snd] in Ha1.
      pose proof (put_powers_down w1 ltac:(congruence)) as Hp.
      destruct (pm_runtime_put w1) as [[] w2]. cbn [snd] in Hp.
      destruct (set_stream_commit_spec enable 0 w2)
        as (_ & Hc & _ & _ & Ha3).
      cbv zeta in Hc, Ha3. rewrite Hc, Ha3. exact Hp.
  - (* s_power *)
    unfold imx708_s_power, bind, get_dev, pure, modify_dev.
    destruct (Bool.eqb _ _); [cbn [snd]; congruence |].
    destruct (negb (on =? 0)).
    + pose proof (get_sync_active w Ha) as Ha1.
      destruct (pm_runtime_get_sync w) as [r0 w1]. cbn [snd] in Ha1.
      destruct (r0 <? 0).
      * pose proof (put_noidle_active w1) as Ha2.
        destruct (pm_runtime_put_noidle w1) as [[] w2]. cbn [snd] in *.
        congruence.
      * cbn [snd runtime_active with_dev]. congruence.
    + pose proof (put_powers_down w Ha) as Hp.
      destruct (pm_runtime_put w) as [[] w1].
      cbn [snd runtime_active dev with_dev] in *.
      intros H. specialize (Hp H). destruct (dev w1). exact Hp.
  - destruct (imx708_ioctl cmd arg (dev w)) as [ret imx].
    cbn [snd runtime_active with_dev]. congruence.
  - (* suspend *)
    unfold imx708_suspend, bind, get_dev, pure.
    destruct (streaming (dev w)); [| cbn [snd]; congruence].
    unfold imx708_stop_streaming, bind, pure.
    pose proof (write_reg_bus IMX708_REG_MODE_SELECT IMX708_REG_VALUE_08BIT
                  IMX708_MODE_STANDBY w) as (_ & _ & Ha1 & _).
    destruct (imx708_write_reg _ _ _ w) as [r1 w1]. cbn [snd] in *.
    congruence.
  - (* resume *)
    unfold imx708_resume, bind, get_dev, pure, modify_dev.
    destruct (streaming (dev w)); [| cbn [snd]; congruence].
    destruct (start_streaming_spec w) as (_ & _ & _ & _ & Ha2 & _).
    cbv zeta in Ha2.
    destruct (imx708_start_streaming w) as [r1 w2]. cbn [snd] in Ha2.
    destruct (negb (r1 =? 0)); [| cbn [snd]; congruence].
    unfold imx708_stop_streaming, bind, pure.
    pose proof (write_reg_bus IMX708_REG_MODE_SELECT IMX708_REG_VALUE_08BIT
                  IMX708_MODE_STANDBY w2) as (_ & _ & Ha3 & _).
    destruct (imx708_write_reg _ _ _ w2) as [r3 w3].
    cbn [snd runtime_active with_dev] in *. congruence.
Qed.

(** C6 (as amended).  The calibration-applied flag is false right after
    device attach; power-down always resets it to false, so that a request
    during which the device is powered down leaves it false; and a request
    turns it from false to true only if the request is a stream start (a
    set-stream with a non-zero argument, or a resume) during which the
    whole common register list was written successfully, then the sentinel
    register was read successfully, then -- if, and only if, the sentinel
    read 0x40 -- both calibration tables were written in full.  Whatever
    the request sends after that sequence is no write into a calibration
    table: the request has written into the tables exactly when the
    sentinel read 0x40.  A sentinel that does not match sets the flag as
    well: the patch is skipped. *)
Theorem calibration_flag_lifecycle :
  (forall (cfg : board_config) (h : HW),
     common_regs_written (dev (snd (imx708_probe cfg (attach h)))) = false) /\
  (forall w, common_regs_written (dev (snd (imx708_power_off w))) = false) /\
  (forall (r : request) w,
     runtime_active w = true ->
     runtime_active (snd (handle r w)) = false ->
     common_regs_written (dev (snd (handle r w))) = false) /\
  (forall (r : request) w,
     common_regs_written (dev w) = false ->
     common_regs_written (dev (snd (handle r w))) = true ->
     (r = RESUME \/ exists enable, enable <> 0 /\ r = S_STREAM enable) /\
     exists data rest,
       log (snd (handle r w)) = log w ++ calibration_trace data ++ rest /\
       existsb spc_gain_write rest = false /\
       (get_unaligned_be32 (data_buf IMX708_REG_VALUE_08BIT data) = 0x40 ->
        calibration_trace data =
          regs_trace mode_common_regs ++
          [ I2C_XFER [0x7b; 0x10] IMX708_REG_VALUE_08BIT 2 data ] ++
          pdaf_trace IMX708_REG_BASE_SPC_GAINS_L 0 ++
          pdaf_trace IMX708_REG_BASE_SPC_GAINS_R 1) /\
       (get_unaligned_be32 (data_buf IMX708_REG_VALUE_08BIT data) <> 0x40 ->
        calibration_trace data =
          regs_trace mode_common_regs ++
          [ I2C_XFER [0x7b; 0x10] IMX708_REG_VALUE_08BIT 2 data ]) /\
       (existsb spc_gain_write (new_events w (snd (handle r w))) = true <->
        get_unaligned_be32 (data_buf IMX708_REG_VALUE_08BIT data) = 0x40)).
Proof.
  split; [exact probe_flag |]. split.
  { intros w. destruct (power_off_spec w) as (Hd & _). cbv zeta in Hd.
    rewrite Hd. apply common_regs_written_with. }
  split; [exact handle_power_down |].
  intros r w Hf Ht.
  assert (Hstart : (r = RESUME \/
                    exists enable, enable <> 0 /\ r = S_STREAM enable) /\
                   exists data rest,
                     log (snd (handle r w)) =
                       log w ++ calibration_trace data ++ rest /\
                     existsb spc_gain_write rest = false).
  { destruct r as [id v | fmt | enable | on | cmd arg | |];
      try (rewrite other_requests_flag in Ht by (exact Hf || exact I);
           discriminate Ht).
    - destruct (set_stream_flag enable w Hf Ht) as (Hen & Hlog).
      split; [right; now exists enable | exact Hlog].
    - split; [now left | exact (resume_flag w Hf Ht)]. }
  destruct Hstart as (Hr & data & rest & Hl & Hq).
  split; [exact Hr |]. exists data, rest.
  destruct (calibration_trace_gain data) as (Hyes & Hno & Hiff).
  split; [exact Hl |]. split; [exact Hq |]. split; [exact Hyes |].
  split; [exact Hno |].
  unfold new_events. rewrite Hl, skipn_app_exact, existsb_app, Hq, orb_false_r.
  exact Hiff.
Qed.

End Proofs.

(** ** The HDR override *)

(** C8, the code against the claim.  [RKMODULE_SET_HDR_CFG] never looks at
    the streaming flag: its result is the same whatever the flag is, and on
    a device streaming in the binned 1920x1080 mode a request for the HDR
    variant returns 0 and moves [cur_mode] to the HDR entry. *)
Theorem hdr_override_ignores_streaming :
  (forall (imx : imx708) (hdr : rkmodule_hdr_cfg) (b : bool),
     fst (imx708_ioctl RKMODULE_SET_HDR_CFG hdr (with_streaming b imx)) =
       fst (imx708_ioctl RKMODULE_SET_HDR_CFG hdr imx) /\
     cur_mode (snd (imx708_ioctl RKMODULE_SET_HDR_CFG hdr
                      (with_streaming b imx))) =
       cur_mode (snd (imx708_ioctl RKMODULE_SET_HDR_CFG hdr imx))) /\
  streaming (dev (sim_1080p_streaming hw_good)) = true /\
  cur_mode (dev (sim_1080p_streaming hw_good)) = 1%nat /\
  fst (imx708_ioctl RKMODULE_SET_HDR_CFG {| hdr_cfg_mode := HDR_X3 |}
         (dev (sim_1080p_streaming hw_good))) = 0 /\
  cur_mode (snd (imx708_ioctl RKMODULE_SET_HDR_CFG
                   {| hdr_cfg_mode := HDR_X3 |}
                   (dev (sim_1080p_streaming hw_good)))) = 2%nat.
Proof.
  split; [| now vm_compute].
  intros imx hdr b. unfold imx708_ioctl.
  assert (Hloop : hdr_cfg_loop (with_streaming b imx) hdr =
                  hdr_cfg_loop imx hdr) by now destruct imx.
  rewrite Hloop. destruct (hdr_cfg_loop imx hdr); cbn [fst snd];
    destruct imx; now cbn.
Qed.

(** ** Concrete runs *)

(** Scenario B of the spec: vblank 1198 on the 1920x1080 mode gives the
    exposure maximum [1080 + 1198 - 48 = 2230]. *)
Lemma vblank_change_adjusts_exposure_witness :
  (vblank_min mode_2x2binned <= 1198 <= vblank_max mode_2x2binned) /\
  maximum
    (exposure
       (dev (snd (imx708_set_ctrl V4L2_CID_VBLANK
                    (with_vblank_val 1198 (sim_1080p hw_good)))))) = 2230 /\
  default_value
    (exposure
       (dev (snd (imx708_set_ctrl V4L2_CID_VBLANK
                    (with_vblank_val 1198 (sim_1080p hw_good)))))) = 1600.
Proof.
  assert (H : vblank_min mode_2x2binned <= 1198 <= vblank_max mode_2x2binned)
    by (vm_compute; split; discriminate).
  split; [exact H |].
  destruct (vblank_change_adjusts_exposure
              (with_vblank_val 1198 (sim_1080p hw_good)) H)
    as (Hmax & Hdef & _).
  split; [exact Hmax | exact Hdef].
Defined.


(** C4, the claim as written fails: with the longest vblank chosen while
    the sensor was idle, the long-exposure shift is still 0 when power is
    taken, and an exposure of 7000000 lines resolves to 7000000; the
    16-bit register receives 0xCFC0 = 53184, its low 16 bits. *)
Lemma set_exposure_low_16_bits :
  exposure_resolved (mode_of (dev sim_long_vblank))
    (long_exp_shift (dev sim_long_vblank)) 7000000 = 7000000 /\
  new_events sim_long_vblank
    (snd (handle (S_CTRL V4L2_CID_EXPOSURE 7000000) sim_long_vblank)) =
    [ I2C_SEND [0x02; 0x02; 0xCF; 0xC0] 4 ] /\
  new_events sim_long_vblank
    (snd (imx708_set_exposure 7000000 sim_long_vblank)) =
    [ I2C_SEND [0x02; 0x02; 0xCF; 0xC0] 4 ] /\
  0xCF * 256 + 0xC0 = 7000000 mod 2 ^ 16 /\
  0xCF * 256 + 0xC0 <> 7000000.
Proof. vm_compute. repeat split; discriminate. Qed.

(** On the 1920x1080 mode (minimum 4, step 2) a request of 1001 lines is
    resolved to 1000, and the register receives 0x03E8. *)
Lemma set_exposure_resolved_witness :
  0 <= 1001 < 2 ^ 32 /\
  imx708_set_exposure 1001 (sim_1080p_streaming hw_good) =
    imx708_write_reg IMX708_REG_EXPOSURE IMX708_REG_VALUE_16BIT 1000
      (sim_1080p_streaming hw_good) /\
  exists r,
    new_events (sim_1080p_streaming hw_good)
      (snd (imx708_set_exposure 1001 (sim_1080p_streaming hw_good))) =
      [ I2C_SEND [0x02; 0x02; 0x03; 0xE8] r ].
Proof.
  assert (H : 0 <= 1001 < 2 ^ 32) by (split; [lia | reflexivity]).
  split; [exact H |].
  destruct (set_exposure_resolved (sim_1080p_streaming hw_good) 1001 H)
    as (Hrun & _ & (r & Hev & _) & _).
  split; [exact Hrun |]. exists r. exact Hev.
Defined.

Lemma set_stream_idempotent_witness :
  (streaming (dev (sim_streaming hw_good)) = true /\
   imx708_set_stream 1 (sim_streaming hw_good)
     = (0, sim_streaming hw_good)) /\
  (streaming (dev (sim_attached hw_good)) = false /\
   imx708_set_stream 0 (sim_attached hw_good) = (0, sim_attached hw_good)).
Proof.
  assert (H1 : streaming (dev (sim_streaming hw_good)) = true)
    by reflexivity.
  assert (H0 : streaming (dev (sim_attached hw_good)) = false)
    by reflexivity.
  split; (split; [assumption |]).
  - exact (proj1 (set_stream_idempotent (sim_streaming hw_good)) H1).
  - exact (proj2 (set_stream_idempotent (sim_attached hw_good)) H0).
Defined.

(** C6, the claim as written fails: on a sensor whose sentinel does not
    read 0x40 a stream start sets the flag although no calibration table
    was written. *)
Lemma calibration_flag_without_patch :
  common_regs_written (dev (sim_attached hw_patched)) = false /\
  common_regs_written (dev (sim_streaming hw_patched)) = true /\
  existsb spc_gain_write (log (sim_streaming hw_patched)) = false.
Proof. now vm_compute. Qed.

Lemma calibration_flag_lifecycle_witness :
  common_regs_written (dev (sim_attached hw_good)) = false /\
  common_regs_written
    (dev (snd (handle (S_STREAM 1) (sim_attached hw_good)))) = true /\
  exists data rest,
    log (snd (handle (S_STREAM 1) (sim_attached hw_good))) =
      log (sim_attached hw_good) ++ calibration_trace data ++ rest /\
    existsb spc_gain_write rest = false /\
    (existsb spc_gain_write
       (new_events (sim_attached hw_good)
          (snd (handle (S_STREAM 1) (sim_attached hw_good)))) = true <->
     get_unaligned_be32 (data_buf IMX708_REG_VALUE_08BIT data) = 0x40).
Proof.
  assert (H0 : common_regs_written (dev (sim_attached hw_good)) = false)
    by reflexivity.
  assert (H1 : common_regs_written
                 (dev (snd (handle (S_STREAM 1) (sim_attached hw_good))))
               = true) by reflexivity.
  split; [exact H0 |]. split; [exact H1 |].
  destruct (proj2 (proj2 (proj2 (calibration_flag_lifecycle (P := sim))))
              (S_STREAM 1) (sim_attached hw_good) H0 H1)
    as (_ & data & rest & Hl & Hq & _ & _ & Hiff).
  exists data, rest. split; [exact Hl |]. split; [exact Hq | exact Hiff].
Defined.

(** C7, the claim as written fails: a resume that finds the bus dead
    clears the streaming flag and leaves both flips frozen; a stream start
    that fails on this device in standby leaves them frozen. *)
Lemma start_failure_flips_frozen :
  fst (imx708_resume (sim_streaming hw_one_start)) = - EIO /\
  streaming (dev sim_failed_resume) = false /\
  fst (imx708_set_stream 1 sim_failed_resume) = - EIO /\
  streaming (dev (snd (imx708_set_stream 1 sim_failed_resume))) = false /\
  grabbed (hflip (dev (snd (imx708_set_stream 1 sim_failed_resume)))) = true /\
  grabbed (vflip (dev (snd (imx708_set_stream 1 sim_failed_resume)))) = true.
Proof. now vm_compute. Qed.

(** Scenario D of the spec: the bus gives up inside the mode register
    list. *)
Lemma start_failure_leaves_standby_witness :
  (streaming (dev (sim_1080p hw_flaky)) = false /\
   fst (imx708_set_stream 1 (sim_1080p hw_flaky)) <> 0) /\
  streaming (dev (snd (imx708_set_stream 1 (sim_1080p hw_flaky)))) = false /\
  usage_count (snd (imx708_set_stream 1 (sim_1080p hw_flaky))) =
    usage_count (sim_1080p hw_flaky) /\
  grabbed (hflip (dev (snd (imx708_set_stream 1 (sim_1080p hw_flaky)))))
    = false.
Proof.
  assert (Hs : streaming (dev (sim_1080p hw_flaky)) = false) by reflexivity.
  assert (Hf : fst (imx708_set_stream 1 (sim_1080p hw_flaky)) <> 0)
    by (vm_compute; discriminate).
  split; [now split |].
  destruct (start_failure_leaves_standby (sim_1080p hw_flaky) Hs Hf)
    as (Hst & Hu & Hh & _).
  split; [exact Hst |]. split; [exact Hu |]. now rewrite Hh.
Defined.

(** C9, the claim as written fails: while power is not in use an unknown
    control id is not rejected, the call returns 0. *)
Lemma unknown_ctrl_accepted_when_idle :
  handled V4L2_CID_PIXEL_RATE = false /\
  in_use (sim_attached hw_good) = false /\
  fst (imx708_set_ctrl V4L2_CID_PIXEL_RATE (sim_attached hw_good)) = 0 /\
  fst (imx708_set_ctrl V4L2_CID_PIXEL_RATE (sim_attached hw_good))
    <> - EINVAL.
Proof. repeat split; try reflexivity. vm_compute. discriminate. Qed.

Lemma unknown_ctrl_no_effect_witness :
  handled V4L2_CID_PIXEL_RATE = false /\
  imx708_set_ctrl V4L2_CID_PIXEL_RATE (sim_powered hw_good) =
    (- EINVAL, sim_powered hw_good).
Proof.
  assert (H : handled V4L2_CID_PIXEL_RATE = false) by reflexivity.
  split; [exact H |].
  exact (unknown_ctrl_no_effect (sim_powered hw_good) V4L2_CID_PIXEL_RATE H).
Defined.

(** On a dead bus the analogue gain still reports success, the exposure
    does not. *)
Lemma analogue_gain_error_discarded_witness :
  (in_use (sim_powered hw_dead) = true /\
   handled V4L2_CID_ANALOGUE_GAIN = true) /\
  existsb send_failed
    (new_events (sim_powered hw_dead)
       (snd (imx708_set_ctrl V4L2_CID_ANALOGUE_GAIN (sim_powered hw_dead))))
    = true /\
  fst (imx708_set_ctrl V4L2_CID_ANALOGUE_GAIN (sim_powered hw_dead)) = 0 /\
  fst (imx708_set_ctrl V4L2_CID_EXPOSURE (sim_powered hw_dead)) = - EIO.
Proof.
  assert (Hin : in_use (sim_powered hw_dead) = true) by reflexivity.
  assert (Hag : handled V4L2_CID_ANALOGUE_GAIN = true) by reflexivity.
  assert (Hex : handled V4L2_CID_EXPOSURE = true) by reflexivity.
  split; [now split |]. split; [reflexivity |].
  destruct (analogue_gain_error_discarded (sim_powered hw_dead)
              V4L2_CID_ANALOGUE_GAIN Hin Hag) as (_ & Hret).
  split; [exact Hret |].
  destruct (analogue_gain_error_discarded (sim_powered hw_dead)
              V4L2_CID_EXPOSURE Hin Hex) as (_ & Hret').
  rewrite Hret'. reflexivity.
Defined.

(** * Further properties of the driver *)

(** ** Register transport: what a write encodes, a read decodes *)

Lemma lor_shiftl_low (a b n : Z) :
  0 <= n -> 0 <= b < 2 ^ n -> Z.lor (Z.shiftl a n) b = a * 2 ^ n + b.
Proof.
  intros Hn Hb.
  assert (E : Z.land (Z.shiftl a n) b = 0).
  { apply Z.bits_inj'. intros i Hi. rewrite Z.land_spec, Z.bits_0.
    destruct (Z.lt_ge_cases i n) as [Hlt | Hge].
    - now rewrite Z.shiftl_spec_low.
    - rewrite <- (Z.mod_small b (2 ^ n)) by lia.
      rewrite Z.mod_pow2_bits_high by lia. apply andb_false_r. }
  pose proof (Z.add_lor_land (Z.shiftl a n) b) as H.
  rewrite E, Z.add_0_r in H. rewrite H. now rewrite Z.shiftl_mul_pow2.
Qed.

Lemma get_unaligned_be32_bytes (b0 b1 b2 b3 : Z) :
  0 <= b1 < 256 -> 0 <= b2 < 256 -> 0 <= b3 < 256 ->
  get_unaligned_be32 [b0; b1; b2; b3] =
  b0 * 16777216 + b1 * 65536 + b2 * 256 + b3.
Proof.
  intros H1 H2 H3. unfold get_unaligned_be32. cbn [nth].
  rewrite (lor_shiftl_low b2 b3 8) by (change (2 ^ 8) with 256; lia).
  rewrite (lor_shiftl_low b1 _ 16) by (change (2 ^ 16) with 65536;
                                        change (2 ^ 8) with 256; lia).
  rewrite (lor_shiftl_low b0 _ 24) by (change (2 ^ 24) with 16777216;
                                        change (2 ^ 16) with 65536;
                                        change (2 ^ 8) with 256; lia).
  change (2 ^ 24) with 16777216. change (2 ^ 16) with 65536.
  change (2 ^ 8) with 256. lia.
Qed.

(** X1.  A register value survives the trip over the bus: the message
    [imx708_write_reg] builds for a [len]-byte register is [len + 2] bytes
    long and starts with the two address bytes [imx708_read_reg] sends, and
    decoding its payload the way [imx708_read_reg] decodes the bytes it
    receives gives back the value, cut to [len] bytes. *)
Theorem write_read_round_trip (reg len v : Z) :
  1 <= len <= 4 ->
  let buf := write_buf reg len v in
  Z.of_nat (length buf) = len + 2 /\
  firstn 2 buf = [ Z.land (Z.shiftr reg 8) 0xff; Z.land reg 0xff ] /\
  get_unaligned_be32 (data_buf len (skipn 2 buf)) = v mod 2 ^ (8 * len).
Proof.
  intros Hlen buf. subst buf.
  assert (Hc : len = 1 \/ len = 2 \/ len = 3 \/ len = 4) by lia.
  unfold write_buf, data_buf, put_unaligned_be16, put_unaligned_be32, u32.
  destruct Hc as [-> | [-> | [-> | ->]]];
    (split; [reflexivity | split; [reflexivity |]]);
    cbn [Z.add Z.sub Z.mul Z.opp Z.to_nat Pos.add Pos.succ Z.pos_sub Pos.mul
         Z.succ_double Z.pred_double Z.double Pos.pred_double];
    repeat match goal with
           | |- context [Pos.to_nat ?p] =>
               let n := eval compute in (Pos.to_nat p) in
               change (Pos.to_nat p) with n
           end;
    cbn [firstn skipn app map repeat];
    rewrite ?Z.shiftl_mul_pow2, ?Z.shiftr_div_pow2 by lia;
    change 0xff with (Z.ones 8); rewrite !Z.land_ones by lia;
    change (2 ^ 32) with 4294967296; change (2 ^ 24) with 16777216;
    change (2 ^ 16) with 65536; change (2 ^ 8) with 256;
    change (2 ^ 0) with 1;
    rewrite get_unaligned_be32_bytes
      by (try (apply Z.mod_pos_bound); lia);
    Z.to_euclidean_division_equations; lia.
Qed.

(** ** Framing limits *)

Lemma set_framing_limits_fields (imx : imx708) :
  let imx' := imx708_set_framing_limits imx in
  ctrl_handler imx' = ctrl_handler imx /\ exposure imx' = exposure imx /\
  hflip imx' = hflip imx /\ vflip imx' = vflip imx /\
  streaming imx' = streaming imx /\ power_on imx' = power_on imx /\
  cur_mode imx' = cur_mode imx /\ cfg_num imx' = cfg_num imx /\
  common_regs_written imx' = common_regs_written imx /\
  long_exp_shift imx' = long_exp_shift imx /\
  link_freq_idx imx' = link_freq_idx imx.
Proof. destruct imx. cbn. tauto. Qed.

Lemma with_cur_mode_fields (m : nat) (imx : imx708) :
  cur_mode (with_cur_mode m imx) = m /\
  cfg_num (with_cur_mode m imx) = cfg_num imx /\
  link_freq_idx (with_cur_mode m imx) = link_freq_idx imx /\
  streaming (with_cur_mode m imx) = streaming imx /\
  exposure (with_cur_mode m imx) = exposure imx /\
  long_exp_shift (with_cur_mode m imx) = long_exp_shift imx /\
  power_on (with_cur_mode m imx) = power_on imx.
Proof. destruct imx. cbn. tauto. Qed.

Lemma set_framing_limits_again (m : nat) (imx : imx708) :
  imx708_set_framing_limits
    (with_cur_mode m (imx708_set_framing_limits (with_cur_mode m imx))) =
  imx708_set_framing_limits (with_cur_mode m imx).
Proof. destruct imx. reflexivity. Qed.

(** X2.  Whatever the current mode, [imx708_set_framing_limits] declares
    well-formed ranges: the vblank range runs from the mode's minimum to
    the largest value whose frame length still fits the 16-bit register
    after seven halvings, its default lies inside it, the horizontal
    blanking and the pixel rate are pinned to one value of the mode (a
    positive [line_length_pix - width] that did not wrap); the mode
    pointer, the streaming flag and the calibration flag are not
    touched. *)
Theorem framing_limits_well_formed (imx : imx708) :
  let mode := mode_of imx in
  let imx' := imx708_set_framing_limits imx in
  (minimum (vblank imx') = vblank_min mode /\
   maximum (vblank imx') = vblank_max mode /\
   default_value (vblank imx') = vblank_default mode /\
   step (vblank imx') = 1 /\
   0 <= minimum (vblank imx') <= default_value (vblank imx') /\
   default_value (vblank imx') <= maximum (vblank imx') /\
   frame_length_of mode (maximum (vblank imx')) =
     2 ^ IMX708_LONG_EXP_SHIFT_MAX * IMX708_FRAME_LENGTH_MAX) /\
  (minimum (hblank imx') = line_length_pix mode - width mode /\
   maximum (hblank imx') = minimum (hblank imx') /\
   default_value (hblank imx') = minimum (hblank imx') /\
   0 < minimum (hblank imx')) /\
  (minimum (pixel_rate imx') = pixel_rate_of mode /\
   maximum (pixel_rate imx') = pixel_rate_of mode /\
   default_value (pixel_rate imx') = pixel_rate_of mode) /\
  (cur_mode imx' = cur_mode imx /\
   streaming imx' = streaming imx /\
   common_regs_written imx' = common_regs_written imx).
Proof.
  intros mode imx'. subst mode imx'.
  unfold mode_of, frame_length_of, vblank_max.
  destruct imx as [ch pr ex vb hb hf vf st po cm cn cw ls lf].
  cbn [imx708_set_framing_limits mode_of cur_mode with_pixel_rate with_vblank
       with_hblank vblank hblank pixel_rate exposure streaming
       common_regs_written long_exp_shift __v4l2_ctrl_modify_range minimum
       maximum default_value step val].
  unfold mode_of. cbn [cur_mode].
  destruct (supported_mode_cases cm) as [-> | [-> | [-> | ->]]];
    vm_compute; repeat split; congruence.
Qed.

(** ** Format negotiation and enumeration *)

Lemma best_fit_loop_range (modes : list imx708_mode) (f : v4l2_mbus_framefmt)
    (n : nat) :
  (fst (best_fit_loop modes n f) < n)%nat \/
  fst (best_fit_loop modes n f) = 0%nat.
Proof.
  unfold best_fit_loop. induction n as [| n IH]; [now right |].
  rewrite seq_S, fold_left_app. cbn [fold_left Nat.add].
  destruct (fold_left (best_fit_step modes f) (seq 0 n) (0%nat, -1))
    as [b d]. cbn [fst] in IH. unfold best_fit_step.
  destruct (((d =? -1) || (imx708_get_reso_dist (nth n modes mode_4608x2592) f
                            <? d)) &&
            (bus_fmt (nth n modes mode_4608x2592) =? code f));
    cbn [fst]; lia.
Qed.

Lemma find_best_fit_small (imx : imx708) (fmt : v4l2_subdev_format) :
  small (fmt_width (format fmt)) ->
  small (fmt_height (format fmt)) ->
  imx708_find_best_fit imx fmt <> 2%nat.
Proof.
  intros Hw Hh Hb. unfold imx708_find_best_fit in Hb.
  pose proof (best_fit_loop_inv supported_modes (format fmt) (conj Hw Hh)
                supported_modes_small (cfg_num imx)) as Hinv.
  destruct (best_fit_loop supported_modes (cfg_num imx) (format fmt))
    as [b d]. cbn [fst] in Hb. subst b. unfold best_fit_inv in Hinv.
  destruct Hinv as [(_ & H0 & _) | (Hn & Hm & Hd & Hmin)]; [discriminate |].
  destruct (Hmin 1%nat ltac:(lia) Hm) as [_ Hle].
  specialize (Hle ltac:(now rewrite Hd)). lia.
Qed.

(** X3.  Format negotiation never lands on the HDR catalog entry: for a
    request whose sizes are below 2^30, whatever its format code and
    whatever [cfg_num], the entry [imx708_find_best_fit] returns is not
    entry 2, so the mode it selects has no HDR.  The HDR entry has the size
    and code of the entry before it, which always wins the tie. *)
Theorem find_best_fit_never_hdr (imx : imx708) (fmt : v4l2_subdev_format) :
  small (fmt_width (format fmt)) ->
  small (fmt_height (format fmt)) ->
  imx708_find_best_fit imx fmt <> 2%nat /\
  hdr_mode (supported_mode (imx708_find_best_fit imx fmt)) = NO_HDR /\
  hdr_mode
    (mode_of (fst (fst (imx708_set_pad_format imx
                          {| which := V4L2_SUBDEV_FORMAT_ACTIVE;
                             format := format fmt |})))) = NO_HDR.
Proof.
  intros Hw Hh.
  pose proof (find_best_fit_small imx fmt Hw Hh) as Hne.
  assert (Hno : hdr_mode (supported_mode (imx708_find_best_fit imx fmt))
                = NO_HDR).
  { remember (imx708_find_best_fit imx fmt) as b eqn:Eb. clear Eb.
    unfold supported_mode.
    do 4 (destruct b as [| b]; [try reflexivity; now elim Hne |]).
    now destruct b. }
  split; [exact Hne | split; [exact Hno |]].
  unfold imx708_set_pad_format. cbn [which format fst].
  change (V4L2_SUBDEV_FORMAT_ACTIVE =? V4L2_SUBDEV_FORMAT_TRY) with false.
  cbn iota. cbn [fst]. unfold mode_of.
  destruct (set_framing_limits_fields
              (with_cur_mode
                 (imx708_find_best_fit imx
                    {| which := V4L2_SUBDEV_FORMAT_ACTIVE;
                       format := format fmt |}) imx))
    as (_ & _ & _ & _ & _ & _ & -> & _).
  destruct (with_cur_mode_fields
              (imx708_find_best_fit imx
                 {| which := V4L2_SUBDEV_FORMAT_ACTIVE;
                    format := format fmt |}) imx) as (-> & _).
  exact Hno.
Qed.

Lemma find_best_fit_of_mode (imx : imx708) (b : nat) (which_ : Z) :
  cfg_num imx = length supported_modes ->
  (b < 4)%nat -> b <> 2%nat ->
  imx708_find_best_fit imx
    {| which := which_;
       format := {| fmt_width := width (supported_mode b);
                    fmt_height := height (supported_mode b);
                    code := bus_fmt (supported_mode b);
                    field := V4L2_FIELD_NONE |} |} = b.
Proof.
  intros Hn Hb Hne. unfold imx708_find_best_fit. rewrite Hn. cbn [format].
  do 4 (destruct b as [| b]; [try reflexivity; now elim Hne |]). lia.
Qed.

Lemma find_best_fit_lt (imx : imx708) (fmt : v4l2_subdev_format) :
  cfg_num imx = length supported_modes ->
  (imx708_find_best_fit imx fmt < 4)%nat.
Proof.
  intros Hn. unfold imx708_find_best_fit. rewrite Hn.
  change (length supported_modes) with 4%nat.
  destruct (best_fit_loop_range supported_modes (format fmt) 4) as [H | H];
    lia.
Qed.

(** X4.  Format negotiation is idempotent: for a request with sizes below
    2^30 made of a device whose [cfg_num] is the size of the catalog,
    handing [imx708_set_pad_format] the format and the device structure
    its first call returned gives back exactly that format and that device
    structure, with return value 0, for TRY and ACTIVE requests alike. *)
Theorem set_pad_format_idempotent (imx : imx708) (fmt : v4l2_subdev_format) :
  cfg_num imx = length supported_modes ->
  small (fmt_width (format fmt)) ->
  small (fmt_height (format fmt)) ->
  let r := imx708_set_pad_format imx fmt in
  snd r = 0 /\
  imx708_set_pad_format (fst (fst r)) (snd (fst r)) = r.
Proof.
  intros Hn Hw Hh r. subst r.
  pose proof (find_best_fit_small imx fmt Hw Hh) as Hne.
  pose proof (find_best_fit_lt imx fmt Hn) as Hlt.
  unfold imx708_set_pad_format at 1 3 4 5.
  cbn [which format]. remember (imx708_find_best_fit imx fmt) as b eqn:Eb.
  destruct (which fmt =? V4L2_SUBDEV_FORMAT_TRY) eqn:Ew; cbn [fst snd].
  - split; [reflexivity |]. unfold imx708_set_pad_format.
    rewrite (find_best_fit_of_mode imx b (which fmt) Hn Hlt Hne).
    cbn [which format]. now rewrite Ew.
  - split; [reflexivity |]. unfold imx708_set_pad_format.
    assert (Hn' : cfg_num (imx708_set_framing_limits (with_cur_mode b imx))
                  = length supported_modes).
    { destruct (set_framing_limits_fields (with_cur_mode b imx))
        as (_ & _ & _ & _ & _ & _ & _ & -> & _).
      destruct (with_cur_mode_fields b imx) as (_ & -> & _). exact Hn. }
    rewrite (find_best_fit_of_mode _ b (which fmt) Hn' Hlt Hne).
    cbn [which format]. rewrite Ew.
    now rewrite set_framing_limits_again.
Qed.

(** X5.  Every frame size the driver enumerates can be negotiated as it
    is: when [imx708_enum_frame_size] accepts an index and a format code
    (on a device whose [cfg_num] is the size of the catalog), the size it
    reports is a fixed one (minimum and maximum coincide), and a request
    for that size and code comes back from [imx708_set_pad_format]
    unchanged. *)
Theorem enumerated_size_is_negotiable (imx : imx708)
    (fse : v4l2_subdev_frame_size_enum) (which_ : Z) :
  cfg_num imx = length supported_modes ->
  fst (imx708_enum_frame_size imx fse) = 0 ->
  let fse' := snd (imx708_enum_frame_size imx fse) in
  let fmt :=
    {| which := which_;
       format := {| fmt_width := min_width fse';
                    fmt_height := min_height fse';
                    code := fse_code fse'; field := V4L2_FIELD_NONE |} |} in
  (fse_index fse < cfg_num imx)%nat /\
  max_width fse' = min_width fse' /\ max_height fse' = min_height fse' /\
  snd (fst (imx708_set_pad_format imx fmt)) = fmt /\
  snd (imx708_set_pad_format imx fmt) = 0.
Proof.
  intros Hn. unfold imx708_enum_frame_size. rewrite Hn.
  destruct fse as [i c mw xw mh xh]. cbn [fse_index fse_code].
  change (length supported_modes) with 4%nat.
  destruct (4 <=? i)%nat eqn:Ei; [discriminate |].
  apply Nat.leb_gt in Ei.
  destruct (c =? bus_fmt (supported_mode i)) eqn:Ec; [| discriminate].
  apply Z.eqb_eq in Ec. subst c. intros _. cbn [negb snd].
  cbn [min_width min_height max_width max_height fse_code].
  split; [exact Ei | split; [reflexivity | split; [reflexivity |]]].
  unfold imx708_set_pad_format, imx708_find_best_fit. rewrite Hn.
  cbn [which format].
  do 4 (destruct i as [| i];
        [destruct (which_ =? V4L2_SUBDEV_FORMAT_TRY); split; reflexivity |]).
  lia.
Qed.

(** X6.  Conversely, whatever is requested of a device whose [cfg_num] is
    the size of the catalog, the format [imx708_set_pad_format] answers
    with is one the enumerations list: some index below [cfg_num] makes
    [imx708_enum_mbus_code] report its code, [imx708_enum_frame_size]
    accept that code and report its size, and
    [imx708_enum_frame_interval] report the same code and size.  After an
    ACTIVE request the current mode has the answered size and code, and
    [imx708_g_frame_interval] gives the frame interval of that mode. *)
Theorem negotiated_format_is_enumerated (imx : imx708)
    (fmt : v4l2_subdev_format) :
  cfg_num imx = length supported_modes ->
  let imx' := fst (fst (imx708_set_pad_format imx fmt)) in
  let fmt' := format (snd (fst (imx708_set_pad_format imx fmt))) in
  (exists index fse_ fie_,
     (index < cfg_num imx)%nat /\
     imx708_enum_mbus_code imx {| mce_index := index; mce_code := 0 |} =
       (0, {| mce_index := index; mce_code := code fmt' |}) /\
     imx708_enum_frame_size imx
       {| fse_index := index; fse_code := code fmt'; min_width := 0;
          max_width := 0; min_height := 0; max_height := 0 |} = (0, fse_) /\
     min_width fse_ = fmt_width fmt' /\ max_width fse_ = fmt_width fmt' /\
     min_height fse_ = fmt_height fmt' /\ max_height fse_ = fmt_height fmt' /\
     imx708_enum_frame_interval imx
       {| fie_index := index; fie_code := 0; fie_width := 0; fie_height := 0;
          fie_interval := {| numerator := 0; denominator := 0 |} |}
       = (0, fie_) /\
     fie_code fie_ = code fmt' /\ fie_width fie_ = fmt_width fmt' /\
     fie_height fie_ = fmt_height fmt' /\
     (which fmt <> V4L2_SUBDEV_FORMAT_TRY ->
      cur_mode imx' = index /\
      imx708_g_frame_interval imx' = (0, fie_interval fie_))) /\
  (which fmt <> V4L2_SUBDEV_FORMAT_TRY ->
   width (mode_of imx') = fmt_width fmt' /\
   height (mode_of imx') = fmt_height fmt' /\
   bus_fmt (mode_of imx') = code fmt').
Proof.
  intros Hn imx' fmt'. subst imx' fmt'.
  pose proof (find_best_fit_lt imx fmt Hn) as Hlt.
  unfold imx708_set_pad_format. cbn [which format].
  remember (imx708_find_best_fit imx fmt) as b eqn:Eb.
  assert (Hcm : cur_mode (imx708_set_framing_limits (with_cur_mode b imx))
                = b).
  { destruct (set_framing_limits_fields (with_cur_mode b imx))
      as (_ & _ & _ & _ & _ & _ & -> & _).
    now destruct (with_cur_mode_fields b imx) as (-> & _). }
  split.
  - eexists b, _, _.
    unfold imx708_enum_mbus_code, imx708_enum_frame_size,
      imx708_enum_frame_interval, imx708_g_frame_interval, mode_of.
    cbn [mce_index fse_index fse_code fie_index].
    rewrite Hn. change (length supported_modes) with 4%nat.
    replace (4 <=? b)%nat with false by (symmetry; apply Nat.leb_gt; lia).
    destruct (which fmt =? V4L2_SUBDEV_FORMAT_TRY) eqn:Ew;
      cbn [fst snd format code fmt_width fmt_height];
      rewrite Z.eqb_refl; cbn [negb];
      (split; [exact Hlt |]);
      (split; [reflexivity |]); (split; [reflexivity |]);
      cbn [min_width max_width min_height max_height fie_code fie_width
           fie_height fie_interval];
      repeat (split; [reflexivity |]).
    + intros H. apply Z.eqb_eq in Ew. contradiction.
    + intros _. rewrite Hcm. split; reflexivity.
  - intros Hw. apply Z.eqb_neq in Hw. rewrite Hw.
    cbn [fst snd format code fmt_width fmt_height]. unfold mode_of.
    rewrite Hcm. repeat split; reflexivity.
Qed.

(** X7.  What was negotiated is what is read back: after
    [imx708_set_pad_format] (with the file handle's state it stores TRY
    formats in), [imx708_get_pad_format] asked with the same [which]
    returns the format the negotiation answered with, and 0.  The two
    kinds do not disturb each other: a TRY request leaves the device
    structure, hence the ACTIVE format, as it was, and any other request
    leaves the try format as it was, which for a fresh file handle is the
    first catalog entry's. *)
Theorem get_pad_format_after_set (imx : imx708) (sd_state : v4l2_subdev_state)
    (fmt : v4l2_subdev_format) :
  let r := set_fmt imx sd_state fmt in
  let imx' := fst (fst (fst r)) in
  let sd_state' := snd (fst (fst r)) in
  let fmt' := snd (fst r) in
  snd r = 0 /\
  imx708_get_pad_format imx' sd_state' fmt' = (fmt', 0) /\
  (which fmt = V4L2_SUBDEV_FORMAT_TRY ->
   imx' = imx /\
   forall g, which g <> V4L2_SUBDEV_FORMAT_TRY ->
     imx708_get_pad_format imx' sd_state' g =
     imx708_get_pad_format imx sd_state g) /\
  (which fmt <> V4L2_SUBDEV_FORMAT_TRY ->
   sd_state' = sd_state /\
   forall g, which g = V4L2_SUBDEV_FORMAT_TRY ->
     imx708_get_pad_format imx' sd_state' g =
     imx708_get_pad_format imx sd_state g) /\
  fst (imx708_get_pad_format imx (snd imx708_open)
         {| which := V4L2_SUBDEV_FORMAT_TRY; format := format fmt |}) =
    {| which := V4L2_SUBDEV_FORMAT_TRY;
       format := {| fmt_width := 4608; fmt_height := 2592;
                    code := MEDIA_BUS_FMT_SRGGB10_1X10;
                    field := V4L2_FIELD_NONE |} |}.
Proof.
  intros r imx' sd_state' fmt'. subst r imx' sd_state' fmt'.
  unfold set_fmt, imx708_set_pad_format. cbn [which format].
  remember (imx708_find_best_fit imx fmt) as b eqn:Eb.
  assert (Hcm : cur_mode (imx708_set_framing_limits (with_cur_mode b imx))
                = b).
  { destruct (set_framing_limits_fields (with_cur_mode b imx))
      as (_ & _ & _ & _ & _ & _ & -> & _).
    now destruct (with_cur_mode_fields b imx) as (-> & _). }
  destruct (which fmt =? V4L2_SUBDEV_FORMAT_TRY) eqn:Ew; cbn [fst snd].
  - split; [reflexivity |]. split.
    { unfold imx708_get_pad_format. cbn [which]. rewrite Ew. reflexivity. }
    split.
    { intros _. split; [reflexivity |]. intros g Hg.
      unfold imx708_get_pad_format. apply Z.eqb_neq in Hg. now rewrite Hg. }
    split; [| reflexivity].
    intros H. apply Z.eqb_eq in Ew. contradiction.
  - split; [reflexivity |]. split.
    { unfold imx708_get_pad_format, mode_of. cbn [which]. rewrite Ew, Hcm.
      reflexivity. }
    split.
    { intros H. apply Z.eqb_neq in Ew. contradiction. }
    split; [| reflexivity].
    intros _. split; [reflexivity |]. intros g Hg.
    unfold imx708_get_pad_format. apply Z.eqb_eq in Hg. now rewrite Hg.
Qed.

(** ** The HDR override of the vendor channel *)

Lemma find_seq_first (f : nat -> bool) (n : nat) :
  forall s i,
    find f (seq s n) = Some i ->
    (s <= i < s + n)%nat /\ f i = true /\
    forall j, (s <= j < i)%nat -> f j = false.
Proof.
  induction n as [| n IH]; intros s i H; [discriminate |].
  cbn [seq find] in H. destruct (f s) eqn:Es.
  - injection H as <-. split; [lia | split; [exact Es |]]. intros j Hj. lia.
  - destruct (IH (S s) i H) as (Hr & Hi & Hbefore).
    split; [lia | split; [exact Hi |]]. intros j Hj.
    destruct (Nat.eq_dec j s) as [-> | Hne]; [exact Es |].
    apply Hbefore. lia.
Qed.

Lemma find_seq_none (f : nat -> bool) (n s : nat) :
  find f (seq s n) = None ->
  forall j, (s <= j < s + n)%nat -> f j = false.
Proof.
  intros H j Hj. apply (find_none f (seq s n) H). apply in_seq. lia.
Qed.

(** X8.  [RKMODULE_SET_HDR_CFG] either succeeds or changes nothing.  On
    success the new current mode is the first catalog entry below
    [cfg_num] that has the width and height of the old one and the
    requested HDR variant, so the resolution is kept, and the device
    structure is the old one with the new mode and its framing limits; in
    particular the streaming flag is neither tested nor changed.  When no
    entry qualifies the result is [-EINVAL] and the device structure is
    untouched. *)
Theorem set_hdr_cfg_spec (imx : imx708) (hdr : rkmodule_hdr_cfg) :
  let ret := fst (imx708_ioctl RKMODULE_SET_HDR_CFG hdr imx) in
  let imx' := snd (imx708_ioctl RKMODULE_SET_HDR_CFG hdr imx) in
  let fits i :=
    width (supported_mode i) = width (mode_of imx) /\
    height (supported_mode i) = height (mode_of imx) /\
    hdr_mode (supported_mode i) = hdr_cfg_mode hdr in
  (ret = 0 /\ (cur_mode imx' < cfg_num imx)%nat /\ fits (cur_mode imx') /\
   (forall j, (j < cur_mode imx')%nat -> ~ fits j) /\
   imx' = imx708_set_framing_limits (with_cur_mode (cur_mode imx') imx) /\
   streaming imx' = streaming imx /\ cfg_num imx' = cfg_num imx /\
   exposure imx' = exposure imx) \/
  (ret = - EINVAL /\ imx' = imx /\
   forall j, (j < cfg_num imx)%nat -> ~ fits j).
Proof.
  intros ret imx' fits. subst ret imx'.
  assert (Hfits : forall i,
            ((width (mode_of imx) =? width (supported_mode i)) &&
             (height (mode_of imx) =? height (supported_mode i)) &&
             (hdr_mode (supported_mode i) =? hdr_cfg_mode hdr)) = true
            <-> fits i).
  { intros i. unfold fits.
    rewrite !andb_true_iff, !Z.eqb_eq. intuition congruence. }
  unfold imx708_ioctl, hdr_cfg_loop.
  destruct (find _ (seq 0 (cfg_num imx))) as [i |] eqn:Ef.
  - left. apply find_seq_first in Ef. destruct Ef as (Hr & Hi & Hbefore).
    cbn [fst snd].
    destruct (set_framing_limits_fields (with_cur_mode i imx))
      as (_ & Hex & _ & _ & Hst & _ & Hcm & Hcn & _).
    destruct (with_cur_mode_fields i imx)
      as (Hcm' & Hcn' & _ & Hst' & Hex' & _).
    rewrite Hcm, Hcm', Hst, Hst', Hcn, Hcn', Hex, Hex'.
    split; [reflexivity | split; [lia | split; [now apply Hfits |]]].
    split; [| repeat split; reflexivity].
    intros j Hj Hfj. apply Hfits in Hfj.
    rewrite (Hbefore j ltac:(lia)) in Hfj. discriminate.
  - right. cbn [fst snd]. split; [reflexivity | split; [reflexivity |]].
    intros j Hj Hfj. apply Hfits in Hfj.
    rewrite (find_seq_none _ _ _ Ef j ltac:(lia)) in Hfj. discriminate.
Qed.


(** ** The hardware configuration check *)

Lemma index_of_some (x : Z) (l : list Z) :
  forall i k, index_of x l i = Some k ->
    (i <= k < i + length l)%nat /\ nth (k - i) l 0 = x.
Proof.
  induction l as [| y l IH]; intros i k H; [discriminate |].
  cbn [index_of] in H. destruct (y =? x) eqn:E.
  - injection H as <-. apply Z.eqb_eq in E. cbn [length].
    rewrite Nat.sub_diag. split; [lia | exact E].
  - destruct (IH (S i) k H) as (Hr & Hk). cbn [length]. split; [lia |].
    replace (k - i)%nat with (S (k - S i)) by lia. exact Hk.
Qed.

Lemma index_of_none (x : Z) (l : list Z) :
  forall i, index_of x l i = None -> ~ In x l.
Proof.
  induction l as [| y l IH]; intros i H; [now intros [] |].
  cbn [index_of] in H. destruct (y =? x) eqn:E; [discriminate |].
  apply Z.eqb_neq in E. intros [Hy | Hin]; [contradiction |].
  exact (IH (S i) H Hin).
Qed.

(** X10.  [imx708_check_hwcfg] accepts a board exactly when it has two
    data lanes and the first link frequency of its endpoint is one of the
    three supported ones.  It then stores the index of that frequency, so
    that [link_freqs[link_freq_idx]] is the board's frequency and the
    register list stream start takes from [link_freq_regs] exists and has
    two registers; the rest of the device structure is untouched.  A
    rejected board gives [-EINVAL] and leaves the whole structure as it
    was. *)
Theorem check_hwcfg_spec (cfg : board_config) (imx : imx708) :
  let ret := fst (imx708_check_hwcfg cfg imx) in
  let imx' := snd (imx708_check_hwcfg cfg imx) in
  (ret = 0 /\ num_data_lanes cfg = 2 /\
   (link_freq_idx imx' < length link_freqs)%nat /\
   hd_error (link_frequencies cfg) =
     Some (nth (link_freq_idx imx') link_freqs 0) /\
   length (regs (nth (link_freq_idx imx') link_freq_regs {| regs := [] |}))
     = 2%nat /\
   cur_mode imx' = cur_mode imx /\ cfg_num imx' = cfg_num imx /\
   streaming imx' = streaming imx /\
   common_regs_written imx' = common_regs_written imx /\
   ctrl_handler imx' = ctrl_handler imx /\ exposure imx' = exposure imx /\
   vblank imx' = vblank imx) \/
  (ret = - EINVAL /\ imx' = imx /\
   (num_data_lanes cfg <> 2 \/ link_frequencies cfg = [] \/
    exists f, hd_error (link_frequencies cfg) = Some f /\
              ~ In f link_freqs)).
Proof.
  intros ret imx'. subst ret imx'. unfold imx708_check_hwcfg.
  destruct (num_data_lanes cfg =? 2) eqn:El; cbn [negb].
  - apply Z.eqb_eq in El.
    destruct (link_frequencies cfg) as [| f rest] eqn:Ef.
    + right. cbn [fst snd]. split; [reflexivity | split; [reflexivity |]].
      right. now left.
    + destruct (index_of f link_freqs 0) as [i |] eqn:Ei.
      * left. destruct (index_of_some _ _ _ _ Ei) as (Hr & Hnth).
        rewrite Nat.sub_0_r in Hnth.
        destruct imx as [ch pr ex vb hb hf vf st po cm cn cw ls lf].
        cbn [fst snd link_freq_idx cur_mode cfg_num streaming
             common_regs_written ctrl_handler exposure vblank hd_error].
        rewrite Hnth.
        split; [reflexivity | split; [exact El | split; [lia |]]].
        split; [reflexivity |].
        split; [| repeat split; reflexivity].
        change (length link_freqs) with 3%nat in Hr.
        do 3 (destruct i as [| i]; [reflexivity |]). lia.
      * right. cbn [fst snd]. split; [reflexivity | split; [reflexivity |]].
        right. right. exists f. split; [reflexivity |].
        exact (index_of_none _ _ _ Ei).
  - right. apply Z.eqb_neq in El. cbn [fst snd].
    split; [reflexivity | split; [reflexivity |]]. now left.
Qed.

Section MoreProofs.

Context {P : Platform}.

Implicit Types w : world P.

(** ** Register lists *)

Lemma write_regs_log (l : list imx708_reg) :
  forall w,
    let ret := fst (imx708_write_regs l w) in
    let w' := snd (imx708_write_regs l w) in
    (ret = 0 /\ log w' = log w ++ regs_trace l) \/
    (ret = - EIO /\
     exists pre r post bad,
       l = pre ++ r :: post /\ bad <> 3 /\
       log w' = log w ++ regs_trace pre ++
                [ bad_send (address r) 1 (reg_val r) bad ]).
Proof.
  induction l as [| r rest IH]; intros w; cbv zeta.
  - left. cbn. now rewrite app_nil_r.
  - cbn [imx708_write_regs]. rewrite write_reg_eq by (left; reflexivity).
    set (buf := write_buf (address r) 1 (reg_val r)).
    destruct (i2c_master_send (hw w) buf) as [h b] eqn:Es. cbn [fst snd].
    change (1 + 2) with 3.
    destruct (b =? 3) eqn:Eb; [apply Z.eqb_eq in Eb | apply Z.eqb_neq in Eb].
    + cbn [Z.eqb negb]. subst b.
      set (w1 := with_bus h (I2C_SEND buf 3) w).
      specialize (IH w1). cbv zeta in IH.
      destruct IH as [(Hr & Hl) | (Hr & pre & r' & post & bad & Hsplit & Hbad
                                   & Hl)].
      * left. split; [exact Hr |]. rewrite Hl. unfold w1. cbn [log with_bus].
        now rewrite <- app_assoc.
      * right. split; [exact Hr |].
        exists (r :: pre), r', post, bad.
        split; [now rewrite Hsplit |]. split; [exact Hbad |].
        rewrite Hl. unfold w1. cbn [log with_bus].
        now rewrite <- app_assoc.
    + right. replace (negb (- EIO =? 0)) with true by reflexivity.
      cbn [fst snd]. split; [reflexivity |].
      exists [], r, rest, b. split; [reflexivity |]. split; [exact Eb |].
      reflexivity.
Qed.

(** X11.  [imx708_write_regs] stops at the first register the bus does
    not take.  Either every register of the list was written, in order,
    and the result is 0; or the result is [-EIO], the bus has seen the
    registers before the failing one written in full, then the one
    message that was cut short, and nothing of the rest of the list.  An
    empty list gives 0 without any bus traffic.  Nothing but the bus is
    touched. *)
Theorem write_regs_stops_at_first_failure (l : list imx708_reg) w :
  let ret := fst (imx708_write_regs l w) in
  let w' := snd (imx708_write_regs l w) in
  bus_only w w' /\
  ((ret = 0 /\ new_events w w' = regs_trace l) \/
   (ret = - EIO /\
    exists pre r post bad,
      l = pre ++ r :: post /\ bad <> 3 /\
      new_events w w' =
        regs_trace pre ++ [ bad_send (address r) 1 (reg_val r) bad ])).
Proof.
  cbv zeta. split; [apply write_regs_bus |].
  destruct (write_regs_log l w) as [(Hr & Hl) | (Hr & pre & r & post & bad
                                                 & Hsplit & Hbad & Hl)];
    cbv zeta in *.
  - left. split; [exact Hr |]. unfold new_events.
    now rewrite Hl, skipn_app_exact.
  - right. split; [exact Hr |]. exists pre, r, post, bad.
    split; [exact Hsplit |]. split; [exact Hbad |]. unfold new_events.
    now rewrite Hl, skipn_app_exact.
Qed.

(** ** Control application *)

Lemma write_reg_log (reg len v : Z) w :
  len = 1 \/ len = 2 ->
  exists e, log (snd (imx708_write_reg reg len v w)) = log w ++ [e].
Proof.
  intros Hlen. rewrite write_reg_eq by exact Hlen. cbn [snd log with_bus].
  eexists. reflexivity.
Qed.

Lemma set_frame_length_log (v : Z) w :
  exists evs,
    log (snd (imx708_set_frame_length v w)) = log w ++ evs /\
    (length evs <= 2)%nat.
Proof.
  unfold imx708_set_frame_length.
  destruct (frame_length_loop 32 0 v) as [shift val_].
  unfold bind, modify_dev, pure.
  set (w1 := with_dev (with_long_exp_shift shift (dev w)) w).
  destruct (write_reg_log IMX708_REG_FRAME_LENGTH IMX708_REG_VALUE_16BIT
              val_ w1 (or_intror eq_refl)) as [e1 H1].
  destruct (imx708_write_reg IMX708_REG_FRAME_LENGTH IMX708_REG_VALUE_16BIT
              val_ w1) as [r w2]. cbn [snd] in H1.
  destruct (negb (r =? 0)).
  - exists [e1]. split; [exact H1 | cbn; lia].
  - destruct (write_reg_log IMX708_LONG_EXP_SHIFT_REG IMX708_REG_VALUE_08BIT
                shift w2 (or_introl eq_refl)) as [e2 H2].
    exists [e1; e2]. split; [| cbn; lia].
    rewrite H2, H1. unfold w1. cbn [log with_dev].
    now rewrite <- app_assoc.
Qed.

Lemma set_ctrl_apply_log (id : v4l2_cid) w :
  exists evs,
    log (snd (set_ctrl_apply id w)) = log w ++ evs /\ (length evs <= 2)%nat.
Proof.
  assert (Hone : forall reg len v,
            len = 1 \/ len = 2 ->
            exists evs,
              log (snd (imx708_write_reg reg len v w)) = log w ++ evs /\
              (length evs <= 2)%nat).
  { intros reg len v Hlen. destruct (write_reg_log reg len v w Hlen) as [e H].
    exists [e]. split; [exact H | cbn; lia]. }
  assert (Hnone : exists evs, log w = log w ++ evs /\ (length evs <= 2)%nat).
  { exists []. split; [now rewrite app_nil_r | cbn; lia]. }
  unfold set_ctrl_apply, bind, get_dev.
  destruct id; try exact Hnone;
    try (apply Hone; (now left) || (now right)).
  - apply set_frame_length_log.
  - unfold imx708_set_analogue_gain, bind, pure.
    destruct (Hone IMX708_REG_ANALOG_GAIN IMX708_REG_VALUE_16BIT
                (u32 (val (ctrl_of (dev w) V4L2_CID_ANALOGUE_GAIN)))
                (or_intror eq_refl)) as (evs & H & Hlen).
    destruct (imx708_write_reg _ _ _ w) as [r w1]. cbn [snd] in *.
    exists evs. now split.
Qed.

Lemma set_ctrl_apply_dev (id : v4l2_cid) w :
  id <> V4L2_CID_VBLANK -> dev (snd (set_ctrl_apply id w)) = dev w.
Proof.
  intros Hid. unfold set_ctrl_apply, bind, get_dev.
  destruct id; try (now elim Hid); try reflexivity;
    try (apply write_reg_bus).
  destruct (set_analogue_gain_bus
              (u32 (val (ctrl_of (dev w) V4L2_CID_ANALOGUE_GAIN))) w)
    as (Hd & _).
  destruct (imx708_set_analogue_gain _ w) as [r w1]. exact Hd.
Qed.

(** X12.  The footprint of a control application.  Whatever the control
    and the state, [imx708_set_ctrl] leaves the power usage count and the
    power state as they were (the usage it takes is given back, and is
    never the last one), does not touch the streaming flag, the current
    mode, the calibration flag or the flips, and puts at most two events
    on the bus.  Only the vblank control changes the device structure (the
    exposure range and the long-exposure shift).  While power is not in
    use it returns 0 and the bus and the hardware see nothing: the value
    waits for the next stream start. *)
Theorem set_ctrl_footprint (id : v4l2_cid) w :
  let ret := fst (imx708_set_ctrl id w) in
  let w' := snd (imx708_set_ctrl id w) in
  usage_count w' = usage_count w /\
  runtime_active w' = runtime_active w /\
  streaming (dev w') = streaming (dev w) /\
  cur_mode (dev w') = cur_mode (dev w) /\
  common_regs_written (dev w') = common_regs_written (dev w) /\
  hflip (dev w') = hflip (dev w) /\ vflip (dev w') = vflip (dev w) /\
  (id <> V4L2_CID_VBLANK -> dev w' = dev w) /\
  (exists evs, log w' = log w ++ evs /\ (length evs <= 2)%nat) /\
  (in_use w = false -> ret = 0 /\ log w' = log w /\ hw w' = hw w).
Proof.
  cbv zeta.
  pose proof (set_ctrl_frame id w) as Hf.
  destruct (frame_fields _ _ Hf) as (Hs & Hh & Hv & Hc & Hm).
  destruct Hf as (_ & Hu & Ha & _).
  repeat (split; [assumption |]).
  pose proof (set_ctrl_eq id w) as Heq. cbv zeta in Heq. rewrite Heq.
  assert (Hadj : log (snd (set_ctrl_adjust id w)) = log w /\
                 hw (snd (set_ctrl_adjust id w)) = hw w /\
                 (id <> V4L2_CID_VBLANK ->
                  dev (snd (set_ctrl_adjust id w)) = dev w)).
  { unfold set_ctrl_adjust. destruct id; cbn; repeat split; try reflexivity.
    intros H. now elim H. }
  destruct Hadj as (Hl1 & Hh1 & Hd1).
  destruct (in_use w) eqn:Ein; cbn [fst snd].
  - split; [| split; [| intros H; discriminate H]].
    + intros Hid. cbn [dev with_usage_count].
      rewrite set_ctrl_apply_dev by exact Hid.
      cbn [dev with_usage_count]. now apply Hd1.
    + cbn [log with_usage_count].
      destruct (set_ctrl_apply_log id
                  (with_usage_count (S (usage_count w))
                     (snd (set_ctrl_adjust id w)))) as (evs & H & Hlen).
      exists evs. rewrite H. cbn [log with_usage_count]. rewrite Hl1.
      now split.
  - split; [exact Hd1 |]. split.
    + exists []. rewrite Hl1, app_nil_r. split; [reflexivity | cbn; lia].
    + intros _. repeat split; assumption.
Qed.

(** ** Streaming *)

Lemma set_stream_commit_fields (enable ret : Z) w :
  let w' := snd (set_stream_commit enable ret w) in
  let b := negb (enable =? 0) in
  streaming (dev w') = b /\
  grabbed (hflip (dev w')) = b /\ grabbed (vflip (dev w')) = b /\
  val (hflip (dev w')) = val (hflip (dev w)) /\
  val (vflip (dev w')) = val (vflip (dev w)) /\
  same_tables (dev w) (dev w') /\
  exposure (dev w') = exposure (dev w) /\
  long_exp_shift (dev w') = long_exp_shift (dev w) /\
  power_on (dev w') = power_on (dev w) /\ hw w' = hw w.
Proof.
  destruct w as [d u a h l]. destruct d. cbn. unfold same_tables. cbn. tauto.
Qed.

Lemma set_stream_stop_eq w :
  streaming (dev w) = true ->
  imx708_set_stream 0 w =
  set_stream_commit 0 0
    (snd (pm_runtime_put
            (snd (imx708_write_reg IMX708_REG_MODE_SELECT
                    IMX708_REG_VALUE_08BIT IMX708_MODE_STANDBY w)))).
Proof.
  intros Hs. unfold imx708_set_stream, bind, get_dev. rewrite Hs.
  cbn [Z.b2z Z.eqb negb]. unfold imx708_stop_streaming, bind, pure.
  destruct (imx708_write_reg _ _ _ w) as [r w1]. cbn [snd].
  now destruct (pm_runtime_put w1) as [[] w2].
Qed.

(** X13.  Stopping a stream cannot fail: [imx708_set_stream(0)] on a
    streaming device returns 0, clears the streaming flag, releases both
    flip controls and gives back one power usage, whatever the bus
    answers to the one message it sends, the standby write
    [01 00 00]. *)
Theorem stop_stream_always_succeeds w :
  streaming (dev w) = true ->
  let ret := fst (imx708_set_stream 0 w) in
  let w' := snd (imx708_set_stream 0 w) in
  ret = 0 /\
  streaming (dev w') = false /\
  grabbed (hflip (dev w')) = false /\ grabbed (vflip (dev w')) = false /\
  usage_count w' = Nat.pred (usage_count w) /\
  cur_mode (dev w') = cur_mode (dev w) /\
  exists r, new_events w w' = [ I2C_SEND [0x01; 0x00; 0x00] r ].
Proof.
  intros Hs. cbv zeta. rewrite (set_stream_stop_eq w Hs).
  set (w1 := snd (imx708_write_reg IMX708_REG_MODE_SELECT
                    IMX708_REG_VALUE_08BIT IMX708_MODE_STANDBY w)).
  set (w2 := snd (pm_runtime_put w1)).
  destruct (set_stream_commit_spec 0 0 w2) as (Hr & _ & Hu & Hl & _).
  destruct (set_stream_commit_fields 0 0 w2)
    as (Hst & Hgh & Hgv & _ & _ & (Hcm & _) & _).
  cbv zeta in *. change (negb (0 =? 0)) with false in *.
  destruct (put_spec w1) as (Hd2 & Hu2 & Hl2). cbv zeta in Hd2, Hu2, Hl2.
  fold w2 in Hd2, Hu2, Hl2.
  destruct (write_reg_bus IMX708_REG_MODE_SELECT IMX708_REG_VALUE_08BIT
              IMX708_MODE_STANDBY w) as (Hd1 & Hu1 & _). fold w1 in Hd1, Hu1.
  assert (Hl1 : exists r, log w1 = log w ++ [ I2C_SEND [0x01; 0x00; 0x00] r ]).
  { unfold w1. rewrite write_reg_eq by (left; reflexivity).
    cbn [snd log with_bus]. eexists. reflexivity. }
  destruct Hl1 as [r Hl1].
  split; [exact Hr |]. split; [exact Hst |]. split; [exact Hgh |].
  split; [exact Hgv |]. split; [congruence |]. split.
  - rewrite Hcm. destruct Hd2 as [-> | ->]; rewrite ?Hd1;
      destruct (dev w); reflexivity.
  - exists r. unfold new_events. rewrite Hl, Hl2, Hl1.
    apply skipn_app_exact.
Qed.

Lemma same_tables_refl (d : imx708) : same_tables d d.
Proof. unfold same_tables. tauto. Qed.

Lemma same_tables_trans (d1 d2 d3 : imx708) :
  same_tables d1 d2 -> same_tables d2 d3 -> same_tables d1 d3.
Proof. unfold same_tables. intuition congruence. Qed.

Lemma frame_tables w w' : frame w w' -> same_tables (dev w) (dev w').
Proof.
  intros (Hd & _). rewrite Hd. unfold same_tables.
  destruct (dev w). cbn. tauto.
Qed.

Lemma flag_tables (b : bool) (d : imx708) :
  same_tables d (with_common_regs_written b d).
Proof. unfold same_tables. destruct d. cbn. tauto. Qed.

(** A stream start that returns 0 has run every step. *)
Lemma start_streaming_ok w :
  fst (imx708_start_streaming w) = 0 ->
  let w' := snd (imx708_start_streaming w) in
  common_regs_written (dev w') = true /\
  same_tables (dev w) (dev w') /\
  streaming (dev w') = streaming (dev w) /\
  hflip (dev w') = hflip (dev w) /\ vflip (dev w') = vflip (dev w) /\
  usage_count w' = usage_count w /\ runtime_active w' = runtime_active w /\
  exists pre mid,
    log w' =
      log w ++ pre ++
      regs_trace (regs (reg_list (mode_of (dev w)))) ++
      regs_trace (regs (nth (link_freq_idx (dev w)) link_freq_regs
                          {| regs := [] |})) ++
      mid ++
      [ ok_send IMX708_REG_MODE_SELECT IMX708_REG_VALUE_08BIT
          IMX708_MODE_STREAMING ] /\
    ((common_regs_written (dev w) = true /\ pre = []) \/
     (common_regs_written (dev w) = false /\
      exists data, pre = calibration_trace data)).
Proof.
  unfold imx708_start_streaming, bind, get_dev.
  (* the common registers *)
  assert (H1 :
    let r1 := fst ((if negb (common_regs_written (dev w))
                    then write_common_regs else pure 0) w) in
    let w1 := snd ((if negb (common_regs_written (dev w))
                    then write_common_regs else pure 0) w) in
    r1 = 0 ->
    bus_only (with_dev (with_common_regs_written true (dev w)) w) w1 /\
    exists pre,
      log w1 = log w ++ pre /\
      ((common_regs_written (dev w) = true /\ pre = []) \/
       (common_regs_written (dev w) = false /\
        exists data, pre = calibration_trace data))).
  { cbv zeta. destruct (common_regs_written (dev w)) eqn:Eflag; cbn [negb].
    - intros _. cbn [pure fst snd]. split.
      + replace (with_common_regs_written true (dev w)) with (dev w)
          by (destruct (dev w); cbn in Eflag; now subst).
        rewrite with_dev_same. apply bus_only_refl.
      + exists []. rewrite app_nil_r. split; [reflexivity |]. now left.
    - intros Hr. destruct (write_common_regs_spec w) as [_ Hok].
      cbv zeta in Hok. destruct (Hok Hr) as (Hb & data & Hl).
      split; [exact Hb |]. exists (calibration_trace data).
      split; [exact Hl |]. right. split; [reflexivity |]. now exists data. }
  cbv zeta in H1.
  destruct ((if negb (common_regs_written (dev w)) then write_common_regs
             else pure 0) w) as [r1 w1]. cbn [fst snd] in H1.
  destruct (r1 =? 0) eqn:E1; cbn [negb];
    [apply Z.eqb_eq in E1
    | apply Z.eqb_neq in E1; cbn [pure fst]; intros H; now elim E1].
  destruct (H1 E1) as (Hb1 & pre & Hl1 & Hpre). clear H1.
  destruct (bus_only_flag _ _ _ Hb1) as (Hs1 & Hh1 & Hv1 & Hc1 & Hu1 & Ha1 & _).
  assert (Ht1 : same_tables (dev w) (dev w1)).
  { destruct Hb1 as (Hd & _). cbn [dev with_dev] in Hd. rewrite Hd.
    apply flag_tables. }
  (* the registers of the mode *)
  pose proof (write_regs_ok (regs (reg_list (mode_of (dev w1)))) w1) as Hl2.
  pose proof (write_regs_bus (regs (reg_list (mode_of (dev w1)))) w1) as Hb2.
  destruct (imx708_write_regs (regs (reg_list (mode_of (dev w1)))) w1)
    as [r2 w2]. cbn [fst snd] in Hl2, Hb2.
  destruct (r2 =? 0) eqn:E2; cbn [negb];
    [apply Z.eqb_eq in E2
    | apply Z.eqb_neq in E2; cbn [pure fst]; intros H; now elim E2].
  specialize (Hl2 E2). destruct Hb2 as (Hd2 & Hu2 & Ha2 & _).
  (* the link frequency registers *)
  pose proof (write_regs_ok
                (regs (nth (link_freq_idx (dev w2)) link_freq_regs
                         {| regs := [] |})) w2) as Hl3.
  pose proof (write_regs_bus
                (regs (nth (link_freq_idx (dev w2)) link_freq_regs
                         {| regs := [] |})) w2) as Hb3.
  destruct (imx708_write_regs
              (regs (nth (link_freq_idx (dev w2)) link_freq_regs
                       {| regs := [] |})) w2) as [r3 w3].
  cbn [fst snd] in Hl3, Hb3.
  destruct (r3 =? 0) eqn:E3; cbn [negb];
    [apply Z.eqb_eq in E3
    | apply Z.eqb_neq in E3; cbn [pure fst]; intros H; now elim E3].
  specialize (Hl3 E3). destruct Hb3 as (Hd3 & Hu3 & Ha3 & _).
  (* the control replay *)
  pose proof (ctrl_replay_frame replay_order w3) as Hf4.
  unfold __v4l2_ctrl_handler_setup.
  destruct (ctrl_replay replay_order w3) as [r4 w4]. cbn [snd] in Hf4.
  destruct (r4 =? 0) eqn:E4; cbn [negb];
    [apply Z.eqb_eq in E4
    | apply Z.eqb_neq in E4; cbn [pure fst]; intros H; now elim E4].
  destruct (frame_fields _ _ Hf4) as (Hs4 & Hh4 & Hv4 & Hc4 & _).
  pose proof (frame_tables _ _ Hf4) as Ht4.
  destruct Hf4 as (_ & Hu4 & Ha4 & mid & Hl4).
  (* the stream-on write *)
  intros Hr5.
  pose proof (write_reg_ok IMX708_REG_MODE_SELECT IMX708_REG_VALUE_08BIT
                IMX708_MODE_STREAMING w4 (or_introl eq_refl) Hr5) as Hl5.
  destruct (write_reg_bus IMX708_REG_MODE_SELECT IMX708_REG_VALUE_08BIT
              IMX708_MODE_STREAMING w4) as (Hd5 & Hu5 & Ha5 & _).
  cbv zeta. rewrite Hd5, Hu5, Ha5.
  rewrite Hd3, Hd2 in Hs4, Hh4, Hv4, Hc4, Ht4.
  split; [congruence |].
  split; [eapply same_tables_trans; eassumption |].
  split; [congruence |]. split; [congruence |]. split; [congruence |].
  split; [congruence |]. split; [congruence |].
  exists pre, mid. split; [| exact Hpre].
  rewrite Hl5, Hl4, Hl3, Hl2, Hl1, Hd2.
  destruct Ht1 as (Hcm1 & _ & Hlf1). unfold mode_of.
  rewrite Hcm1, Hlf1. now rewrite <- !app_assoc.
Qed.

(** *** The trace of a successful start *)

Lemma run_until_failure_app (a b : list (M P Z)) w :
  run_until_failure (a ++ b) w =
  (let (r, w1) := run_until_failure a w in
   if negb (r =? 0) then (r, w1) else run_until_failure b w1).
Proof.
  revert w. induction a as [| s a IH]; intros w; [reflexivity |].
  cbn [app run_until_failure]. destruct (s w) as [r w1].
  destruct (negb (r =? 0)) eqn:E; [now rewrite E | apply IH].
Qed.

(** The stream start is its first three steps, then the control replay,
    then the stream-on write. *)
Lemma start_streaming_split w :
  imx708_start_streaming w =
  (let (r3, w3) := run_until_failure (firstn 3 start_steps) w in
   if negb (r3 =? 0) then (r3, w3)
   else
     let (r4, w4) := __v4l2_ctrl_handler_setup w3 in
     if negb (r4 =? 0) then (r4, w4)
     else imx708_write_reg IMX708_REG_MODE_SELECT IMX708_REG_VALUE_08BIT
            IMX708_MODE_STREAMING w4).
Proof.
  rewrite start_streaming_eq.
  transitivity
    (run_until_failure (firstn 3 start_steps ++ skipn 3 start_steps) w);
    [reflexivity |].
  rewrite run_until_failure_app.
  destruct (run_until_failure (firstn 3 start_steps) w) as [r3 w3].
  destruct (negb (r3 =? 0)); [reflexivity |].
  unfold start_steps. cbn [skipn run_until_failure].
  destruct (__v4l2_ctrl_handler_setup w3) as [r4 w4].
  destruct (negb (r4 =? 0)); [reflexivity |].
  destruct (imx708_write_reg _ _ _ w4) as [r5 w5].
  destruct (r5 =? 0) eqn:E; [| reflexivity].
  apply Z.eqb_eq in E. now subst r5.
Qed.

(** The first three steps, when they succeed: the common-register
    sequence if the flag was unset, the mode's registers, the link
    frequency's. *)
Lemma start_prefix_ok w :
  fst (run_until_failure (firstn 3 start_steps) w) = 0 ->
  let w3 := before_replay w in
  dev w3 = with_common_regs_written true (dev w) /\
  usage_count w3 = usage_count w /\ runtime_active w3 = runtime_active w /\
  exists pre,
    log w3 =
      log w ++ pre ++
      regs_trace (regs (reg_list (mode_of (dev w)))) ++
      regs_trace (regs (nth (link_freq_idx (dev w)) link_freq_regs
                          {| regs := [] |})) /\
    ((common_regs_written (dev w) = true /\ pre = []) \/
     (common_regs_written (dev w) = false /\
      exists data, pre = calibration_trace data)).
Proof.
  unfold before_replay, start_steps, bind, get_dev.
  cbn [firstn run_until_failure].
  assert (H1 :
    let r1 := fst ((if negb (common_regs_written (dev w))
                    then write_common_regs else pure 0) w) in
    let w1 := snd ((if negb (common_regs_written (dev w))
                    then write_common_regs else pure 0) w) in
    r1 = 0 ->
    bus_only (with_dev (with_common_regs_written true (dev w)) w) w1 /\
    exists pre,
      log w1 = log w ++ pre /\
      ((common_regs_written (dev w) = true /\ pre = []) \/
       (common_regs_written (dev w) = false /\
        exists data, pre = calibration_trace data))).
  { cbv zeta. destruct (common_regs_written (dev w)) eqn:Eflag; cbn [negb].
    - intros _. cbn [pure fst snd]. split.
      + replace (with_common_regs_written true (dev w)) with (dev w)
          by (destruct (dev w); cbn in Eflag; now subst).
        rewrite with_dev_same. apply bus_only_refl.
      + exists []. rewrite app_nil_r. split; [reflexivity |]. now left.
    - intros Hr. destruct (write_common_regs_spec w) as [_ Hok].
      cbv zeta in Hok. destruct (Hok Hr) as (Hb & data & Hl).
      split; [exact Hb |]. exists (calibration_trace data).
      split; [exact Hl |]. right. split; [reflexivity |]. now exists data. }
  cbv zeta in H1.
  destruct ((if negb (common_regs_written (dev w)) then write_common_regs
             else pure 0) w) as [r1 w1]. cbn [fst snd] in H1.
  destruct (r1 =? 0) eqn:E1; cbn [negb];
    [apply Z.eqb_eq in E1
    | apply Z.eqb_neq in E1; cbn [fst]; intros H; now elim E1].
  destruct (H1 E1) as (Hb1 & pre & Hl1 & Hpre). clear H1.
  destruct Hb1 as (Hd1 & Hu1 & Ha1 & _).
  cbn [dev with_dev usage_count runtime_active] in Hd1, Hu1, Ha1.
  pose proof (write_regs_ok (regs (reg_list (mode_of (dev w1)))) w1) as Hl2.
  pose proof (write_regs_bus (regs (reg_list (mode_of (dev w1)))) w1) as Hb2.
  destruct (imx708_write_regs (regs (reg_list (mode_of (dev w1)))) w1)
    as [r2 w2]. cbn [fst snd] in Hl2, Hb2.
  destruct (r2 =? 0) eqn:E2; cbn [negb];
    [apply Z.eqb_eq in E2
    | apply Z.eqb_neq in E2; cbn [fst]; intros H; now elim E2].
  specialize (Hl2 E2). destruct Hb2 as (Hd2 & Hu2 & Ha2 & _).
  pose proof (write_regs_ok
                (regs (nth (link_freq_idx (dev w2)) link_freq_regs
                         {| regs := [] |})) w2) as Hl3.
  pose proof (write_regs_bus
                (regs (nth (link_freq_idx (dev w2)) link_freq_regs
                         {| regs := [] |})) w2) as Hb3.
  destruct (imx708_write_regs
              (regs (nth (link_freq_idx (dev w2)) link_freq_regs
                       {| regs := [] |})) w2) as [r3 w3].
  cbn [fst snd] in Hl3, Hb3.
  destruct (r3 =? 0) eqn:E3; cbn [negb];
    [apply Z.eqb_eq in E3
    | apply Z.eqb_neq in E3; cbn [fst]; intros H; now elim E3].
  specialize (Hl3 E3). destruct Hb3 as (Hd3 & Hu3 & Ha3 & _).
  intros _. cbv zeta. cbn [snd].
  split; [congruence |]. split; [congruence |]. split; [congruence |].
  exists pre. split; [| exact Hpre].
  rewrite Hl3, Hl2, Hl1, Hd2, Hd1. unfold mode_of.
  destruct (flag_tables true (dev w)) as (Hcm & _ & Hlf). rewrite Hcm, Hlf.
  now rewrite <- !app_assoc.
Qed.

Lemma event_reg_write (reg len v r : Z) :
  len = 1 \/ len = 2 ->
  event_reg (I2C_SEND (write_buf reg len v) r) =
  Z.land (Z.shiftr reg 8) 0xff * 256 + Z.land reg 0xff.
Proof.
  intros H. destruct (write_buf_head reg len v H) as [tl ->]. reflexivity.
Qed.

Lemma write_reg_regs (reg len v : Z) w :
  len = 1 \/ len = 2 ->
  exists e,
    log (snd (imx708_write_reg reg len v w)) = log w ++ [e] /\
    event_reg e = Z.land (Z.shiftr reg 8) 0xff * 256 + Z.land reg 0xff.
Proof.
  intros Hlen. rewrite write_reg_eq by exact Hlen. cbn [snd log with_bus].
  eexists. split; [reflexivity | now apply event_reg_write].
Qed.

Lemma set_frame_length_regs (v : Z) w :
  fst (imx708_set_frame_length v w) = 0 ->
  exists evs,
    log (snd (imx708_set_frame_length v w)) = log w ++ evs /\
    map event_reg evs = [IMX708_REG_FRAME_LENGTH; IMX708_LONG_EXP_SHIFT_REG].
Proof.
  unfold imx708_set_frame_length.
  destruct (frame_length_loop 32 0 v) as [shift val_].
  unfold bind, modify_dev, pure.
  set (w1 := with_dev (with_long_exp_shift shift (dev w)) w).
  destruct (write_reg_regs IMX708_REG_FRAME_LENGTH IMX708_REG_VALUE_16BIT
              val_ w1 (or_intror eq_refl)) as (e1 & H1 & R1).
  destruct (imx708_write_reg IMX708_REG_FRAME_LENGTH IMX708_REG_VALUE_16BIT
              val_ w1) as [r w2]. cbn [snd] in H1.
  destruct (r =? 0) eqn:E; cbn [negb].
  2: { cbn [fst]. intros H. apply Z.eqb_neq in E. now elim E. }
  destruct (write_reg_regs IMX708_LONG_EXP_SHIFT_REG IMX708_REG_VALUE_08BIT
              shift w2 (or_introl eq_refl)) as (e2 & H2 & R2).
  intros _. exists [e1; e2]. split.
  - rewrite H2, H1. unfold w1. cbn [log with_dev]. now rewrite <- app_assoc.
  - cbn [map]. rewrite R1, R2. reflexivity.
Qed.

Lemma set_ctrl_apply_regs (id : v4l2_cid) w :
  fst (set_ctrl_apply id w) = 0 ->
  exists evs,
    log (snd (set_ctrl_apply id w)) = log w ++ evs /\
    map event_reg evs = ctrl_regs id.
Proof.
  assert (Hone : forall reg len v,
            len = 1 \/ len = 2 ->
            Z.land (Z.shiftr reg 8) 0xff * 256 + Z.land reg 0xff = reg ->
            exists evs,
              log (snd (imx708_write_reg reg len v w)) = log w ++ evs /\
              map event_reg evs = [reg]).
  { intros reg len v Hlen Hreg.
    destruct (write_reg_regs reg len v w Hlen) as (e & H & R).
    exists [e]. split; [exact H |]. cbn [map]. now rewrite R, Hreg. }
  unfold set_ctrl_apply, bind, get_dev.
  destruct id; intros Hret;
    try (apply Hone; [(now left) || (now right) | reflexivity]);
    try (exfalso; revert Hret; unfold pure; cbn [fst]; discriminate).
  - now apply set_frame_length_regs.
  - unfold imx708_set_analogue_gain, bind, pure.
    destruct (Hone IMX708_REG_ANALOG_GAIN IMX708_REG_VALUE_16BIT
                (u32 (val (ctrl_of (dev w) V4L2_CID_ANALOGUE_GAIN)))
                (or_intror eq_refl) eq_refl) as (evs & H & R).
    destruct (imx708_write_reg _ _ _ w) as [r w1]. cbn [snd] in *.
    exists evs. now split.
Qed.

Lemma set_ctrl_regs (id : v4l2_cid) w :
  in_use w = true -> fst (imx708_set_ctrl id w) = 0 ->
  exists evs,
    log (snd (imx708_set_ctrl id w)) = log w ++ evs /\
    map event_reg evs = ctrl_regs id.
Proof.
  intros Hin. pose proof (set_ctrl_eq id w) as Heq. cbv zeta in Heq.
  rewrite Heq, Hin. clear Heq. cbn [fst snd]. intros Hret.
  assert (Hadj : log (snd (set_ctrl_adjust id w)) = log w)
    by (unfold set_ctrl_adjust; destruct id; reflexivity).
  destruct (set_ctrl_apply_regs id _ Hret) as (evs & Hl & Hr).
  exists evs. cbn [log with_usage_count] in *. rewrite Hl, Hadj.
  now split.
Qed.

(** A replay that succeeds while power is in use writes the registers of
    every control, in the order of the list. *)
Lemma ctrl_replay_regs (ids : list v4l2_cid) w :
  in_use w = true -> fst (ctrl_replay ids w) = 0 ->
  exists evs,
    log (snd (ctrl_replay ids w)) = log w ++ evs /\
    map event_reg evs = flat_map ctrl_regs ids.
Proof.
  revert w. induction ids as [| id ids IH]; intros w Hin.
  - intros _. exists []. cbn. now rewrite app_nil_r.
  - cbn [ctrl_replay flat_map].
    pose proof (set_ctrl_regs id w Hin) as H1.
    pose proof (set_ctrl_frame id w) as Hf.
    destruct (imx708_set_ctrl id w) as [ret w1]. cbn [fst snd] in H1, Hf.
    destruct (ret =? 0) eqn:E; cbn [negb];
      [apply Z.eqb_eq in E
      | apply Z.eqb_neq in E; cbn [fst]; intros H; now elim E].
    intros Hret. destruct (H1 E) as (e1 & Hl1 & R1).
    assert (Hin1 : in_use w1 = true).
    { destruct Hf as (_ & Hu & Ha & _). unfold in_use in *.
      now rewrite Hu, Ha. }
    destruct (IH w1 Hin1 Hret) as (e2 & Hl2 & R2).
    exists (e1 ++ e2).
    split; [now rewrite Hl2, Hl1, app_assoc | now rewrite map_app, R1, R2].
Qed.

(** A stream start that succeeds: the bus trace, step by step. *)
Lemma start_streaming_trace w :
  fst (imx708_start_streaming w) = 0 ->
  let w' := snd (imx708_start_streaming w) in
  let w3 := before_replay w in
  let replay := new_events w3 (snd (__v4l2_ctrl_handler_setup w3)) in
  fst (__v4l2_ctrl_handler_setup w3) = 0 /\
  (exists pre,
     new_events w w' =
       pre ++
       regs_trace (regs (reg_list (mode_of (dev w)))) ++
       regs_trace (regs (nth (link_freq_idx (dev w)) link_freq_regs
                           {| regs := [] |})) ++
       replay ++ [ I2C_SEND [0x01; 0x00; 0x01] 3 ] /\
     new_events w w3 =
       pre ++
       regs_trace (regs (reg_list (mode_of (dev w)))) ++
       regs_trace (regs (nth (link_freq_idx (dev w)) link_freq_regs
                           {| regs := [] |})) /\
     ((common_regs_written (dev w) = true /\ pre = []) \/
      (common_regs_written (dev w) = false /\
       exists data, pre = calibration_trace data))) /\
  (in_use w = true ->
   map event_reg replay =
     [0x0340; 0x3100; 0x0202; 0x0204; 0x020E; 0x0101; 0x0600; 0x0602;
      0x0604; 0x0606; 0x0608]).
Proof.
  rewrite start_streaming_split.
  pose proof (start_prefix_ok w) as Hpre. cbv zeta in Hpre.
  unfold before_replay in *.
  destruct (run_until_failure (firstn 3 start_steps) w) as [r3 w3].
  cbn [fst snd] in *.
  destruct (r3 =? 0) eqn:E3; cbn [negb];
    [apply Z.eqb_eq in E3
    | apply Z.eqb_neq in E3; cbn [fst]; intros H; now elim E3].
  destruct (Hpre E3) as (Hd3 & Hu3 & Ha3 & pre & Hl3 & Hcase). clear Hpre.
  pose proof (ctrl_replay_frame replay_order w3) as Hf4.
  pose proof (ctrl_replay_regs replay_order w3) as Hregs.
  unfold __v4l2_ctrl_handler_setup in *.
  destruct (ctrl_replay replay_order w3) as [r4 w4]. cbn [fst snd] in *.
  destruct (r4 =? 0) eqn:E4; cbn [negb];
    [apply Z.eqb_eq in E4
    | apply Z.eqb_neq in E4; cbn [fst]; intros H; now elim E4].
  intros Hr5.
  pose proof (write_reg_ok IMX708_REG_MODE_SELECT IMX708_REG_VALUE_08BIT
                IMX708_MODE_STREAMING w4 (or_introl eq_refl) Hr5) as Hl5.
  destruct Hf4 as (_ & _ & _ & mid & Hl4).
  assert (Hmid : new_events w3 w4 = mid)
    by (unfold new_events; rewrite Hl4; apply skipn_app_exact).
  cbv zeta. rewrite Hmid. split; [exact E4 |]. split.
  - exists pre. split; [| split; [| exact Hcase]].
    + unfold new_events. rewrite Hl5, Hl4, Hl3, <- !app_assoc.
      apply skipn_app_exact.
    + unfold new_events. rewrite Hl3. apply skipn_app_exact.
  - intros Hin.
    assert (Hin3 : in_use w3 = true)
      by (unfold in_use in *; now rewrite Hu3, Ha3).
    destruct (Hregs Hin3 E4) as (evs & Hl & Hr).
    rewrite Hl4 in Hl. apply app_inv_head in Hl. subst evs. exact Hr.
Qed.

(** X14.  What a successful stream start leaves behind.  When
    [imx708_set_stream(1)] on a device in standby returns 0, the device is
    streaming, both flip controls are frozen, one more power usage is
    held, the calibration flag is set and the mode is the one it was; the
    bus has seen, in this order, the common-register sequence (only if the
    calibration flag was unset), every register of the current mode's
    list, the registers of the board's link frequency, the messages of the
    control replay -- what [__v4l2_ctrl_handler_setup] sends from the
    state the first three steps leave, and it returns 0 -- and last of
    all the stream-on write [01 00 01].  With the sensor powered the
    replay writes, in this order, the frame length and the long-exposure
    shift, the exposure, the analogue and the digital gain, the
    orientation, and the test pattern with its four colours. *)
Theorem start_stream_success w :
  streaming (dev w) = false ->
  fst (imx708_set_stream 1 w) = 0 ->
  let w' := snd (imx708_set_stream 1 w) in
  let w3 := before_replay (snd (pm_runtime_get_sync w)) in
  let replay := new_events w3 (snd (__v4l2_ctrl_handler_setup w3)) in
  streaming (dev w') = true /\
  grabbed (hflip (dev w')) = true /\ grabbed (vflip (dev w')) = true /\
  usage_count w' = S (usage_count w) /\
  common_regs_written (dev w') = true /\
  cur_mode (dev w') = cur_mode (dev w) /\
  fst (__v4l2_ctrl_handler_setup w3) = 0 /\
  (exists pre,
     new_events w w' =
       pre ++
       regs_trace (regs (reg_list (mode_of (dev w)))) ++
       regs_trace (regs (nth (link_freq_idx (dev w)) link_freq_regs
                           {| regs := [] |})) ++
       replay ++ [ I2C_SEND [0x01; 0x00; 0x01] 3 ] /\
     new_events w w3 =
       pre ++
       regs_trace (regs (reg_list (mode_of (dev w)))) ++
       regs_trace (regs (nth (link_freq_idx (dev w)) link_freq_regs
                           {| regs := [] |})) /\
     ((common_regs_written (dev w) = true /\ pre = []) \/
      (common_regs_written (dev w) = false /\
       exists data, pre = calibration_trace data))) /\
  (runtime_active w' = true ->
   map event_reg replay =
     [0x0340; 0x3100; 0x0202; 0x0204; 0x020E; 0x0101; 0x0600; 0x0602;
      0x0604; 0x0606; 0x0608]).
Proof.
  intros Hs. unfold imx708_set_stream, bind, get_dev. rewrite Hs.
  cbn [Z.b2z Z.eqb negb].
  destruct (get_sync_spec w) as (Hd0 & Hu0 & Hl0). cbv zeta in Hd0, Hu0, Hl0.
  destruct (pm_runtime_get_sync w) as [r0 w0]. cbn [snd] in Hd0, Hu0, Hl0.
  cbn [snd].
  destruct (r0 <? 0) eqn:E0.
  { apply Z.ltb_lt in E0.
    destruct (pm_runtime_put_noidle w0) as [[] wn]. cbn [pure fst]. lia. }
  pose proof (start_streaming_ok w0) as Hok.
  pose proof (start_streaming_trace w0) as Htr.
  destruct (imx708_start_streaming w0) as [r w5]. cbn [fst snd] in Hok, Htr.
  destruct (r =? 0) eqn:Er; cbn [negb];
    [apply Z.eqb_eq in Er
    | apply Z.eqb_neq in Er;
      destruct (pm_runtime_put w5) as [[] wp]; cbn [pure fst];
      intros H; now elim Er].
  intros _. destruct (Hok Er) as (Hc5 & (Hcm5 & _) & _ & _ & _ & Hu5 & Ha5 & _).
  destruct (Htr Er) as (Hr4 & (pre & Hev & Hev3 & Hpre) & Hregs).
  clear Hok Htr.
  destruct (set_stream_commit_spec 1 r w5) as (_ & Hc & Hu & Hl & Ha).
  destruct (set_stream_commit_fields 1 r w5)
    as (Hst & Hgh & Hgv & _ & _ & (Hcm & _) & _).
  cbv zeta in *. change (negb (1 =? 0)) with true in *.
  split; [exact Hst |]. split; [exact Hgh |]. split; [exact Hgv |].
  split; [congruence |]. split; [congruence |]. split; [congruence |].
  split; [exact Hr4 |]. split.
  - exists pre. unfold new_events in *. rewrite Hl, <- Hl0, <- Hd0.
    split; [exact Hev |]. split; [exact Hev3 |]. exact Hpre.
  - intros Hact. apply Hregs. unfold in_use.
    rewrite <- Ha5, <- Ha, Hact, Hu0. reflexivity.
Qed.

(** ** Power requests *)

(** X15.  [imx708_s_power] keeps the power usage balanced.  A request for
    the state the device is in returns 0 and changes nothing.  Switching
    on takes one power usage and sets [power_on], unless the power-up
    fails: then the error is returned, the usage is given back and
    [power_on] stays unset.  Switching off cannot fail: it returns 0,
    gives one usage back and clears [power_on].  No request touches the
    bus, the streaming flag or the mode. *)
Theorem s_power_balanced (on : Z) w :
  let ret := fst (imx708_s_power on w) in
  let w' := snd (imx708_s_power on w) in
  (power_on (dev w) = negb (on =? 0) -> imx708_s_power on w = (0, w)) /\
  (power_on (dev w) = false -> on <> 0 ->
   (ret < 0 /\ power_on (dev w') = false /\
    usage_count w' = usage_count w) \/
   (0 <= ret /\ power_on (dev w') = true /\
    usage_count w' = S (usage_count w))) /\
  (power_on (dev w) = true -> on = 0 ->
   ret = 0 /\ power_on (dev w') = false /\
   usage_count w' = Nat.pred (usage_count w)) /\
  log w' = log w /\ streaming (dev w') = streaming (dev w) /\
  cur_mode (dev w') = cur_mode (dev w).
Proof.
  cbv zeta. unfold imx708_s_power, bind, get_dev.
  destruct (get_sync_spec w) as (Hd0 & Hu0 & Hl0).
  destruct (put_spec w) as (Hdp & Hup & Hlp).
  cbv zeta in Hd0, Hu0, Hl0, Hdp, Hup, Hlp.
  destruct (power_on (dev w)) eqn:Epo; destruct (on =? 0) eqn:Eon;
    cbn [Bool.eqb negb];
    [apply Z.eqb_eq in Eon | apply Z.eqb_neq in Eon
    | apply Z.eqb_eq in Eon | apply Z.eqb_neq in Eon].
  - (* on, asked off *)
    destruct (pm_runtime_put w) as [[] w1]. cbn [snd] in Hdp, Hup, Hlp.
    unfold modify_dev, pure. cbn [fst snd dev log with_dev].
    split; [intros H; discriminate H |].
    split; [intros H; discriminate H |].
    split.
    { intros _ _. split; [reflexivity |].
      split; [destruct (dev w1); reflexivity | exact Hup]. }
    split; [exact Hlp |].
    destruct Hdp as [-> | ->]; destruct (dev w); split; reflexivity.
  - (* on, asked on *)
    cbn [pure fst snd].
    split; [reflexivity |]. split; [intros H; discriminate H |].
    split; [intros _ H; contradiction |]. repeat split; reflexivity.
  - (* off, asked off *)
    cbn [pure fst snd].
    split; [reflexivity |]. split; [intros _ H; contradiction |].
    split; [intros H; discriminate H |]. repeat split; reflexivity.
  - (* off, asked on *)
    destruct (pm_runtime_get_sync w) as [r w1]. cbn [snd] in Hd0, Hu0, Hl0.
    split; [intros H; discriminate H |].
    destruct (r <? 0) eqn:Er;
      [apply Z.ltb_lt in Er | apply Z.ltb_ge in Er].
    + unfold pm_runtime_put_noidle, pure.
      cbn [fst snd dev log usage_count with_usage_count].
      rewrite Hd0, Hu0, Hl0, Epo.
      split; [intros _ _; left; split; [exact Er | split; reflexivity] |].
      split; [intros H; discriminate H |]. repeat split; reflexivity.
    + unfold modify_dev, pure. cbn [fst snd dev log usage_count with_dev].
      rewrite Hd0, Hu0, Hl0.
      split.
      { intros _ _. right. split; [exact Er |].
        split; [destruct (dev w); reflexivity | reflexivity]. }
      split; [intros H; discriminate H |].
      destruct (dev w); repeat split; reflexivity.
Qed.

(** ** System sleep *)

(** X16.  Suspend and resume.  [imx708_suspend] always returns 0 and
    changes nothing of the device structure or the power usage; it sends
    the standby write exactly when the device is streaming, so the
    streaming flag survives the sleep.  [imx708_resume] of a device that
    is not streaming does nothing.  For a streaming device it reruns the
    stream start and returns its result.  When the start succeeds the
    device is left as the start left it: the bus has seen the
    common-register sequence (only if the calibration flag was unset), the
    mode's registers, the link frequency's, the control replay and the
    stream-on write [01 00 01].  When it fails the bus has seen what the
    start sent, then the standby write [01 00 00], and the streaming flag
    is cleared, while the power usage stays held and the flip controls
    keep the state they had. *)
Theorem suspend_resume_spec w :
  let ws := snd (imx708_suspend w) in
  let ret := fst (imx708_resume w) in
  let wr := snd (imx708_resume w) in
  let start := imx708_start_streaming w in
  let w3 := before_replay w in
  let replay := new_events w3 (snd (__v4l2_ctrl_handler_setup w3)) in
  (fst (imx708_suspend w) = 0 /\ dev ws = dev w /\
   usage_count ws = usage_count w /\
   (streaming (dev w) = false -> ws = w) /\
   (streaming (dev w) = true ->
    exists r, new_events w ws = [ I2C_SEND [0x01; 0x00; 0x00] r ])) /\
  (streaming (dev w) = false -> imx708_resume w = (0, w)) /\
  (streaming (dev w) = true ->
   ret = fst start /\
   usage_count wr = usage_count w /\
   hflip (dev wr) = hflip (dev w) /\ vflip (dev wr) = vflip (dev w) /\
   (ret = 0 ->
    wr = snd start /\
    streaming (dev wr) = true /\ common_regs_written (dev wr) = true /\
    fst (__v4l2_ctrl_handler_setup w3) = 0 /\
    (exists pre,
       new_events w wr =
         pre ++
         regs_trace (regs (reg_list (mode_of (dev w)))) ++
         regs_trace (regs (nth (link_freq_idx (dev w)) link_freq_regs
                             {| regs := [] |})) ++
         replay ++ [ I2C_SEND [0x01; 0x00; 0x01] 3 ] /\
       ((common_regs_written (dev w) = true /\ pre = []) \/
        (common_regs_written (dev w) = false /\
         exists data, pre = calibration_trace data))) /\
    (in_use w = true ->
     map event_reg replay =
       [0x0340; 0x3100; 0x0202; 0x0204; 0x020E; 0x0101; 0x0600; 0x0602;
        0x0604; 0x0606; 0x0608])) /\
   (ret <> 0 ->
    streaming (dev wr) = false /\
    dev wr = with_streaming false (dev (snd start)) /\
    exists r,
      new_events w wr =
        new_events w (snd start) ++ [ I2C_SEND [0x01; 0x00; 0x00] r ])).
Proof.
  cbv zeta. unfold imx708_suspend, imx708_resume, bind, get_dev.
  assert (Hstop : forall w0,
            let w1 := snd (imx708_stop_streaming w0) in
            dev w1 = dev w0 /\ usage_count w1 = usage_count w0 /\
            exists r, log w1 = log w0 ++ [ I2C_SEND [0x01; 0x00; 0x00] r ]).
  { intros w0. cbv zeta. unfold imx708_stop_streaming, bind, pure.
    rewrite write_reg_eq by (left; reflexivity). cbn [snd dev usage_count
      log with_bus]. repeat split. eexists. reflexivity. }
  destruct (streaming (dev w)) eqn:Es.
  - split.
    + destruct (Hstop w) as (Hd & Hu & r & Hl). cbv zeta in Hd, Hu, Hl.
      destruct (imx708_stop_streaming w) as [[] w1]. cbn [snd] in Hd, Hu, Hl.
      cbn [pure fst snd]. split; [reflexivity |]. split; [exact Hd |].
      split; [exact Hu |]. split; [intros H; discriminate H |].
      intros _. exists r. unfold new_events. rewrite Hl.
      apply skipn_app_exact.
    + split; [intros H; discriminate H |]. intros _.
      pose proof (start_streaming_ok w) as Hok.
      pose proof (start_streaming_trace w) as Htr.
      destruct (start_streaming_spec w)
        as (Hs1 & Hh1 & Hv1 & Hu1 & _ & (evs & Hl1) & _).
      cbv zeta in Hok, Htr, Hs1, Hh1, Hv1, Hu1, Hl1.
      destruct (imx708_start_streaming w) as [r w1].
      cbn [fst snd] in Hok, Htr, Hs1, Hh1, Hv1, Hu1, Hl1. cbn [fst snd].
      destruct (r =? 0) eqn:Er; cbn [negb];
        [apply Z.eqb_eq in Er | apply Z.eqb_neq in Er].
      * cbn [pure fst snd]. destruct (Hok Er) as (Hc & _).
        destruct (Htr Er) as (Hr4 & (pre & Hev & _ & Hpre) & Hregs).
        split; [now symmetry |].
        split; [exact Hu1 |]. split; [exact Hh1 |]. split; [exact Hv1 |].
        split; [| intros H; now elim H]. intros _.
        split; [reflexivity |]. split; [congruence |]. split; [exact Hc |].
        split; [exact Hr4 |]. split; [| exact Hregs].
        exists pre. split; [exact Hev | exact Hpre].
      * destruct (Hstop w1) as (Hd2 & Hu2 & r2 & Hl2).
        cbv zeta in Hd2, Hu2, Hl2.
        destruct (imx708_stop_streaming w1) as [[] w2].
        cbn [snd] in Hd2, Hu2, Hl2.
        unfold modify_dev, pure. cbn [fst snd dev usage_count log with_dev].
        rewrite Hd2.
        split; [reflexivity |].
        split; [congruence |].
        split; [rewrite <- Hh1; destruct (dev w1); reflexivity |].
        split; [rewrite <- Hv1; destruct (dev w1); reflexivity |].
        split; [intros H; contradiction |]. intros _.
        split; [destruct (dev w1); reflexivity |].
        split; [reflexivity |].
        exists r2. unfold new_events. cbn [log with_dev].
        rewrite Hl2, Hl1, <- app_assoc, !skipn_app_exact. reflexivity.
  - cbn [pure fst snd]. split.
    + split; [reflexivity |]. split; [reflexivity |]. split; [reflexivity |].
      split; [reflexivity |]. intros H. discriminate H.
    + split; [reflexivity |]. intros H. discriminate H.
Qed.

(** ** Module identification *)

Lemma read_reg_eq (reg len : Z) w :
  len <= 4 ->
  let addr_buf := [ Z.land (Z.shiftr reg 8) 0xff; Z.land reg 0xff ] in
  let t := i2c_transfer (hw w) addr_buf len in
  imx708_read_reg reg len w =
  (if fst (snd t) =? 2
   then (0, get_unaligned_be32 (data_buf len (snd (snd t))))
   else (- EIO, 0),
   with_bus (fst t) (I2C_XFER addr_buf len (fst (snd t)) (snd (snd t))) w).
Proof.
  intros Hlen. cbv zeta. unfold imx708_read_reg.
  replace (len >? 4) with false
    by (symmetry; rewrite Z.gtb_ltb; apply Z.ltb_ge; lia).
  destruct (i2c_transfer (hw w) _ len) as [h [r data]]. cbn [fst snd].
  now destruct (r =? 2).
Qed.

(** X17.  [imx708_identify_module] accepts a sensor exactly when the
    two-byte read of register 0x0016 completes and decodes, high byte
    first, to 0x0708.  A read that does not complete and a different id
    both give [-EIO] after that single transfer.  An accepted sensor is
    asked for its module id at register 0x0000 as well, and the outcome
    of that second read does not matter.  Only the bus is touched. *)
Theorem identify_module_spec w :
  let ret := fst (imx708_identify_module w) in
  let w' := snd (imx708_identify_module w) in
  bus_only w w' /\
  exists r data,
    let first := I2C_XFER [0x00; 0x16] 2 r data in
    let id := get_unaligned_be32 (data_buf 2 data) in
    (ret = 0 <-> r = 2 /\ id = IMX708_CHIP_ID) /\
    (ret <> 0 -> ret = - EIO /\ new_events w w' = [first]) /\
    (ret = 0 ->
     exists r2 data2,
       new_events w w' = [first; I2C_XFER [0x00; 0x00] 2 r2 data2]) /\
    (forall hi lo, data = [hi; lo] -> id = hi mod 256 * 256 + lo mod 256).
Proof.
  cbv zeta. split.
  { unfold imx708_identify_module, bind.
    pose proof (read_reg_bus IMX708_REG_CHIP_ID IMX708_REG_VALUE_16BIT w)
      as H1.
    destruct (imx708_read_reg IMX708_REG_CHIP_ID IMX708_REG_VALUE_16BIT w)
      as [[ret val_] w1]. cbn [snd] in H1.
    destruct (negb (ret =? 0)); [exact H1 |].
    destruct (negb (val_ =? IMX708_CHIP_ID)); [exact H1 |].
    pose proof (read_reg_bus 0 IMX708_REG_VALUE_16BIT w1) as H2.
    destruct (imx708_read_reg 0 IMX708_REG_VALUE_16BIT w1) as [rv w2].
    cbn [snd pure] in *. eapply bus_only_trans; eassumption. }
  unfold imx708_identify_module, bind.
  rewrite (read_reg_eq IMX708_REG_CHIP_ID IMX708_REG_VALUE_16BIT w)
    by (now compute).
  change [Z.land (Z.shiftr IMX708_REG_CHIP_ID 8) 255;
          Z.land IMX708_REG_CHIP_ID 255] with [0x00; 0x16].
  change IMX708_REG_VALUE_16BIT with 2.
  destruct (i2c_transfer (hw w) [0x00; 0x16] 2) as [h [r data]].
  cbn [fst snd]. exists r, data.
  set (w1 := with_bus h (I2C_XFER [0; 22] 2 r data) w).
  assert (Hdec : forall hi lo, data = [hi; lo] ->
            get_unaligned_be32 (data_buf 2 data) =
            hi mod 256 * 256 + lo mod 256).
  { intros hi lo ->. unfold data_buf.
    change (Z.to_nat (4 - 2)) with 2%nat. change (Z.to_nat 2) with 2%nat.
    cbn [repeat map app firstn].
    rewrite get_unaligned_be32_bytes
      by (try (apply Z.mod_pos_bound); lia). lia. }
  assert (Hnew : new_events w w1 = [I2C_XFER [0; 22] 2 r data]).
  { unfold new_events, w1. cbn [log with_bus]. apply skipn_app_exact. }
  destruct (r =? 2) eqn:Er; [apply Z.eqb_eq in Er | apply Z.eqb_neq in Er].
  - cbn [Z.eqb negb].
    destruct (get_unaligned_be32 (data_buf 2 data) =? IMX708_CHIP_ID) eqn:Ev;
      [apply Z.eqb_eq in Ev | apply Z.eqb_neq in Ev]; cbn [negb].
    + rewrite (read_reg_eq 0 2 w1) by lia.
      change [Z.land (Z.shiftr 0 8) 255; Z.land 0 255] with [0x00; 0x00].
      destruct (i2c_transfer (hw w1) [0x00; 0x00] 2) as [h2 [r2 data2]].
      cbn [fst snd pure].
      split; [split; [intros _; now split | reflexivity] |].
      split; [intros H; now elim H |].
      split; [| exact Hdec].
      intros _. exists r2, data2. unfold new_events, w1.
      cbn [log with_bus]. rewrite <- app_assoc. apply skipn_app_exact.
    + cbn [pure fst snd].
      split; [split; [intros H; discriminate H | intros [_ H]; now elim Ev] |].
      split; [intros _; now split |].
      split; [intros H; discriminate H | exact Hdec].
  - replace (negb (- EIO =? 0)) with true by reflexivity.
    cbn [pure fst snd].
    split; [split; [intros H; discriminate H | intros [H _]; now elim Er] |].
    split; [intros _; now split |].
    split; [intros H; discriminate H | exact Hdec].
Qed.

(** ** Exposure against the frame length *)

Lemma exposure_min_le_height (i : nat) :
  exposure_lines_min (supported_mode i) <= height (supported_mode i).
Proof.
  destruct (supported_mode_cases i) as [-> | [-> | [-> | ->]]];
    vm_compute; congruence.
Qed.

Lemma adjust_exposure_range_fields (d : imx708) :
  cur_mode (imx708_adjust_exposure_range d) = cur_mode d /\
  vblank (imx708_adjust_exposure_range d) = vblank d /\
  long_exp_shift (imx708_adjust_exposure_range d) = long_exp_shift d.
Proof. destruct d. cbn. tauto. Qed.

(** The device structure after a vblank change while power is in use. *)
Lemma set_ctrl_vblank_dev w :
  in_use w = true ->
  dev (snd (imx708_set_ctrl V4L2_CID_VBLANK w)) =
  with_long_exp_shift
    (fst (frame_length_loop 32 0
            (u32 (height (mode_of (dev w)) + u32 (val (vblank (dev w)))))))
    (imx708_adjust_exposure_range (dev w)).
Proof.
  intros Hin. pose proof (set_ctrl_eq V4L2_CID_VBLANK w) as Heq.
  cbv zeta in Heq. rewrite Heq, Hin. clear Heq.
  change (snd (set_ctrl_adjust V4L2_CID_VBLANK w))
    with (with_dev (imx708_adjust_exposure_range (dev w)) w).
  set (w2 := with_usage_count _ _).
  cbn [snd dev with_usage_count].
  unfold set_ctrl_apply, bind, get_dev.
  destruct (set_frame_length_bus
              (u32 (height (mode_of (dev w2)) +
                    u32 (val (ctrl_of (dev w2) V4L2_CID_VBLANK)))) w2)
    as (Hd & _).
  rewrite Hd. unfold w2. cbn [dev with_dev with_usage_count ctrl_of].
  destruct (adjust_exposure_range_fields (dev w)) as (Hcm & Hvb & _).
  unfold mode_of. now rewrite Hcm, Hvb.
Qed.

(** X18.  An exposure inside the range never overflows its register.
    After a vblank value inside the legal range of the mode was applied
    while power is in use, the long-exposure shift is at most 7 and the
    halved frame length fits 16 bits; and for every exposure request up
    to the maximum the vblank change has just computed, the value
    [imx708_set_exposure] writes (clamped, rounded, shifted) is at most
    the halved frame length, so the two payload bytes of the message
    [02 02 hi lo] hold it in full. *)
Theorem exposure_fits_register w (e : Z) :
  let mode := mode_of (dev w) in
  let v := val (vblank (dev w)) in
  in_use w = true ->
  vblank_min mode <= v <= vblank_max mode ->
  let w1 := snd (imx708_set_ctrl V4L2_CID_VBLANK w) in
  let shift := long_exp_shift (dev w1) in
  0 <= e <= maximum (exposure (dev w1)) ->
  let x := exposure_resolved mode shift e in
  maximum (exposure (dev w1)) = frame_length_of mode v - IMX708_EXPOSURE_OFFSET /\
  0 <= shift <= IMX708_LONG_EXP_SHIFT_MAX /\
  frame_length_of mode v / 2 ^ shift <= IMX708_FRAME_LENGTH_MAX /\
  0 <= x <= frame_length_of mode v / 2 ^ shift /\
  exists r,
    new_events w1 (snd (imx708_set_exposure e w1)) =
      [ I2C_SEND [0x02; 0x02; x / 256; x mod 256] r ].
Proof.
  cbv zeta. intros Hin Hv.
  rewrite (set_ctrl_vblank_dev w Hin).
  set (w1 := snd (imx708_set_ctrl V4L2_CID_VBLANK w)).
  pose proof (set_ctrl_vblank_dev w Hin) as Hd1. fold w1 in Hd1.
  destruct (supported_mode_bounds (cur_mode (dev w)))
    as (Hh & Hvmin & Hemin & Hstep).
  pose proof (exposure_min_le_height (cur_mode (dev w))) as Hle.
  fold (mode_of (dev w)) in Hh, Hvmin, Hemin, Hstep, Hle.
  unfold frame_length_of, vblank_max, IMX708_LONG_EXP_SHIFT_MAX,
    IMX708_FRAME_LENGTH_MAX, IMX708_EXPOSURE_OFFSET in *.
  change (2 ^ 7) with 128 in Hv. change (2 ^ 16) with 65536 in Hh, Hemin.
  set (m := mode_of (dev w)) in *.
  set (v := val (vblank (dev w))) in *.
  assert (Htot : u32 (height m + u32 v) = height m + v).
  { rewrite (u32_small v) by (change (2 ^ 32) with 4294967296; lia).
    apply u32_small. change (2 ^ 32) with 4294967296. lia. }
  rewrite Htot in *.
  destruct (frame_length_loop_spec 32 0 (height m + v) ltac:(lia)
              ltac:(now compute)
              ltac:(change (2 ^ (16 + Z.of_nat 32)) with (2 ^ 48);
                    change (2 ^ 48) with 281474976710656; lia))
    as (k & Hk & Hloop & Hfit & Hmin).
  rewrite Z.add_0_l in Hloop. rewrite Hloop in *. cbn [fst] in *.
  rewrite long_exp_shift_with.
  unfold IMX708_FRAME_LENGTH_MAX in *.
  (* the new maximum *)
  assert (Hmax : maximum (exposure (with_long_exp_shift k
                   (imx708_adjust_exposure_range (dev w)))) =
                 height m + v - 48).
  { rewrite exposure_with_long_exp_shift.
    unfold imx708_adjust_exposure_range. rewrite exposure_with_exposure.
    unfold __v4l2_ctrl_modify_range. cbn [maximum].
    fold m v. unfold IMX708_EXPOSURE_OFFSET. rewrite Htot.
    rewrite u32_small by (change (2 ^ 32) with 4294967296; lia).
    apply s32_small. change (2 ^ 31) with 2147483648. lia. }
  rewrite Hmax. intros He.
  (* the shift stays below the cap *)
  assert (Hk7 : k <= 7).
  { destruct (Z.le_gt_cases k 7) as [H | H]; [exact H | exfalso].
    specialize (Hmin ltac:(lia)).
    assert (Hpos : 0 < 2 ^ 7) by (now compute).
    assert (Hpow : 2 ^ 7 <= 2 ^ (k - 1)) by (apply Z.pow_le_mono_r; lia).
    assert (Hdiv : (height m + v) / 2 ^ (k - 1) <= (height m + v) / 2 ^ 7)
      by (apply Z.div_le_compat_l; lia).
    change (2 ^ 7) with 128 in Hdiv.
    assert ((height m + v) / 128 <= 65535)
      by (apply Z.div_le_upper_bound; lia).
    lia. }
  (* the value written *)
  set (c := Z.max e (exposure_lines_min m)).
  assert (Hc : exposure_lines_min m <= c <= height m + v) by (unfold c; lia).
  assert (Hmod : 0 <= c mod exposure_lines_step m <= c).
  { split; [apply Z.mod_pos_bound; lia | apply Z.mod_le; lia]. }
  assert (Hpow : 0 < 2 ^ k) by (apply Z.pow_pos_nonneg; lia).
  assert (Hx : 0 <= exposure_resolved m k e <= (height m + v) / 2 ^ k).
  { unfold exposure_resolved. fold c. rewrite Z.shiftr_div_pow2 by lia.
    split; [apply Z.div_pos; lia | apply Z.div_le_mono; lia]. }
  split; [reflexivity |]. split; [lia |]. split; [lia |].
  split; [exact Hx |].
  (* the message *)
  unfold imx708_set_exposure, bind, get_dev.
  rewrite write_reg_eq by (right; reflexivity).
  cbn [snd]. unfold new_events. cbn [log with_bus].
  rewrite skipn_app_exact. eexists. f_equal. f_equal.
  rewrite Hd1. rewrite long_exp_shift_with.
  assert (Hm1 : mode_of (with_long_exp_shift k
                  (imx708_adjust_exposure_range (dev w))) = m).
  { unfold m, mode_of. destruct (dev w). reflexivity. }
  rewrite Hm1. fold c.
  rewrite (u32_small (c - c mod exposure_lines_step m))
    by (change (2 ^ 32) with 4294967296; lia).
  change (Z.shiftr (c - c mod exposure_lines_step m) k)
    with (exposure_resolved m k e).
  apply write_buf_16. lia.
Qed.

(** ** Device attach *)

Lemma init_controls_fields (d : imx708) :
  let d' := imx708_init_controls d in
  cur_mode d' = cur_mode d /\ cfg_num d' = cfg_num d /\
  link_freq_idx d' = link_freq_idx d /\ streaming d' = streaming d /\
  power_on d' = power_on d /\
  common_regs_written d' = common_regs_written d /\
  minimum (vblank d') = vblank_min (mode_of d) /\
  maximum (vblank d') = vblank_max (mode_of d) /\
  default_value (vblank d') = vblank_default (mode_of d) /\
  minimum (exposure d') = IMX708_EXPOSURE_MIN /\
  val (exposure d') = IMX708_EXPOSURE_DEFAULT /\
  grabbed (hflip d') = false /\ grabbed (vflip d') = false.
Proof.
  destruct (supported_mode_bounds (cur_mode d)) as (Hh & _).
  fold (mode_of d) in Hh. change (2 ^ 16) with 65536 in Hh.
  destruct d as [ch pr ex vb hb hf vf st po cm cn cw ls lf].
  unfold mode_of in *. cbn [cur_mode] in *.
  cbn [imx708_init_controls imx708_set_framing_limits mode_of cur_mode
       cfg_num link_freq_idx streaming power_on common_regs_written
       with_ctrl_handler with_pixel_rate with_vblank with_hblank
       with_exposure with_hflip with_vflip vblank exposure hflip vflip
       __v4l2_ctrl_modify_range v4l2_ctrl_new_std set_read_only minimum
       maximum default_value val grabbed].
  repeat (split; [reflexivity |]).
  split; [| repeat split; reflexivity].
  unfold vblank_max, IMX708_LONG_EXP_SHIFT_MAX, IMX708_FRAME_LENGTH_MAX.
  unfold mode_of. cbn [cur_mode].
  change (Z.shiftl 1 7) with 128. change (2 ^ 7) with 128.
  apply u32_small. change (2 ^ 32) with 4294967296. lia.
Qed.

(** X19.  What attaching establishes.  [imx708_probe] picks as current
    mode the first catalog entry whose HDR variant is the one the device
    tree asks for (no HDR when it asks for none), and entry 0 when no
    entry has it.  A board with a lane count other than two, an
    unsupported first link frequency or a clock other than 24 MHz is
    rejected with [-EINVAL] before the sensor is powered or the bus
    used.  A successful attach has read the chip id and the module id,
    and leaves a device that is powered down, with no power usage held,
    not streaming, its calibration flag unset, its tables in range and
    the vblank range of its mode. *)
Theorem probe_establishes (cfg : board_config) (h : HW) :
  let ret := fst (imx708_probe cfg (attach h)) in
  let w' := snd (imx708_probe cfg (attach h)) in
  let hdr := match dt_hdr_mode cfg with Some m => m | None => NO_HDR end in
  ((num_data_lanes cfg <> 2 \/
    inclk_rate cfg <> IMX708_INCLK_FREQ \/
    (forall f, hd_error (link_frequencies cfg) = Some f ->
               ~ In f link_freqs)) ->
   ret = - EINVAL /\ log w' = [] /\ hw w' = h) /\
  (ret = 0 ->
   dev_ok (dev w') /\
   ((hdr_mode (mode_of (dev w')) = hdr /\
     forall j, (j < cur_mode (dev w'))%nat ->
               hdr_mode (supported_mode j) <> hdr) \/
    (cur_mode (dev w') = 0%nat /\
     forall j, (j < length supported_modes)%nat ->
               hdr_mode (supported_mode j) <> hdr)) /\
   num_data_lanes cfg = 2 /\ inclk_rate cfg = IMX708_INCLK_FREQ /\
   hd_error (link_frequencies cfg) =
     Some (nth (link_freq_idx (dev w')) link_freqs 0) /\
   usage_count w' = 0%nat /\ runtime_active w' = false /\
   streaming (dev w') = false /\ power_on (dev w') = false /\
   common_regs_written (dev w') = false /\
   minimum (vblank (dev w')) = vblank_min (mode_of (dev w')) /\
   maximum (vblank (dev w')) = vblank_max (mode_of (dev w')) /\
   exists d1 r2 d2,
     log w' = [ I2C_XFER [0x00; 0x16] 2 2 d1;
                I2C_XFER [0x00; 0x00] 2 r2 d2 ]).
Proof.
  cbv zeta.
  set (hdr := match dt_hdr_mode cfg with Some m => m | None => NO_HDR end).
  unfold imx708_probe. fold hdr.
  set (cm := match find (fun i => hdr =? hdr_mode (supported_mode i))
                     (seq 0 (length supported_modes)) with
             | Some i => i
             | None => 0%nat
             end).
  assert (Hcm : (cm < length supported_modes)%nat /\
                ((hdr_mode (supported_mode cm) = hdr /\
                  forall j, (j < cm)%nat ->
                            hdr_mode (supported_mode j) <> hdr) \/
                 (cm = 0%nat /\
                  forall j, (j < length supported_modes)%nat ->
                            hdr_mode (supported_mode j) <> hdr))).
  { unfold cm.
    destruct (find _ (seq 0 (length supported_modes))) as [i |] eqn:Ef.
    - apply find_seq_first in Ef. destruct Ef as (Hr & Hi & Hbefore).
      split; [lia |]. left. apply Z.eqb_eq in Hi. split; [now symmetry |].
      intros j Hj Hjh. specialize (Hbefore j ltac:(lia)).
      apply Z.eqb_neq in Hbefore. now apply Hbefore.
    - split; [cbn; lia |]. right. split; [reflexivity |].
      intros j Hj Hjh.
      pose proof (find_seq_none _ _ _ Ef j ltac:(lia)) as Hn.
      apply Z.eqb_neq in Hn. now apply Hn. }
  clearbody cm. destruct Hcm as (Hlt & Hchoice).
  unfold bind, get_dev, pure, modify_dev.
  cbn [snd fst dev with_dev attach kzalloc_imx708 usage_count
       runtime_active hw log].
  set (d0 := Imx708 _ _ _ _ _ _ _ false false cm _ false 0 0).
  unfold imx708_check_hwcfg.
  destruct (num_data_lanes cfg =? 2) eqn:El; cbn [negb];
    [apply Z.eqb_eq in El
    | apply Z.eqb_neq in El; cbn [fst snd Z.eqb negb log hw];
      split; [intros _; repeat split; reflexivity
             | intros H; discriminate H]].
  destruct (link_frequencies cfg) as [| f rest] eqn:Ef;
    [cbn [fst snd Z.eqb negb log hw];
     split; [intros _; repeat split; reflexivity | intros H; discriminate H]
    |].
  destruct (index_of f link_freqs 0) as [i |] eqn:Ei;
    [| cbn [fst snd Z.eqb negb log hw];
       split; [intros _; repeat split; reflexivity
              | intros H; discriminate H]].
  destruct (index_of_some _ _ _ _ Ei) as (Hi & Hnth).
  rewrite Nat.sub_0_r in Hnth.
  unfold d0. cbn [fst snd Z.eqb negb dev with_dev].
  set (d1 := Imx708 _ _ _ _ _ _ _ false false cm _ false 0 i).
  destruct (inclk_rate cfg =? IMX708_INCLK_FREQ) eqn:Ek; cbn [negb];
    [apply Z.eqb_eq in Ek
    | apply Z.eqb_neq in Ek; cbn [fst snd log hw];
      split; [intros _; repeat split; reflexivity
             | intros H; discriminate H]].
  split.
  { intros [H | [H | H]]; [contradiction | contradiction |].
    exfalso. apply (H f); [reflexivity |]. rewrite <- Hnth.
    apply nth_In. lia. }
  match goal with
  | |- context [imx708_power_on ?w0] =>
      destruct (power_on_spec w0) as (Hd1 & Hu1 & Ha1 & Hl1);
      cbv zeta in Hd1, Hu1, Ha1, Hl1;
      destruct (imx708_power_on w0) as [r1 w1]
  end.
  cbn [snd dev usage_count runtime_active log] in Hd1, Hu1, Ha1, Hl1.
  destruct (r1 =? 0) eqn:Er1; cbn [negb];
    [| apply Z.eqb_neq in Er1; cbn [fst]; intros H; now elim Er1].
  unfold imx708_identify_module, bind, pure.
  rewrite (read_reg_eq IMX708_REG_CHIP_ID IMX708_REG_VALUE_16BIT w1)
    by (now compute).
  change [Z.land (Z.shiftr IMX708_REG_CHIP_ID 8) 255;
          Z.land IMX708_REG_CHIP_ID 255] with [0x00; 0x16].
  change IMX708_REG_VALUE_16BIT with 2.
  destruct (i2c_transfer (hw w1) [0x00; 0x16] 2) as [h2 [ra da]].
  cbn [fst snd].
  set (w2 := with_bus h2 (I2C_XFER [0; 22] 2 ra da) w1).
  destruct (ra =? 2) eqn:Era;
    [apply Z.eqb_eq in Era; subst ra
    | replace (negb (- EIO =? 0)) with true by reflexivity;
      cbn [fst snd negb]; intros H; discriminate H].
  cbn [Z.eqb negb].
  destruct (get_unaligned_be32 (data_buf 2 da) =? IMX708_CHIP_ID);
    cbn [negb];
    [| replace (negb (- EIO =? 0)) with true by reflexivity;
       cbn [fst snd]; intros H; discriminate H].
  rewrite (read_reg_eq 0 2 w2) by lia.
  change [Z.land (Z.shiftr 0 8) 255; Z.land 0 255] with [0x00; 0x00].
  destruct (i2c_transfer (hw w2) [0x00; 0x00] 2) as [h3 [rb db]].
  cbn [fst snd Z.eqb negb].
  set (w3 := with_bus h3 (I2C_XFER [0; 0] 2 rb db) w2).
  intros _.
  assert (Hd3 : dev w3 = d1) by (unfold w3, w2; cbn [dev with_bus]; exact Hd1).
  assert (Hu3 : usage_count w3 = 0%nat)
    by (unfold w3, w2; cbn [usage_count with_bus]; exact Hu1).
  assert (Hl3 : log w3 = [I2C_XFER [0; 22] 2 2 da; I2C_XFER [0; 0] 2 rb db]).
  { unfold w3, w2. cbn [log with_bus]. now rewrite Hl1. }
  unfold pm_runtime_enable_idle.
  cbn [usage_count with_runtime_active]. rewrite Hu3. cbn [Nat.eqb].
  unfold imx708_power_off, bind, modify_hw, modify_dev, pure.
  cbn [fst snd dev usage_count runtime_active log hw with_dev with_hw
       with_runtime_active].
  rewrite Hd3, Hu3, Hl3.
  destruct (init_controls_fields (with_common_regs_written false d1))
    as (H1 & H2 & H3 & H4 & H5 & H6 & H7 & H8 & _).
  unfold mode_of in *. rewrite H1, H7, H8.
  unfold dev_ok. rewrite H1, H2, H3, H4, H5, H6.
  unfold d1.
  cbn [with_common_regs_written cur_mode cfg_num link_freq_idx streaming
       power_on common_regs_written].
  split; [split; [reflexivity | split; [exact Hlt | lia]] |].
  split; [exact Hchoice |]. split; [exact El |]. split; [exact Ek |].
  split; [cbn [hd_error]; now rewrite Hnth |].
  repeat (split; [reflexivity |]).
  exists da, rb, db. reflexivity.
Qed.

(** ** The tables stay in range *)

Lemma bus_only_tables w w' : bus_only w w' -> same_tables (dev w) (dev w').
Proof. intros (Hd & _). rewrite Hd. apply same_tables_refl. Qed.

Lemma start_streaming_tables w :
  same_tables (dev w) (dev (snd (imx708_start_streaming w))).
Proof.
  rewrite start_streaming_eq.
  assert (Hrun : run_until_failure start_steps w =
    let (ret, w1) := (if negb (common_regs_written (dev w))
                      then write_common_regs else pure 0) w in
    if negb (ret =? 0) then (ret, w1)
    else run_until_failure (tl start_steps) w1) by reflexivity.
  rewrite Hrun. clear Hrun.
  assert (H1 : same_tables (dev w)
                 (dev (snd ((if negb (common_regs_written (dev w))
                             then write_common_regs else pure 0) w)))).
  { destruct (common_regs_written (dev w)); cbn [negb].
    - apply same_tables_refl.
    - destruct (write_common_regs_spec w) as [Hfail Hok].
      cbv zeta in Hfail, Hok.
      destruct (Z.eq_dec (fst (write_common_regs w)) 0) as [E | E].
      + destruct (Hok E) as ((Hd & _) & _). rewrite Hd.
        cbn [dev with_dev]. apply flag_tables.
      + apply bus_only_tables. now apply Hfail. }
  destruct ((if negb (common_regs_written (dev w)) then write_common_regs
             else pure 0) w) as [r1 w1]. cbn [snd] in H1.
  destruct (negb (r1 =? 0)); [exact H1 |].
  eapply same_tables_trans; [exact H1 |].
  apply frame_tables, start_steps_tail_frame.
Qed.

Lemma put_tables w : same_tables (dev w) (dev (snd (pm_runtime_put w))).
Proof.
  destruct (put_spec w) as ([-> | ->] & _);
    [apply same_tables_refl | apply flag_tables].
Qed.

Lemma set_stream_tables (enable : Z) w :
  same_tables (dev w) (dev (snd (imx708_set_stream enable w))).
Proof.
  unfold imx708_set_stream, bind, get_dev.
  destruct (Z.b2z (streaming (dev w)) =? enable); [apply same_tables_refl |].
  destruct (negb (enable =? 0)).
  - destruct (get_sync_spec w) as (Hd0 & _). cbv zeta in Hd0.
    destruct (pm_runtime_get_sync w) as [r0 w0]. cbn [snd] in Hd0.
    destruct (r0 <? 0).
    + cbn. rewrite Hd0. apply same_tables_refl.
    + pose proof (start_streaming_tables w0) as H1. rewrite Hd0 in H1.
      destruct (imx708_start_streaming w0) as [r w1]. cbn [snd] in H1.
      destruct (negb (r =? 0)).
      * pose proof (put_tables w1) as H2.
        destruct (pm_runtime_put w1) as [[] w2]. cbn [snd pure] in *.
        eapply same_tables_trans; eassumption.
      * destruct (set_stream_commit_fields enable r w1)
          as (_ & _ & _ & _ & _ & H2 & _).
        eapply same_tables_trans; eassumption.
  - unfold imx708_stop_streaming, bind, pure.
    pose proof (write_reg_bus IMX708_REG_MODE_SELECT IMX708_REG_VALUE_08BIT
                  IMX708_MODE_STANDBY w) as H1.
    apply bus_only_tables in H1.
    destruct (imx708_write_reg _ _ _ w) as [r w1]. cbn [snd] in H1.
    pose proof (put_tables w1) as H2.
    destruct (pm_runtime_put w1) as [[] w2]. cbn [snd] in H2.
    destruct (set_stream_commit_fields enable 0 w2)
      as (_ & _ & _ & _ & _ & H3 & _).
    eapply same_tables_trans; [exact H1 |].
    eapply same_tables_trans; eassumption.
Qed.

Lemma s_power_tables (on : Z) w :
  same_tables (dev w) (dev (snd (imx708_s_power on w))).
Proof.
  unfold imx708_s_power, bind, get_dev, modify_dev, pure.
  destruct (Bool.eqb _ _); [apply same_tables_refl |].
  destruct (negb (on =? 0)).
  - destruct (get_sync_spec w) as (Hd0 & _). cbv zeta in Hd0.
    destruct (pm_runtime_get_sync w) as [r0 w0]. cbn [snd] in Hd0.
    destruct (r0 <? 0); cbn [snd dev with_dev pm_runtime_put_noidle
                             with_usage_count]; rewrite Hd0;
      unfold same_tables; destruct (dev w); cbn; tauto.
  - pose proof (put_tables w) as H1.
    destruct (pm_runtime_put w) as [[] w1]. cbn [snd dev with_dev] in *.
    eapply same_tables_trans; [exact H1 |].
    unfold same_tables. destruct (dev w1). cbn. tauto.
Qed.

Lemma resume_tables w : same_tables (dev w) (dev (snd (imx708_resume w))).
Proof.
  unfold imx708_resume, bind, get_dev, modify_dev, pure.
  destruct (streaming (dev w)); [| apply same_tables_refl].
  pose proof (start_streaming_tables w) as H1.
  destruct (imx708_start_streaming w) as [r w1]. cbn [snd] in H1.
  destruct (negb (r =? 0)); [| exact H1].
  unfold imx708_stop_streaming, bind, pure.
  pose proof (write_reg_bus IMX708_REG_MODE_SELECT IMX708_REG_VALUE_08BIT
                IMX708_MODE_STANDBY w1) as H2.
  apply bus_only_tables in H2.
  destruct (imx708_write_reg _ _ _ w1) as [r2 w2].
  cbn [snd dev with_dev] in *.
  eapply same_tables_trans; [exact H1 |].
  eapply same_tables_trans; [exact H2 |].
  unfold same_tables. destruct (dev w2). cbn. tauto.
Qed.

Lemma with_ctrl_tables (id : v4l2_cid) (c : v4l2_ctrl) (d : imx708) :
  same_tables d (with_ctrl id c d).
Proof.
  unfold same_tables, with_ctrl.
  destruct d as [ch pr ex vb hb hf vf st po cm cn cw ls lf].
  destruct ch. destruct id; cbn; tauto.
Qed.

Lemma s_ctrl_tables (id : v4l2_cid) (v : Z) w :
  same_tables (dev w) (dev (snd (v4l2_s_ctrl id v w))).
Proof.
  unfold v4l2_s_ctrl, bind, get_dev, modify_dev, pure.
  destruct (read_only _); [apply same_tables_refl |].
  destruct (grabbed _); [apply same_tables_refl |].
  cbn [snd].
  eapply same_tables_trans;
    [| apply frame_tables, set_ctrl_frame].
  cbn [dev with_dev]. apply with_ctrl_tables.
Qed.

Lemma handle_tables (r : request) w :
  dev_ok (dev w) ->
  let w' := snd (handle r w) in
  dev_ok (dev w') /\
  cfg_num (dev w') = cfg_num (dev w) /\
  link_freq_idx (dev w') = link_freq_idx (dev w) /\
  (changes_mode r = false -> cur_mode (dev w') = cur_mode (dev w)).
Proof.
  intros Hok. cbv zeta.
  assert (Hsame : forall (b : bool) w', same_tables (dev w) (dev w') ->
            dev_ok (dev w') /\ cfg_num (dev w') = cfg_num (dev w) /\
            link_freq_idx (dev w') = link_freq_idx (dev w) /\
            (b = false -> cur_mode (dev w') = cur_mode (dev w))).
  { intros b w' (Hcm & Hcn & Hlf). unfold dev_ok in *.
    rewrite Hcm, Hcn, Hlf. tauto. }
  destruct r as [id v | fmt | enable | on | cmd arg | |];
    cbn [handle changes_mode].
  - apply Hsame, s_ctrl_tables.
  - unfold imx708_set_pad_format.
    pose proof (find_best_fit_lt (dev w) fmt (proj1 Hok)) as Hlt.
    cbn [which].
    destruct (which fmt =? V4L2_SUBDEV_FORMAT_TRY); cbn [snd dev with_dev].
    + destruct (Hsame true w (same_tables_refl _)) as (H1 & H2 & H3 & _).
      rewrite ?with_dev_same. tauto.
    + destruct (set_framing_limits_fields
                  (with_cur_mode (imx708_find_best_fit (dev w) fmt) (dev w)))
        as (_ & _ & _ & _ & _ & _ & Hcm & Hcn & _ & _ & Hlf).
      destruct (with_cur_mode_fields (imx708_find_best_fit (dev w) fmt)
                  (dev w)) as (Hcm' & Hcn' & Hlf' & _).
      unfold dev_ok in *. rewrite Hcm, Hcn, Hlf, Hcm', Hcn', Hlf'.
      destruct Hok as (Hn & _ & Hl). rewrite Hn.
      change (length supported_modes) with 4%nat.
      repeat split; try assumption; try reflexivity.
      intros H; discriminate H.
  - apply Hsame, set_stream_tables.
  - apply Hsame, s_power_tables.
  - unfold imx708_ioctl.
    destruct cmd; cbn [snd dev with_dev];
      try (destruct (Hsame true w (same_tables_refl _)) as (H1 & H2 & H3 & _);
           rewrite ?with_dev_same; tauto).
    unfold hdr_cfg_loop.
    destruct (find _ (seq 0 (cfg_num (dev w)))) as [i |] eqn:Ef;
      cbn [snd dev with_dev].
    + apply find_seq_first in Ef. destruct Ef as (Hi & _).
      destruct (set_framing_limits_fields (with_cur_mode i (dev w)))
        as (_ & _ & _ & _ & _ & _ & Hcm & Hcn & _ & _ & Hlf).
      destruct (with_cur_mode_fields i (dev w)) as (Hcm' & Hcn' & Hlf' & _).
      unfold dev_ok in *. rewrite Hcm, Hcn, Hlf, Hcm', Hcn', Hlf'.
      destruct Hok as (Hn & _ & Hl).
      repeat split; try assumption; try lia.
    + destruct (Hsame true w (same_tables_refl _)) as (H1 & H2 & H3 & _).
      tauto.
  - apply Hsame. unfold imx708_suspend, bind, get_dev, pure.
    destruct (streaming (dev w)); [| apply same_tables_refl].
    unfold imx708_stop_streaming, bind, pure.
    pose proof (write_reg_bus IMX708_REG_MODE_SELECT IMX708_REG_VALUE_08BIT
                  IMX708_MODE_STANDBY w) as H1.
    apply bus_only_tables in H1.
    destruct (imx708_write_reg _ _ _ w) as [r1 w1]. exact H1.
  - apply Hsame, resume_tables.
Qed.

(** X20.  The tables stay in range.  On a device set up as the probe
    leaves it, after any sequence of requests of the host [cfg_num] and
    the link-frequency index are what they were and the current mode is
    an entry of the catalog below [cfg_num]; a sequence without format
    negotiation and HDR override leaves the current mode as it was. *)
Theorem requests_keep_tables_valid (rs : list request) w :
  dev_ok (dev w) ->
  let w' := handle_all rs w in
  dev_ok (dev w') /\
  cfg_num (dev w') = cfg_num (dev w) /\
  link_freq_idx (dev w') = link_freq_idx (dev w) /\
  (existsb changes_mode rs = false -> cur_mode (dev w') = cur_mode (dev w)).
Proof.
  revert w. induction rs as [| r rs IH]; intros w Hok; cbv zeta.
  - cbn [handle_all existsb]. repeat split; try reflexivity; apply Hok.
  - cbn [handle_all existsb].
    destruct (handle_tables r w Hok) as (Hok1 & Hcn1 & Hlf1 & Hcm1).
    destruct (IH (snd (handle r w)) Hok1) as (Hok2 & Hcn2 & Hlf2 & Hcm2).
    cbv zeta in Hcm2.
    split; [exact Hok2 |]. split; [congruence |]. split; [congruence |].
    intros H. apply orb_false_iff in H. destruct H as [Hr Hrs].
    rewrite (Hcm2 Hrs). now apply Hcm1.
Qed.

(** ** Power usage accounting *)

Lemma frame_power_on w w' :
  frame w w' -> power_on (dev w') = power_on (dev w).
Proof. intros (Hd & _). rewrite Hd. destruct (dev w). reflexivity. Qed.

Lemma flag_power_on (b : bool) (d : imx708) :
  power_on (with_common_regs_written b d) = power_on d /\
  streaming (with_common_regs_written b d) = streaming d.
Proof. destruct d. split; reflexivity. Qed.

Lemma start_streaming_power_on w :
  power_on (dev (snd (imx708_start_streaming w))) = power_on (dev w).
Proof.
  rewrite start_streaming_eq.
  assert (Hrun : run_until_failure start_steps w =
    let (ret, w1) := (if negb (common_regs_written (dev w))
                      then write_common_regs else pure 0) w in
    if negb (ret =? 0) then (ret, w1)
    else run_until_failure (tl start_steps) w1) by reflexivity.
  rewrite Hrun. clear Hrun.
  assert (H1 : power_on
                 (dev (snd ((if negb (common_regs_written (dev w))
                             then write_common_regs else pure 0) w))) =
               power_on (dev w)).
  { destruct (common_regs_written (dev w)); cbn [negb]; [reflexivity |].
    destruct (write_common_regs_spec w) as [Hfail Hok].
    cbv zeta in Hfail, Hok.
    destruct (Z.eq_dec (fst (write_common_regs w)) 0) as [E | E].
    - destruct (Hok E) as ((Hd & _) & _). rewrite Hd.
      cbn [dev with_dev]. apply flag_power_on.
    - destruct (Hfail E) as (Hd & _). now rewrite Hd. }
  destruct ((if negb (common_regs_written (dev w)) then write_common_regs
             else pure 0) w) as [r1 w1]. cbn [snd] in H1.
  destruct (negb (r1 =? 0)); [exact H1 |].
  rewrite <- H1. apply frame_power_on, start_steps_tail_frame.
Qed.

Lemma put_power_on w :
  power_on (dev (snd (pm_runtime_put w))) = power_on (dev w) /\
  streaming (dev (snd (pm_runtime_put w))) = streaming (dev w).
Proof.
  destruct (put_spec w) as ([-> | ->] & _);
    [split; reflexivity | apply flag_power_on].
Qed.

Lemma with_ctrl_power (id : v4l2_cid) (c : v4l2_ctrl) (d : imx708) :
  power_on (with_ctrl id c d) = power_on d /\
  streaming (with_ctrl id c d) = streaming d.
Proof.
  unfold with_ctrl.
  destruct d as [ch pr ex vb hb hf vf st po cm cn cw ls lf].
  destruct ch. destruct id; cbn; tauto.
Qed.

(** X22.  Every power usage the driver holds is accounted for.  If the
    usage count is one for a streaming device plus one for a device whose
    [power_on] is set, it is so again after any request of the host,
    provided a stream request carries 0 or 1 and a resume does not fail.
    (A failed resume clears the streaming flag and keeps the usage.) *)
Theorem usage_stays_balanced (r : request) w :
  usage_balanced w ->
  match r with
  | S_STREAM enable => enable = 0 \/ enable = 1
  | RESUME => streaming (dev w) = false \/ fst (imx708_resume w) = 0
  | _ => True
  end ->
  usage_balanced (snd (handle r w)).
Proof.
  unfold usage_balanced. intros Hb Hr.
  destruct r as [id v | fmt | enable | on | cmd arg | |]; cbn [handle].
  - (* a control *)
    unfold v4l2_s_ctrl, bind, get_dev, modify_dev, pure.
    destruct (read_only _); [exact Hb |].
    destruct (grabbed _); [exact Hb |].
    cbn [snd].
    match goal with
    | |- context [imx708_set_ctrl id ?w1] =>
        pose proof (set_ctrl_frame id w1) as Hf
    end.
    destruct (frame_fields _ _ Hf) as (Hs & _).
    pose proof (frame_power_on _ _ Hf) as Hp.
    destruct Hf as (_ & Hu & _).
    rewrite Hu, Hs, Hp. cbn [dev with_dev usage_count].
    match goal with
    | |- context [with_ctrl id ?c (dev w)] =>
        destruct (with_ctrl_power id c (dev w)) as (-> & ->)
    end.
    exact Hb.
  - (* format negotiation *)
    unfold imx708_set_pad_format. cbn [which].
    destruct (which fmt =? V4L2_SUBDEV_FORMAT_TRY);
      cbn [snd dev with_dev usage_count]; [exact Hb |].
    destruct (set_framing_limits_fields
                (with_cur_mode (imx708_find_best_fit (dev w) fmt) (dev w)))
      as (_ & _ & _ & _ & -> & -> & _).
    destruct (with_cur_mode_fields (imx708_find_best_fit (dev w) fmt)
                (dev w)) as (_ & _ & _ & -> & _ & _ & ->).
    exact Hb.
  - (* a stream request *)
    destruct (streaming (dev w)) eqn:Es.
    + destruct Hr as [-> | ->].
      * rewrite (set_stream_stop_eq w Es).
        set (w1 := snd (imx708_write_reg IMX708_REG_MODE_SELECT
                          IMX708_REG_VALUE_08BIT IMX708_MODE_STANDBY w)).
        destruct (write_reg_bus IMX708_REG_MODE_SELECT IMX708_REG_VALUE_08BIT
                    IMX708_MODE_STANDBY w) as (Hd1 & Hu1 & _).
        fold w1 in Hd1, Hu1.
        destruct (put_spec w1) as (_ & Hu2 & _). cbv zeta in Hu2.
        destruct (put_power_on w1) as (Hp2 & _).
        set (w2 := snd (pm_runtime_put w1)) in *.
        destruct (set_stream_commit_spec 0 0 w2) as (_ & _ & Hu3 & _).
        destruct (set_stream_commit_fields 0 0 w2)
          as (Hs3 & _ & _ & _ & _ & _ & _ & _ & Hp3 & _).
        cbv zeta in Hu3, Hs3, Hp3. rewrite Hu3, Hs3, Hp3, Hu2, Hp2, Hu1, Hd1.
        rewrite Hb. reflexivity.
      * unfold imx708_set_stream, bind, get_dev. rewrite Es.
        cbn [Z.b2z Z.eqb Pos.eqb pure snd]. rewrite Es. exact Hb.
    + destruct Hr as [-> | ->].
      * unfold imx708_set_stream, bind, get_dev. rewrite Es.
        cbn [Z.b2z Z.eqb pure snd]. rewrite Es. exact Hb.
      * unfold imx708_set_stream, bind, get_dev. rewrite Es.
        cbn [Z.b2z Z.eqb negb].
        destruct (get_sync_spec w) as (Hd0 & Hu0 & _). cbv zeta in Hd0, Hu0.
        destruct (pm_runtime_get_sync w) as [r0 w0]. cbn [snd] in Hd0, Hu0.
        destruct (r0 <? 0).
        { unfold pm_runtime_put_noidle, pure.
          cbn [snd dev usage_count with_usage_count].
          rewrite Hd0, Hu0, Es. exact Hb. }
        destruct (start_streaming_spec w0) as (Hs1 & _ & _ & Hu1 & _).
        pose proof (start_streaming_power_on w0) as Hp1.
        cbv zeta in Hs1, Hu1.
        destruct (imx708_start_streaming w0) as [r1 w1].
        cbn [snd] in Hs1, Hu1, Hp1.
        destruct (negb (r1 =? 0)).
        { destruct (put_spec w1) as (_ & Hu2 & _). cbv zeta in Hu2.
          destruct (put_power_on w1) as (Hp2 & Hs2).
          destruct (pm_runtime_put w1) as [[] w2]. cbn [snd pure] in *.
          rewrite Hu2, Hp2, Hs2, Hu1, Hs1, Hp1, Hu0, Hd0, Es. exact Hb. }
        destruct (set_stream_commit_spec 1 r1 w1) as (_ & _ & Hu3 & _).
        destruct (set_stream_commit_fields 1 r1 w1)
          as (Hs3 & _ & _ & _ & _ & _ & _ & _ & Hp3 & _).
        cbv zeta in Hu3, Hs3, Hp3.
        rewrite Hu3, Hs3, Hp3, Hu1, Hp1, Hu0, Hd0, Hb.
        reflexivity.
  - (* a power request *)
    unfold imx708_s_power, bind, get_dev, modify_dev, pure.
    destruct (power_on (dev w)) eqn:Ep; destruct (on =? 0);
      cbn [Bool.eqb negb]; try (cbn [snd]; rewrite Ep; exact Hb).
    + destruct (put_spec w) as (_ & Hu1 & _). cbv zeta in Hu1.
      destruct (put_power_on w) as (_ & Hs1).
      destruct (pm_runtime_put w) as [[] w1].
      cbn [snd dev usage_count with_dev] in *.
      rewrite Hu1, Hb.
      replace (streaming (with_power_on false (dev w1)))
        with (streaming (dev w)) by (rewrite <- Hs1; now destruct (dev w1)).
      replace (power_on (with_power_on false (dev w1))) with false
        by (now destruct (dev w1)).
      cbn [Nat.b2n]. lia.
    + destruct (get_sync_spec w) as (Hd0 & Hu0 & _). cbv zeta in Hd0, Hu0.
      destruct (pm_runtime_get_sync w) as [r0 w0]. cbn [snd] in Hd0, Hu0.
      destruct (r0 <? 0).
      * unfold pm_runtime_put_noidle.
        cbn [snd dev usage_count with_usage_count].
        rewrite ?Hd0, ?Hu0, ?Ep. exact Hb.
      * cbn [snd dev usage_count with_dev]. rewrite ?Hu0, ?Hb, ?Hd0.
        destruct (dev w); cbn in *. lia.
  - (* the HDR override and the other commands *)
    unfold imx708_ioctl.
    destruct cmd; cbn [snd dev with_dev usage_count]; try exact Hb.
    destruct (hdr_cfg_loop (dev w) arg) as [i |];
      cbn [snd dev with_dev usage_count]; [| exact Hb].
    destruct (set_framing_limits_fields (with_cur_mode i (dev w)))
      as (_ & _ & _ & _ & -> & -> & _).
    destruct (with_cur_mode_fields i (dev w))
      as (_ & _ & _ & -> & _ & _ & ->).
    exact Hb.
  - (* suspend *)
    unfold imx708_suspend, bind, get_dev, pure.
    destruct (streaming (dev w)) eqn:Es;
      [| cbn [snd]; rewrite Es; exact Hb].
    unfold imx708_stop_streaming, bind, pure.
    destruct (write_reg_bus IMX708_REG_MODE_SELECT IMX708_REG_VALUE_08BIT
                IMX708_MODE_STANDBY w) as (Hd1 & Hu1 & _).
    destruct (imx708_write_reg _ _ _ w) as [r1 w1]. cbn [snd] in *.
    rewrite Hd1, Hu1, Es. exact Hb.
  - (* resume *)
    unfold imx708_resume, bind, get_dev, pure in *.
    destruct (streaming (dev w)) eqn:Es;
      [| cbn [snd]; rewrite Es; exact Hb].
    destruct Hr as [Hr | Hr]; [discriminate Hr |].
    destruct (start_streaming_spec w) as (Hs1 & _ & _ & Hu1 & _).
    pose proof (start_streaming_power_on w) as Hp1.
    cbv zeta in Hs1, Hu1.
    destruct (imx708_start_streaming w) as [r1 w1].
    cbn [snd] in Hs1, Hu1, Hp1.
    destruct (r1 =? 0) eqn:Er; cbn [negb] in *.
    + cbn [snd]. rewrite Hu1, Hs1, Hp1, Es, Hb. reflexivity.
    + exfalso. apply Z.eqb_neq in Er.
      destruct (modify_dev (with_streaming false)
                  (snd (imx708_stop_streaming w1))) as [[] w3] eqn:Em.
      unfold imx708_stop_streaming, bind, pure in Hr, Em.
      destruct (imx708_write_reg _ _ _ w1) as [r2 w2].
      unfold modify_dev in Hr. cbn [fst] in Hr. contradiction.
Qed.

(** ** Gains and test-pattern colours *)

(** X23.  The gains and the test-pattern colours reach their registers
    untruncated.  For the analogue gain, the digital gain and the four
    test-pattern colours, every value inside the range
    [imx708_init_controls] declares for the control fits 16 bits, and
    applying the control while power is in use sends one message: the two
    address bytes of the control's register and the value, high byte
    first.  The device structure is left as it was; but for the analogue
    gain, the result is 0 exactly when the bus took all four bytes. *)
Theorem control_value_reaches_register (id : v4l2_cid) (reg : Z) w :
  ctrl_reg id = Some reg ->
  in_use w = true ->
  let v := val (ctrl_of (dev w) id) in
  let declared := ctrl_of (imx708_init_controls kzalloc_imx708) id in
  minimum declared <= v <= maximum declared ->
  let ret := fst (imx708_set_ctrl id w) in
  let w' := snd (imx708_set_ctrl id w) in
  0 <= v <= 0xFFFF /\ dev w' = dev w /\
  exists r,
    new_events w w' =
      [ I2C_SEND [reg / 256; reg mod 256; v / 256; v mod 256] r ] /\
    (id <> V4L2_CID_ANALOGUE_GAIN -> ret = if r =? 4 then 0 else - EIO).
Proof.
  intros Hreg Hin. cbv zeta. intros Hv.
  assert (Hv16 : 0 <= val (ctrl_of (dev w) id) <= 0xFFFF).
  { match type of Hv with
    | ?a <= _ <= ?b => set (lo := a) in Hv; set (hi := b) in Hv
    end.
    destruct id; try discriminate Hreg; vm_compute in lo, hi;
      subst lo hi; lia. }
  split; [exact Hv16 |].
  pose proof (set_ctrl_eq id w) as Heq. cbv zeta in Heq.
  rewrite Heq, Hin. clear Heq.
  assert (Hadj : snd (set_ctrl_adjust id w) = w)
    by (destruct id; try discriminate Hreg; reflexivity).
  rewrite Hadj. cbn [fst snd dev with_usage_count].
  set (w2 := with_usage_count (S (usage_count w)) w).
  assert (Happly :
    set_ctrl_apply id w2 =
    (let t := imx708_write_reg reg IMX708_REG_VALUE_16BIT
                (val (ctrl_of (dev w) id)) w2 in
     (match id with V4L2_CID_ANALOGUE_GAIN => 0 | _ => fst t end, snd t))).
  { unfold set_ctrl_apply, bind, get_dev.
    change (dev w2) with (dev w).
    destruct id; try discriminate Hreg; injection Hreg as <-;
      cbv zeta; try (now destruct (imx708_write_reg _ _ _ w2)).
    unfold imx708_set_analogue_gain, bind, pure.
    rewrite u32_small by (change (2 ^ 32) with 4294967296; lia).
    now destruct (imx708_write_reg _ _ _ w2). }
  rewrite Happly. cbv zeta. rewrite write_reg_eq by (right; reflexivity).
  cbn [fst snd dev with_bus]. split; [reflexivity |].
  rewrite write_buf_16 by exact Hv16.
  exists (snd (i2c_master_send (hw w2)
                 [Z.land (Z.shiftr reg 8) 255; Z.land reg 255;
                  val (ctrl_of (dev w) id) / 256;
                  val (ctrl_of (dev w) id) mod 256])).
  split.
  - unfold new_events. cbn [log with_bus with_usage_count].
    unfold w2. cbn [log with_usage_count]. rewrite skipn_app_exact.
    destruct id; try discriminate Hreg; injection Hreg as <-; reflexivity.
  - intros Hid. change (IMX708_REG_VALUE_16BIT + 2) with 4.
    destruct id; try discriminate Hreg; try (now elim Hid); reflexivity.
Qed.

End MoreProofs.

(** ** The register tables *)

(** X21.  No register table of the driver loses anything on the bus.
    Every entry of the common list, of the list of every catalog mode and
    of every link-frequency list has an address of at most 16 bits and a
    value of at most 8 bits, so the three-byte message
    [imx708_write_regs] sends for it carries the address, high byte first,
    and the value unchanged. *)
Theorem register_tables_fit (l : list imx708_reg) (r : imx708_reg) :
  In l (mode_common_regs ::
        map (fun m => regs (reg_list m)) supported_modes ++
        map regs link_freq_regs) ->
  In r l ->
  0 <= address r <= 0xFFFF /\ 0 <= reg_val r <= 0xFF /\
  write_buf (address r) IMX708_REG_VALUE_08BIT (reg_val r) =
    [ address r / 256; address r mod 256; reg_val r ].
Proof.
  intros Hl Hr.
  assert (Hall :
    forallb
      (fun l => forallb
         (fun r => (0 <=? address r) && (address r <=? 0xFFFF) &&
                   (0 <=? reg_val r) && (reg_val r <=? 0xFF)) l)
      (mode_common_regs ::
       map (fun m => regs (reg_list m)) supported_modes ++
       map regs link_freq_regs) = true) by (now vm_compute).
  rewrite forallb_forall in Hall. specialize (Hall l Hl).
  rewrite forallb_forall in Hall. specialize (Hall r Hr).
  rewrite !andb_true_iff, !Z.leb_le in Hall.
  destruct Hall as (((Ha0 & Ha1) & Hv0) & Hv1).
  split; [lia |]. split; [lia |].
  rewrite write_buf_8 by lia.
  rewrite Z.shiftr_div_pow2 by lia.
  change 0xff with (Z.ones 8). rewrite !Z.land_ones by lia.
  change (2 ^ 8) with 256.
  rewrite (Z.mod_small (address r / 256))
    by (split; [apply Z.div_pos; lia | apply Z.div_lt_upper_bound; lia]).
  reflexivity.
Qed.

(** ** Concrete runs of the further properties *)

(** The exposure register 0x0202 holding 0x1234. *)
Lemma write_read_round_trip_witness :
  1 <= 2 <= 4 /\
  get_unaligned_be32
    (data_buf 2 (skipn 2 (write_buf IMX708_REG_EXPOSURE 2 0x1234))) = 0x1234.
Proof.
  assert (H : 1 <= 2 <= 4) by lia.
  split; [exact H |].
  exact (proj2 (proj2 (write_read_round_trip IMX708_REG_EXPOSURE 2 0x1234 H))).
Defined.

(** A 1920x1080 request is served by the binned mode, not the HDR one. *)
Lemma find_best_fit_never_hdr_witness :
  (small (fmt_width (format (fmt_1080p MEDIA_BUS_FMT_SRGGB10_1X10))) /\
   small (fmt_height (format (fmt_1080p MEDIA_BUS_FMT_SRGGB10_1X10)))) /\
  imx708_find_best_fit sim_dev (fmt_1080p MEDIA_BUS_FMT_SRGGB10_1X10)
    <> 2%nat.
Proof.
  assert (Hw : small (fmt_width
                        (format (fmt_1080p MEDIA_BUS_FMT_SRGGB10_1X10))))
    by (vm_compute; split; [discriminate | reflexivity]).
  assert (Hh : small (fmt_height
                        (format (fmt_1080p MEDIA_BUS_FMT_SRGGB10_1X10))))
    by (vm_compute; split; [discriminate | reflexivity]).
  split; [now split |].
  exact (proj1 (find_best_fit_never_hdr sim_dev
                  (fmt_1080p MEDIA_BUS_FMT_SRGGB10_1X10) Hw Hh)).
Defined.

Lemma set_pad_format_idempotent_witness :
  (cfg_num sim_dev = length supported_modes /\
   small (fmt_width (format (fmt_1080p MEDIA_BUS_FMT_SRGGB10_1X10))) /\
   small (fmt_height (format (fmt_1080p MEDIA_BUS_FMT_SRGGB10_1X10)))) /\
  imx708_set_pad_format
    (fst (fst (imx708_set_pad_format sim_dev
                 (fmt_1080p MEDIA_BUS_FMT_SRGGB10_1X10))))
    (snd (fst (imx708_set_pad_format sim_dev
                 (fmt_1080p MEDIA_BUS_FMT_SRGGB10_1X10)))) =
  imx708_set_pad_format sim_dev (fmt_1080p MEDIA_BUS_FMT_SRGGB10_1X10).
Proof.
  assert (Hn : cfg_num sim_dev = length supported_modes) by (now vm_compute).
  assert (Hw : small (fmt_width
                        (format (fmt_1080p MEDIA_BUS_FMT_SRGGB10_1X10))))
    by (vm_compute; split; [discriminate | reflexivity]).
  assert (Hh : small (fmt_height
                        (format (fmt_1080p MEDIA_BUS_FMT_SRGGB10_1X10))))
    by (vm_compute; split; [discriminate | reflexivity]).
  split; [now repeat split |].
  exact (proj2 (set_pad_format_idempotent sim_dev
                  (fmt_1080p MEDIA_BUS_FMT_SRGGB10_1X10) Hn Hw Hh)).
Defined.

(** The size enumerated for the HDR entry, 1920x1080, is negotiable. *)
Lemma enumerated_size_is_negotiable_witness :
  (cfg_num sim_dev = length supported_modes /\
   fst (imx708_enum_frame_size sim_dev
          {| fse_index := 2; fse_code := MEDIA_BUS_FMT_SRGGB10_1X10;
             min_width := 0; max_width := 0; min_height := 0;
             max_height := 0 |}) = 0) /\
  snd (fst (imx708_set_pad_format sim_dev
              (fmt_1080p MEDIA_BUS_FMT_SRGGB10_1X10))) =
  fmt_1080p MEDIA_BUS_FMT_SRGGB10_1X10.
Proof.
  assert (Hn : cfg_num sim_dev = length supported_modes) by (now vm_compute).
  assert (He : fst (imx708_enum_frame_size sim_dev
                      {| fse_index := 2;
                         fse_code := MEDIA_BUS_FMT_SRGGB10_1X10;
                         min_width := 0; max_width := 0; min_height := 0;
                         max_height := 0 |}) = 0) by (now vm_compute).
  split; [now split |].
  exact (proj1 (proj2 (proj2 (proj2
           (enumerated_size_is_negotiable sim_dev _
              V4L2_SUBDEV_FORMAT_ACTIVE Hn He))))).
Defined.

Lemma negotiated_format_is_enumerated_witness :
  cfg_num sim_dev = length supported_modes /\
  (which (fmt_1080p MEDIA_BUS_FMT_SRGGB10_1X10) <> V4L2_SUBDEV_FORMAT_TRY ->
   width (mode_of (fst (fst (imx708_set_pad_format sim_dev
                               (fmt_1080p MEDIA_BUS_FMT_SRGGB10_1X10))))) =
   fmt_width (format (snd (fst (imx708_set_pad_format sim_dev
                                  (fmt_1080p MEDIA_BUS_FMT_SRGGB10_1X10)))))
   /\
   height (mode_of (fst (fst (imx708_set_pad_format sim_dev
                                (fmt_1080p MEDIA_BUS_FMT_SRGGB10_1X10))))) =
   fmt_height (format (snd (fst (imx708_set_pad_format sim_dev
                                   (fmt_1080p MEDIA_BUS_FMT_SRGGB10_1X10)))))
   /\
   bus_fmt (mode_of (fst (fst (imx708_set_pad_format sim_dev
                                 (fmt_1080p MEDIA_BUS_FMT_SRGGB10_1X10))))) =
   code (format (snd (fst (imx708_set_pad_format sim_dev
                             (fmt_1080p MEDIA_BUS_FMT_SRGGB10_1X10)))))).
Proof.
  assert (Hn : cfg_num sim_dev = length supported_modes) by (now vm_compute).
  split; [exact Hn |].
  exact (proj2 (negotiated_format_is_enumerated sim_dev
                  (fmt_1080p MEDIA_BUS_FMT_SRGGB10_1X10) Hn)).
Defined.


(** Stopping a running stream. *)
Lemma stop_stream_always_succeeds_witness :
  streaming (dev (sim_streaming hw_good)) = true /\
  fst (imx708_set_stream 0 (sim_streaming hw_good)) = 0 /\
  streaming (dev (snd (imx708_set_stream 0 (sim_streaming hw_good)))) = false.
Proof.
  assert (Hs : streaming (dev (sim_streaming hw_good)) = true)
    by (now vm_compute).
  split; [exact Hs |].
  destruct (stop_stream_always_succeeds (sim_streaming hw_good) Hs)
    as (Hr & Hst & _).
  split; [exact Hr | exact Hst].
Defined.

Lemma start_stream_success_witness :
  (streaming (dev (sim_attached hw_good)) = false /\
   fst (imx708_set_stream 1 (sim_attached hw_good)) = 0) /\
  streaming (dev (snd (imx708_set_stream 1 (sim_attached hw_good)))) = true /\
  usage_count (snd (imx708_set_stream 1 (sim_attached hw_good))) =
    S (usage_count (sim_attached hw_good)) /\
  map event_reg
    (new_events
       (before_replay (snd (pm_runtime_get_sync (sim_attached hw_good))))
       (snd (__v4l2_ctrl_handler_setup
               (before_replay
                  (snd (pm_runtime_get_sync (sim_attached hw_good))))))) =
    [0x0340; 0x3100; 0x0202; 0x0204; 0x020E; 0x0101; 0x0600; 0x0602;
     0x0604; 0x0606; 0x0608].
Proof.
  assert (Hs : streaming (dev (sim_attached hw_good)) = false)
    by (now vm_compute).
  assert (Hr : fst (imx708_set_stream 1 (sim_attached hw_good)) = 0)
    by (now vm_compute).
  assert (Ha : runtime_active
                 (snd (imx708_set_stream 1 (sim_attached hw_good))) = true)
    by (now vm_compute).
  split; [now split |].
  destruct (start_stream_success (sim_attached hw_good) Hs Hr)
    as (Hst & _ & _ & Hu & _ & _ & _ & _ & Hregs).
  split; [exact Hst |]. split; [exact Hu | exact (Hregs Ha)].
Defined.

(** A vblank of 200000 lines on the full-resolution mode: the frame
    length 202592 needs two halvings, and an exposure of 150000 lines is
    written as 37500. *)
Lemma exposure_fits_register_witness :
  (in_use (with_vblank_val 200000 (sim_powered hw_good)) = true /\
   vblank_min (mode_of (dev (with_vblank_val 200000 (sim_powered hw_good))))
     <= val (vblank (dev (with_vblank_val 200000 (sim_powered hw_good))))
     <= vblank_max
          (mode_of (dev (with_vblank_val 200000 (sim_powered hw_good)))) /\
   0 <= 150000
     <= maximum
          (exposure
             (dev (snd (imx708_set_ctrl V4L2_CID_VBLANK
                          (with_vblank_val 200000 (sim_powered hw_good))))))) /\
  long_exp_shift
    (dev (snd (imx708_set_ctrl V4L2_CID_VBLANK
                 (with_vblank_val 200000 (sim_powered hw_good))))) = 2 /\
  0 <= exposure_resolved
         (mode_of (dev (with_vblank_val 200000 (sim_powered hw_good))))
         (long_exp_shift
            (dev (snd (imx708_set_ctrl V4L2_CID_VBLANK
                         (with_vblank_val 200000 (sim_powered hw_good))))))
         150000
    <= frame_length_of
         (mode_of (dev (with_vblank_val 200000 (sim_powered hw_good))))
         (val (vblank (dev (with_vblank_val 200000 (sim_powered hw_good)))))
       / 2 ^ long_exp_shift
               (dev (snd (imx708_set_ctrl V4L2_CID_VBLANK
                            (with_vblank_val 200000
                               (sim_powered hw_good))))).
Proof.
  assert (Hin : in_use (with_vblank_val 200000 (sim_powered hw_good)) = true)
    by (now vm_compute).
  assert (Hv :
    vblank_min (mode_of (dev (with_vblank_val 200000 (sim_powered hw_good))))
     <= val (vblank (dev (with_vblank_val 200000 (sim_powered hw_good))))
     <= vblank_max
          (mode_of (dev (with_vblank_val 200000 (sim_powered hw_good)))))
    by (vm_compute; split; discriminate).
  assert (He :
    0 <= 150000
      <= maximum
           (exposure
              (dev (snd (imx708_set_ctrl V4L2_CID_VBLANK
                           (with_vblank_val 200000 (sim_powered hw_good)))))))
    by (vm_compute; split; discriminate).
  split; [now repeat split |]. split; [now vm_compute |].
  destruct (exposure_fits_register
              (with_vblank_val 200000 (sim_powered hw_good)) 150000 Hin Hv He)
    as (_ & _ & _ & Hx & _).
  exact Hx.
Defined.

Lemma requests_keep_tables_valid_witness :
  dev_ok (dev (sim_attached hw_good)) /\
  dev_ok
    (dev (handle_all [ S_STREAM 1; S_CTRL V4L2_CID_VBLANK 5000; S_STREAM 0 ]
            (sim_attached hw_good))).
Proof.
  assert (Hok : dev_ok (dev (sim_attached hw_good)))
    by (vm_compute; repeat split; apply Nat.leb_le; reflexivity).
  split; [exact Hok |].
  exact (proj1 (requests_keep_tables_valid
                  [ S_STREAM 1; S_CTRL V4L2_CID_VBLANK 5000; S_STREAM 0 ]
                  (sim_attached hw_good) Hok)).
Defined.

(** The first register of the common list, 0x0100 = 0x00. *)
Lemma register_tables_fit_witness :
  (In mode_common_regs
      (mode_common_regs ::
       map (fun m => regs (reg_list m)) supported_modes ++
       map regs link_freq_regs) /\
   In (Reg 0x0100 0x00) mode_common_regs) /\
  write_buf 0x0100 IMX708_REG_VALUE_08BIT 0x00 = [ 0x01; 0x00; 0x00 ].
Proof.
  assert (Hl : In mode_common_regs
                 (mode_common_regs ::
                  map (fun m => regs (reg_list m)) supported_modes ++
                  map regs link_freq_regs)) by (now left).
  assert (Hr : In (Reg 0x0100 0x00) mode_common_regs) by (now left).
  split; [now split |].
  exact (proj2 (proj2 (register_tables_fit mode_common_regs
                         (Reg 0x0100 0x00) Hl Hr))).
Defined.

(** One usage is held after a stream start. *)
Lemma usage_stays_balanced_witness :
  (usage_balanced (sim_attached hw_good) /\ (1 = 0 \/ 1 = 1)) /\
  usage_count (snd (handle (S_STREAM 1) (sim_attached hw_good))) = 1%nat /\
  usage_balanced (snd (handle (S_STREAM 1) (sim_attached hw_good))).
Proof.
  assert (Hb : usage_balanced (sim_attached hw_good)) by (now vm_compute).
  assert (He : 1 = 0 \/ 1 = 1) by (now right).
  split; [now split |]. split; [now vm_compute |].
  exact (usage_stays_balanced (S_STREAM 1) (sim_attached hw_good) Hb He).
Defined.

(** The digital gain of a freshly attached, powered device. *)
Lemma control_value_reaches_register_witness :
  (ctrl_reg V4L2_CID_DIGITAL_GAIN = Some IMX708_REG_DIGITAL_GAIN /\
   in_use (sim_powered hw_good) = true /\
   minimum (ctrl_of (imx708_init_controls kzalloc_imx708)
              V4L2_CID_DIGITAL_GAIN)
     <= val (ctrl_of (dev (sim_powered hw_good)) V4L2_CID_DIGITAL_GAIN)
     <= maximum (ctrl_of (imx708_init_controls kzalloc_imx708)
                   V4L2_CID_DIGITAL_GAIN)) /\
  val (ctrl_of (dev (sim_powered hw_good)) V4L2_CID_DIGITAL_GAIN) = 0x0100 /\
  dev (snd (imx708_set_ctrl V4L2_CID_DIGITAL_GAIN (sim_powered hw_good))) =
    dev (sim_powered hw_good).
Proof.
  assert (Hreg : ctrl_reg V4L2_CID_DIGITAL_GAIN = Some IMX708_REG_DIGITAL_GAIN)
    by reflexivity.
  assert (Hin : in_use (sim_powered hw_good) = true) by (now vm_compute).
  assert (Hv :
    minimum (ctrl_of (imx708_init_controls kzalloc_imx708)
               V4L2_CID_DIGITAL_GAIN)
      <= val (ctrl_of (dev (sim_powered hw_good)) V4L2_CID_DIGITAL_GAIN)
      <= maximum (ctrl_of (imx708_init_controls kzalloc_imx708)
                    V4L2_CID_DIGITAL_GAIN))
    by (vm_compute; split; discriminate).
  split; [now repeat split |]. split; [now vm_compute |].
  exact (proj1 (proj2 (control_value_reaches_register V4L2_CID_DIGITAL_GAIN
                         IMX708_REG_DIGITAL_GAIN (sim_powered hw_good)
                         Hreg Hin Hv))).
Defined.
